(** * PaddleFold (AlphaFold in Paddle): the recycling driver, the ensembling
    iteration, the Evoformer block and the chunked tensor modules.

    Shallow embedding of
      apps/paddlefold/alphafold_paddle/model/model.py
      apps/paddlefold/alphafold_paddle/model/modules.py

    Part I holds the definitions, Part II the lemmas and theorems. *)

From Stdlib Require Import ZArith Lia.
From stdpp Require Import base option list gmap strings fin_maps.

Local Open Scope Z_scope.

(* ===================================================================== *)
(** * Part I: definitions                                                *)
(* ===================================================================== *)

(** ** Python exceptions as an error monad *)

Inductive error : Type :=
  | AssertionError
  | KeyError (key : string)
  | IndexError
  | TypeError
  | ZeroDivisionError
  | ValueError (msg : string).

Inductive result (A : Type) : Type :=
  | Ok (a : A)
  | Raise (e : error).
Arguments Ok {A} a.
Arguments Raise {A} e.

#[global] Instance result_ret : MRet result := fun _ a => Ok a.
#[global] Instance result_bind : MBind result := fun _ _ f m =>
  match m with Ok a => f a | Raise e => Raise e end.
#[global] Instance result_fmap : FMap result := fun _ _ f m =>
  match m with Ok a => Ok (f a) | Raise e => Raise e end.

Definition is_Ok {A} (m : result A) : Prop := exists a, m = Ok a.

(** [d[k]] on a dict: KeyError when the key is absent. *)
Definition getitem {V} (d : gmap string V) (k : string) : result V :=
  match d !! k with Some v => Ok v | None => Raise (KeyError k) end.

(** [assert b]. *)
Definition assert_ (b : bool) : result unit :=
  if b then Ok tt else Raise AssertionError.

(** ** model.py: RunModel.update_subbatch_size *)

Record GlobalConfig : Type := {
  subbatch_size : Z;
  deterministic : bool;
  zero_init : bool;
}.

Definition set_subbatch_size (gc : GlobalConfig) (n : Z) : GlobalConfig :=
  {| subbatch_size := n; deterministic := deterministic gc; zero_init := zero_init gc |}.

(** The method mutates [self.alphafold.global_config.subbatch_size]; the
    state is passed explicitly. *)
Definition update_subbatch_size (gc : GlobalConfig) (seq_len extra_msa_num : Z)
  : result GlobalConfig :=
  if extra_msa_num =? 5120 then
    if seq_len <? 200 then Ok (set_subbatch_size gc 5120) else Ok gc
  else if extra_msa_num =? 1024 then
    if seq_len <? 600 then Ok (set_subbatch_size gc 1024) else Ok gc
  else Raise (ValueError "Unknown subbatch strategy").

(** ** Scalars

    The element type of a tensor, with the operations the modules use.  No
    law is built in: each theorem names the laws it needs, so that a result
    proved without any holds for IEEE floats as well. *)

Class Float (R : Type) : Type := {
  f0 : R;                       (* 0. *)
  f1 : R;                       (* 1. *)
  fadd : R → R → R;
  fsub : R → R → R;
  fmul : R → R → R;
  fdiv : R → R → R;
  fgtb : R → R → bool;          (* x > y *)
  of_Z : Z → R;                 (* float(n) *)
  to_Z : R → Z;                 (* int(x) *)
  lit : Z → Z → R;              (* decimal literal: lit m e is m * 10**e *)
  frsqrt : R → R;               (* x ** (-0.5) *)
  frelu : R → R;
  fsigmoid : R → R;
  softmax : list R → list R;    (* nn.functional.softmax on the last axis *)
}.

(** [x.astype(float)] of a boolean. *)
Definition of_bool `{Float R} (b : bool) : R := if b then f1 else f0.

(** ** Tensors held in dictionaries

    A batch, the representations and the head outputs are dictionaries of
    tensors of different ranks: an n-dimensional array is a tree of nested
    rows.  A paddle tensor also carries its [stop_gradient] attribute. *)

#[local] Unset Elimination Schemes.
Inductive ndarray (R : Type) : Type :=
  | Scalar (x : R)
  | Dim (rows : list (ndarray R)).
#[local] Set Elimination Schemes.
Arguments Scalar {R} x.
Arguments Dim {R} rows.

Record Tensor (R : Type) : Type := mkTensor {
  data : ndarray R;
  stop_gradient : bool;
}.
Arguments mkTensor {R} data stop_gradient.
Arguments data {R} t.
Arguments stop_gradient {R} t.

Section Ndarray.
Context {R : Type} `{Float R}.

(** [x.shape] *)
Fixpoint nd_shape (a : ndarray R) : list nat :=
  match a with
  | Scalar _ => []
  | Dim rows => length rows :: match rows with r :: _ => nd_shape r | [] => [] end
  end.

Fixpoint nd_map (f : R → R) (a : ndarray R) : ndarray R :=
  match a with
  | Scalar x => Scalar (f x)
  | Dim rows => Dim (map (nd_map f) rows)
  end.

(** Element-wise binary operation on two arrays of one shape (the only use
    here; paddle would broadcast or raise on others). *)
Fixpoint nd_zip (f : R → R → R) (a b : ndarray R) : ndarray R :=
  match a, b with
  | Scalar x, Scalar y => Scalar (f x y)
  | Dim r1, Dim r2 => Dim (zip_with (nd_zip f) r1 r2)
  | _, _ => a
  end.

(** [x[0]] *)
Definition nd_index0 (i : nat) (a : ndarray R) : result (ndarray R) :=
  match a with
  | Dim rows => match rows !! i with Some r => Ok r | None => Raise IndexError end
  | Scalar _ => Raise IndexError
  end.

(** [x[:, i]] *)
Definition nd_index1 (i : nat) (a : ndarray R) : result (ndarray R) :=
  match a with
  | Dim rows => Dim <$> mapM (nd_index0 i) rows
  | Scalar _ => Raise IndexError
  end.

(** Python's clamping of a slice bound on an axis of length [len]. *)
Definition slice_bound (len : nat) (i : Z) : nat :=
  Z.to_nat (if i <? 0 then Z.max 0 (i + Z.of_nat len) else Z.min i (Z.of_nat len)).

(** [l[start:stop]] on a list. *)
Definition py_slice {A} (start stop : Z) (l : list A) : list A :=
  let s := slice_bound (length l) start in
  let e := slice_bound (length l) stop in
  take (e - s)%nat (drop s l).

(** [x[:, start:stop]] *)
Definition nd_slice1 (start stop : Z) (a : ndarray R) : result (ndarray R) :=
  match a with
  | Dim rows =>
      Dim <$> mapM (λ r, match r with
                         | Dim l => Ok (Dim (py_slice start stop l))
                         | Scalar _ => Raise IndexError
                         end) rows
  | Scalar _ => Raise IndexError
  end.

(** [x[..., None]] *)
Fixpoint nd_unsqueeze_last (a : ndarray R) : ndarray R :=
  match a with
  | Scalar x => Dim [Scalar x]
  | Dim rows => Dim (map nd_unsqueeze_last rows)
  end.

(** [paddle.tile(x, repeat_times)], one repeat count per axis of [x]. *)
Fixpoint nd_tile (repeat_times : list nat) (a : ndarray R) : ndarray R :=
  match a with
  | Scalar x => Scalar x
  | Dim rows =>
      match repeat_times with
      | r :: rs => Dim (mjoin (replicate r (map (nd_tile rs) rows)))
      | [] => Dim rows
      end
  end.

(** The array of shape [shape] filled with [x]. *)
Fixpoint nd_full (shape : list nat) (x : R) : ndarray R :=
  match shape with
  | [] => Scalar x
  | n :: s => Dim (replicate n (nd_full s x))
  end.

(** [int(x)] / [x.item()] of an array with one element. *)
Fixpoint nd_item (a : ndarray R) : result R :=
  match a with
  | Scalar x => Ok x
  | Dim [r] => nd_item r
  | Dim _ => Raise TypeError
  end.

(** [x.shape[i]] *)
Definition shape_at (a : ndarray R) (i : nat) : result nat :=
  match nd_shape a !! i with Some n => Ok n | None => Raise IndexError end.

(** *** The same on tensors.  An operation's result needs no gradient when
    none of its inputs does; a created tensor needs none. *)

Definition tensor_index1 (i : nat) (t : Tensor R) : result (Tensor R) :=
  (λ d, mkTensor d (stop_gradient t)) <$> nd_index1 i (data t).

Definition tensor_slice1 (start stop : Z) (t : Tensor R) : result (Tensor R) :=
  (λ d, mkTensor d (stop_gradient t)) <$> nd_slice1 start stop (data t).

(** [a += b] *)
Definition tensor_iadd (a b : Tensor R) : Tensor R :=
  mkTensor (nd_zip fadd (data a) (data b)) (stop_gradient a && stop_gradient b).

(** [a /= c] for a Python float [c] *)
Definition tensor_idiv (a : Tensor R) (c : R) : Tensor R :=
  mkTensor (nd_map (λ x, fdiv x c) (data a)) (stop_gradient a).

(** [paddle.zeros_like(x, dtype='float32')] *)
Definition zeros_like (t : Tensor R) : Tensor R :=
  mkTensor (nd_map (λ _, f0) (data t)) true.

Definition tensor_unsqueeze_last (t : Tensor R) : Tensor R :=
  mkTensor (nd_unsqueeze_last (data t)) (stop_gradient t).

Definition tensor_tile (repeat_times : list nat) (t : Tensor R) : Tensor R :=
  mkTensor (nd_tile repeat_times (data t)) (stop_gradient t).

(** [x.stop_gradient = True] *)
Definition set_stop_gradient (t : Tensor R) : Tensor R :=
  mkTensor (data t) true.

(** *** Dictionaries of tensors *)

(** A dict comprehension [{k: f(k, v) for k, v in d.items()}] whose body may
    raise. *)
Definition dict_imapM {A B} (f : string → A → result B) (d : gmap string A)
  : result (gmap string B) :=
  list_to_map <$> mapM (λ kv, (λ b, (kv.1, b)) <$> f kv.1 kv.2) (map_to_list d).

Definition dict_mapM {A B} (f : A → result B) (d : gmap string A)
  : result (gmap string B) :=
  dict_imapM (λ _, f) d.

(** A [for] loop threading a value through a body that may raise. *)
Fixpoint foldlM {A B} (f : A → B → result A) (a : A) (l : list B) : result A :=
  match l with
  | [] => Ok a
  | x :: l' => a' ← f a x; foldlM f a' l'
  end.

End Ndarray.

(** ** modules.py: AlphaFoldIteration *)

(** What a head returns: its dict of tensors and, for the structure module,
    the extra ['representations'] entry that [forward] pops out of it. *)
Record HeadOutput (R : Type) : Type := mkHeadOutput {
  head_tensors : gmap string (Tensor R);
  head_representations : option (gmap string (Tensor R));
}.
Arguments mkHeadOutput {R} _ _.
Arguments head_tensors {R} _.
Arguments head_representations {R} _.

(** The dict that [EmbeddingsAndEvoformer.forward] returns has exactly the
    keys 'single', 'pair', 'msa' and 'msa_first_row'. *)
Record EvoformerOutput (R : Type) : Type := mkEvoformerOutput {
  out_single : Tensor R;
  out_pair : Tensor R;
  out_msa : Tensor R;
  out_msa_first_row : Tensor R;
}.
Arguments mkEvoformerOutput {R} _ _ _ _.
Arguments out_single {R} _.
Arguments out_pair {R} _.
Arguments out_msa {R} _.
Arguments out_msa_first_row {R} _.

Record HeadConfig : Type := { weight : Z }.

(** The modules an [AlphaFoldIteration] owns.  [evoformer] stands for
    [EmbeddingsAndEvoformer.forward]; [head_module name] for
    [getattr(self, Head_names.get(name, name))], which for 'structure_module'
    is [folding.StructureModule], a module outside these two files.
    [heads_items] is [sorted(self.config.heads.items())]. *)
Record AlphaFoldIteration (R : Type) : Type := mkAlphaFoldIteration {
  heads_items : list (string * HeadConfig);
  evoformer : gmap string (Tensor R) → result (EvoformerOutput R);
  head_module : string → gmap string (Tensor R) → gmap string (Tensor R)
                → result (HeadOutput R);
}.
Arguments mkAlphaFoldIteration {R} _ _ _.
Arguments heads_items {R} _.
Arguments evoformer {R} _ _.
Arguments head_module {R} _ _ _ _.

Section AlphaFoldIteration.
Context {R : Type} `{Float R}.

#[local] Abbreviation Dict := (gmap string (Tensor R)).
(** The nested prediction dict, head name (or 'representations') to dict. *)
#[local] Abbreviation Output := (gmap string (gmap string (Tensor R))).

Definition output_dict (o : EvoformerOutput R) : Dict :=
  {[ "single" := out_single o; "pair" := out_pair o;
     "msa" := out_msa o; "msa_first_row" := out_msa_first_row o ]}.

(** The keys of [Head_modules]. *)
Definition Head_modules : list string :=
  ["structure_module"; "predicted_lddt"; "predicted_aligned_error"; "distogram"].

(** [self.used_heads], as [__init__] builds it. *)
Definition used_heads (self : AlphaFoldIteration R) : list string :=
  (filter (λ hc : string * HeadConfig,
             weight hc.2 ≠ 0 ∧ hc.1 ∈ Head_modules) (heads_items self)).*1.

(** [list.remove(x)]: drops the first occurrence. *)
Fixpoint list_remove (x : string) (l : list string) : list string :=
  match l with
  | [] => []
  | y :: l' => if decide (y = x) then l' else y :: list_remove x l'
  end.

Definition _get_heads (self : AlphaFoldIteration R) : result (list string) :=
  _ ← assert_ (bool_decide ("structure_module" ∈ used_heads self));
  mret ("structure_module" :: list_remove "structure_module" (used_heads self)).

Definition _slice_batch (ensembled_batch non_ensembled_batch : Dict) (i : nat)
  : result Dict :=
  b ← dict_mapM (tensor_index1 i) ensembled_batch;
  mret (non_ensembled_batch ∪ b).          (* b.update(non_ensembled_batch) *)

(** [for k in representations.keys(): representations[k] += update[k]] *)
Definition iadd_all (representations update : Dict) : result Dict :=
  dict_imapM (λ k v, u ← getitem update k; mret (tensor_iadd v u)) representations.

(** [for k in representations.keys(): representations[k] /= n + 0.0] *)
Definition idiv_all (representations : Dict) (n : nat) : Dict :=
  (λ v, tensor_idiv v (of_Z (Z.of_nat n))) <$> representations.

(** One pass of the loop over the heads.  [ret['representations']] is the
    very dict [representations], so the loop state is that dict and the
    head entries of [ret]. *)
Definition run_head (self : AlphaFoldIteration R) (batch0 : Dict)
    (st : Dict * Output) (head_name : string) : result (Dict * Output) :=
  let '(representations, ret) := st in
  out ← head_module self head_name representations batch0;
  let ret := <[head_name := head_tensors out]> ret in
  match head_representations out with
  | Some extra => mret (extra ∪ representations, ret)  (* representations.update *)
  | None => mret (representations, ret)
  end.

Definition ensemble_step (self : AlphaFoldIteration R)
    (ensembled_batch non_ensembled_batch : Dict)
    (representations : Dict) (i : nat) : result Dict :=
  batch ← _slice_batch ensembled_batch non_ensembled_batch i;
  representations_update ← evoformer self batch;
  iadd_all representations (output_dict representations_update).

Definition AlphaFoldIteration_forward (self : AlphaFoldIteration R)
    (ensembled_batch non_ensembled_batch : Dict)
    (ensemble_representations : bool) : result Output :=
  seq_length ← getitem ensembled_batch "seq_length";
  num_ensemble ← shape_at (data seq_length) 1;
  _ ← (if negb ensemble_representations
       then assert_ (num_ensemble =? 1)%nat else mret tt);
  batch0 ← _slice_batch ensembled_batch non_ensembled_batch 0;
  representations ← output_dict <$> evoformer self batch0;
  (* MSA representations are not ensembled *)
  msa_representation ← getitem representations "msa";
  let representations := delete "msa" representations in
  representations ←
    (if ensemble_representations then
       representations ←
         foldlM (ensemble_step self ensembled_batch non_ensembled_batch)
                representations (seq 1 (num_ensemble - 1));
       mret (idiv_all representations num_ensemble)
     else mret representations);
  let representations := <["msa" := msa_representation]> representations in
  head_names ← _get_heads self;
  '(representations, ret) ←
    foldlM (run_head self batch0) (representations, ∅) head_names;
  mret (<["representations" := representations]> ret).

End AlphaFoldIteration.

(** ** modules.py: AlphaFold, the recycling driver *)

Record EmbeddingsConfig : Type := {
  msa_channel : Z;
  pair_channel : Z;
}.

Record ModelConfig : Type := {
  num_recycle : Z;
  resample_msa_in_recycling : bool;
  embeddings_and_evoformer : EmbeddingsConfig;
}.

Record AlphaFold (R : Type) : Type := mkAlphaFold {
  config : ModelConfig;
  alphafold_iteration : AlphaFoldIteration R;
}.
Arguments mkAlphaFold {R} _ _.
Arguments config {R} _.
Arguments alphafold_iteration {R} _.

(** Modelled from the spec: [residue_constants.atom_type_num], a constant of
    a module outside these two files; the spec gives the atom axis of
    [final_atom_positions] as 37 (shape [1, 10, 37, 3]). *)
Definition atom_type_num : nat := 37.

(** One invocation of [self.alphafold_iteration]: its three arguments. *)
Record Invocation (R : Type) : Type := mkInvocation {
  inv_ensembled_batch : gmap string (Tensor R);
  inv_non_ensembled_batch : gmap string (Tensor R);
  inv_ensemble_representations : bool;
}.
Arguments mkInvocation {R} _ _ _.
Arguments inv_ensembled_batch {R} _.
Arguments inv_non_ensembled_batch {R} _.
Arguments inv_ensemble_representations {R} _.

(** The driver runs in a monad that records every invocation of the
    iteration, in order, and stops at the first exception. *)
Definition traced (R A : Type) : Type :=
  list (Invocation R) → result A * list (Invocation R).

#[global] Instance traced_ret {R} : MRet (traced R) := λ _ a log, (Ok a, log).
#[global] Instance traced_bind {R} : MBind (traced R) := λ _ _ f m log,
  match m log with
  | (Ok a, log') => f a log'
  | (Raise e, log') => (Raise e, log')
  end.

Definition lift {R A} (m : result A) : traced R A := λ log, (m, log).

Fixpoint foldlT {R A B} (f : A → B → traced R A) (a : A) (l : list B)
  : traced R A :=
  match l with
  | [] => mret a
  | x :: l' => a' ← f a x; foldlT f a' l'
  end.

Section AlphaFold.
Context {R : Type} `{Float R}.

#[local] Abbreviation Dict := (gmap string (Tensor R)).
#[local] Abbreviation Output := (gmap string (gmap string (Tensor R))).

(** The call [self.alphafold_iteration(...)]. *)
Definition call_iteration (self : AlphaFold R)
    (ensembled_batch non_ensembled_batch : Dict)
    (ensemble_representations : bool) : traced R Output :=
  λ log,
    (AlphaFoldIteration_forward (alphafold_iteration self)
       ensembled_batch non_ensembled_batch ensemble_representations,
     log ++ [mkInvocation ensembled_batch non_ensembled_batch
               ensemble_representations]).

Definition _get_prev (ret : Output) : result Dict :=
  structure_module ← getitem ret "structure_module";
  final_atom_positions ← getitem structure_module "final_atom_positions";
  representations ← getitem ret "representations";
  msa_first_row ← getitem representations "msa_first_row";
  pair ← getitem representations "pair";
  let new_prev : Dict :=
    {[ "prev_pos" := final_atom_positions;
       "prev_msa_first_row" := msa_first_row;
       "prev_pair" := pair ]} in
  (* for k in new_prev.keys(): new_prev[k].stop_gradient = True *)
  mret (set_stop_gradient <$> new_prev).

Definition _run_single_recycling (self : AlphaFold R) (batch : Dict)
    (inner_batch : nat) (ensemble_representations : bool)
    (prev : Dict) (recycle_idx : Z) : traced R Output :=
  ensembled_batch ←
    lift (if resample_msa_in_recycling (config self) then
            (* (B, (R+1)*E, N, ...) *)
            _ ← (if num_recycle (config self) + 1 =? 0
                 then Raise ZeroDivisionError else mret tt);
            let num_ensemble :=
              Z.of_nat inner_batch `div` (num_recycle (config self) + 1) in
            let start := recycle_idx * num_ensemble in
            let end_ := start + num_ensemble in
            dict_mapM (tensor_slice1 start end_) batch
          else
            (* (B, E, N, ...) *)
            mret batch);
  let non_ensembled_batch := prev in
  call_iteration self ensembled_batch non_ensembled_batch
    ensemble_representations.

(** The three zero tensors of the initial recycling state. *)
Definition initial_prev (self : AlphaFold R) (batch : Dict) (num_residues : nat)
  : result Dict :=
  aatype ← getitem batch "aatype";
  (* aatype: (B, E, N), zeros_bn: (B, N) *)
  zeros_bn ← zeros_like <$> tensor_index1 0 aatype;
  let emb_config := embeddings_and_evoformer (config self) in
  mret ({[ "prev_pos" :=
             tensor_tile [1; 1; atom_type_num; 3]%nat
               (tensor_unsqueeze_last (tensor_unsqueeze_last zeros_bn));
           "prev_msa_first_row" :=
             tensor_tile [1; 1; Z.to_nat (msa_channel emb_config)]%nat
               (tensor_unsqueeze_last zeros_bn);
           "prev_pair" :=
             tensor_tile [1; 1; num_residues;
                          Z.to_nat (pair_channel emb_config)]%nat
               (tensor_unsqueeze_last (tensor_unsqueeze_last zeros_bn)) ]}
        : Dict).

(** [num_iter] as the [if self.config.num_recycle:] branch computes it. *)
Definition get_num_iter (self : AlphaFold R) (batch : Dict) : result Z :=
  match batch !! "num_iter_recycling" with
  | Some t =>
      first ← nd_index0 0 (data t);
      num_iter ← nd_item first;
      mret (Z.min (to_Z num_iter) (num_recycle (config self)))
  | None => mret (num_recycle (config self))
  end.

(** [range(n)] *)
Definition py_range (n : Z) : list Z := Z.of_nat <$> seq 0 (Z.to_nat n).

Definition recycle_step (self : AlphaFold R) (batch : Dict) (inner_batch : nat)
    (ensemble_representations : bool) (prev : Dict) (recycle_idx : Z)
  : traced R Dict :=
  ret ← _run_single_recycling self batch inner_batch ensemble_representations
          prev recycle_idx;
  lift (_get_prev ret).

Definition AlphaFold_forward (self : AlphaFold R) (batch : Dict)
    (ensemble_representations return_representations : bool)
  : traced R Output :=
  aatype ← lift (getitem batch "aatype");
  '(inner_batch, num_residues) ←
    lift (match nd_shape (data aatype) with
          | [_; e; n] => Ok (e, n)
          | _ => Raise (ValueError "unpack")
          end);
  '(prev, num_iter) ←
    (if bool_decide (num_recycle (config self) ≠ 0) then
       prev ← lift (initial_prev self batch num_residues);
       num_iter ← lift (get_num_iter self batch);
       prev ← foldlT (recycle_step self batch inner_batch
                        ensemble_representations)
                     prev (py_range num_iter);
       mret (prev, num_iter)
     else
       mret (∅, 0));
  ret ← _run_single_recycling self batch inner_batch ensemble_representations
          prev num_iter;
  mret (if return_representations then ret
        else delete "representations" ret).

End AlphaFold.

(** ** Tensors of the numerical modules

    Inside a module every tensor has a known rank: nested lists. *)

Abbreviation T1 R := (list R).
Abbreviation T2 R := (list (list R)).
Abbreviation T3 R := (list (list (list R))).
Abbreviation T4 R := (list (list (list (list R)))).
Abbreviation T5 R := (list (list (list (list (list R))))).

#[global] Instance Float_inhabited `{Float R} : Inhabited R := populate f0.

Section TensorOps.
Context {R : Type} `{Float R}.

(** [[f(0), ..., f(n-1)]] *)
Definition tab {A} (n : nat) (f : nat → A) : list A := f <$> seq 0 n.

(** [x.shape[1]], [x.shape[2]] and [x.shape[3]], read off the first rows. *)
Definition width1 {A} (t : list (list A)) : nat :=
  match t with r :: _ => length r | [] => 0 end.
Definition width2 {A} (t : list (list (list A))) : nat :=
  match t with r :: _ => width1 r | [] => 0 end.
Definition width3 {A} (t : list (list (list (list A)))) : nat :=
  match t with r :: _ => width2 r | [] => 0 end.

(** Indexing an axis that broadcasts when it has length one. *)
Definition bget {A} `{Inhabited A} (l : list A) (i : nat) : A :=
  if (length l =? 1)%nat then l !!! 0%nat else l !!! i.

Definition map2 {A B} (f : A → B) (t : list (list A)) : list (list B) :=
  (λ r : list A, f <$> r) <$> t.
Definition map3 {A B} (f : A → B) (t : list (list (list A)))
  : list (list (list B)) :=
  map2 f <$> t.
Definition map4 {A B} (f : A → B) (t : list (list (list (list A))))
  : list (list (list (list B))) :=
  map3 f <$> t.

(** Element-wise operation on two tensors of one shape. *)
Definition zip4 (f : R → R → R) : T4 R → T4 R → T4 R :=
  zip_with (zip_with (zip_with (zip_with f))).

(** [paddle.sum] of a vector, and of all the elements of a matrix. *)
Definition vsum (v : T1 R) : R := foldr fadd f0 v.
Definition sum2 (t : T2 R) : R := vsum (vsum <$> t).

(** [x.transpose] swapping two adjacent axes of a matrix of [A]s. *)
Definition transpose {A} `{Inhabited A} (m : list (list A)) : list (list A) :=
  tab (width1 m) (λ j, (λ row, row !!! j) <$> m).

(** [x.transpose([0, 2, 1, ...])]: axes 1 and 2 swapped. *)
Definition transpose_021 {A} `{Inhabited A} (t : list (list (list A)))
  : list (list (list A)) :=
  (λ m : list (list A), transpose m) <$> t.

(** [x[:, start:stop]] and [x[:, :, start:stop]] for [0 <= start <= stop]. *)
Definition slice_ax1 {A} (start stop : nat) (t : list (list A)) : list (list A) :=
  (λ r, take (stop - start) (drop start r)) <$> t.
Definition slice_ax2 {A} (start stop : nat) (t : list (list (list A)))
  : list (list (list A)) :=
  slice_ax1 start stop <$> t.

(** [paddle.concat(outs, axis)] for axis 1 and 2; it raises on no input. *)
Definition concat_ax1 {A} (outs : list (list (list A))) : result (list (list A)) :=
  match outs with
  | [] => Raise (ValueError "concat of no tensor")
  | o :: os => Ok (foldl (zip_with app) o os)
  end.
Definition concat_ax2 {A} (outs : list (list (list (list A))))
  : result (list (list (list A))) :=
  match outs with
  | [] => Raise (ValueError "concat of no tensor")
  | o :: os => Ok (foldl (zip_with (zip_with app)) o os)
  end.

(** [t[i, j]] and [t[b, i, j, k]], [None] out of range. *)
Definition get2 {A} (t : list (list A)) (i j : nat) : option A :=
  r ← t !! i; r !! j.
Definition get4 {A} (t : list (list (list (list A)))) (b i j k : nat) : option A :=
  tb ← t !! b; v ← get2 tb i j; (v : list A) !! k.

(** Well-formed tensors: the lengths of the outer one to four axes. *)
Definition shaped1 {A} (n : nat) (v : list A) : Prop := length v = n.
Definition shaped2 {A} (n m : nat) (t : list (list A)) : Prop :=
  length t = n ∧ Forall (shaped1 m) t.
Definition shaped3 {A} (a b c : nat) (t : list (list (list A))) : Prop :=
  length t = a ∧ Forall (shaped2 b c) t.
Definition shaped4 {A} (a b c d : nat) (t : list (list (list (list A)))) : Prop :=
  length t = a ∧ Forall (shaped3 b c d) t.

(** *** nn.Linear and nn.LayerNorm, acting on the last axis *)

Record Linear : Type := mkLinear {
  weight_ : T2 R;           (* [in, out] *)
  bias_ : T1 R;             (* [out] *)
}.

Definition Linear_forward (l : Linear) (x : T1 R) : T1 R :=
  tab (length (bias_ l))
      (λ o, fadd (vsum (zip_with (λ xa row, fmul xa (row !!! o)) x (weight_ l)))
                 (bias_ l !!! o)).

(** A layer norm with its learned scale and offset: a function of the
    vector along the normalised axis. *)
Definition LayerNorm : Type := T1 R → T1 R.

(** [mask * x] for a mask unsqueezed on the last axis. *)
Definition mul_mask (mask : T3 R) (x : T4 R) : T4 R :=
  zip_with (zip_with (zip_with (λ m v, fmul m <$> v))) mask x.

(** [1e9 * (mask - 1.)], element-wise. *)
Definition mask_bias (m : R) : R := fmul (lit 1 9) (fsub m f1).

End TensorOps.

(** ** utils.subbatch

    Modelled from the spec: [subbatch] lives in alphafold_paddle/model/utils.py,
    which is not among the sources.  Spec, section 4.2: the operation is
    evaluated "by slicing one or more input tensors along a specified axis
    into chunks of a configured size, invoking the underlying operation per
    chunk, and concatenating results along a specified output axis".
    [slice] slices the designated arguments ([arg_idx], [dim]), [width] is
    the length of the sliced axis, [concat] concatenates along [out_idx]. *)

Fixpoint chunk_starts_from (fuel start width bs : nat) : list nat :=
  match fuel with
  | O => []
  | S fuel' =>
      if (start <? width)%nat
      then start :: chunk_starts_from fuel' (start + bs) width bs
      else []
  end.

(** The chunk offsets 0, bs, 2 bs, ... below [width]. *)
Definition chunk_starts (width bs : nat) : list nat :=
  chunk_starts_from width 0 width bs.

Definition subbatch {Args Out : Type}
    (slice : nat → nat → Args → Args) (width : Args → nat)
    (concat : list Out → result Out)
    (f : Args → Out) (bs : nat) (args : Args) : result Out :=
  concat ((λ start, f (slice start (start + bs)%nat args))
            <$> chunk_starts (width args) bs).

(** ** modules.py: Attention *)

Record Attention (R : Type) : Type := mkAttention {
  att_gating : bool;          (* self.config.gating *)
  att_key_dim : Z;            (* self.key_dim, per head *)
  att_query_w : T3 R;         (* [q_dim, num_head, key_dim] *)
  att_key_w : T3 R;           (* [kv_dim, num_head, key_dim] *)
  att_value_w : T3 R;         (* [kv_dim, num_head, value_dim] *)
  att_gating_w : T3 R;        (* [q_dim, num_head, value_dim] *)
  att_gating_b : T2 R;        (* [num_head, value_dim] *)
  att_output_w : T3 R;        (* [num_head, value_dim, output_dim] *)
  att_output_b : T1 R;        (* [output_dim] *)
}.
Arguments mkAttention {R}.
Arguments att_gating {R} _.
Arguments att_key_dim {R} _.
Arguments att_query_w {R} _.
Arguments att_key_w {R} _.
Arguments att_value_w {R} _.
Arguments att_gating_w {R} _.
Arguments att_gating_b {R} _.
Arguments att_output_w {R} _.
Arguments att_output_b {R} _.

Section Attention.
Context {R : Type} `{Float R}.

Definition dot (x y : T1 R) : R := vsum (zip_with fmul x y).

(** [einsum('a,ahc->hc', x, w)] *)
Definition einsum_a_ahc (x : T1 R) (w : T3 R) : T2 R :=
  tab (width1 w) (λ h, tab (width2 w) (λ c,
    vsum (zip_with (λ xa wa, fmul xa ((wa !!! h) !!! c)) x w))).

(** [einsum('hc,hco->o', x, w)] *)
Definition einsum_hc_hco (x : T2 R) (w : T3 R) : T1 R :=
  tab (width2 w) (λ o,
    vsum (zip_with (λ xh wh, vsum (zip_with (λ xc whc, fmul xc (whc !!! o)) xh wh))
                   x w)).

(** The attention of one row [(n, b)]: queries [q, a], memories [k, a], the
    row's bias [h|1, q|1, k] and the shared bias [h, q, k]. *)
Definition attention_row (self : Attention R) (q_data m_data : T2 R)
    (bias : T3 R) (nonbatched_bias : option (T3 R)) : T2 R :=
  let c := frsqrt (of_Z (att_key_dim self)) in
  let num_head := width1 (att_query_w self) in
  let q : T3 R :=                                                (* [q, h, c] *)
    (λ x, map2 (λ y, fmul y c) (einsum_a_ahc x (att_query_w self))) <$> q_data in
  let k : T3 R := (λ x, einsum_a_ahc x (att_key_w self)) <$> m_data in
  let v : T3 R := (λ x, einsum_a_ahc x (att_value_w self)) <$> m_data in
  let logits : T3 R :=                                           (* [h, q, k] *)
    tab num_head (λ h,
      imap (λ qi qq,
        imap (λ ki kk, fadd (dot (qq !!! h) (kk !!! h))
                            (bget (bget bias h) qi !!! ki)) k) q) in
  let logits :=
    match nonbatched_bias with
    | Some nb => zip_with (zip_with (zip_with fadd)) logits nb
    | None => logits
    end in
  let weights := map2 softmax logits in
  let weighted_avg : T3 R :=                                     (* [q, h, c] *)
    imap (λ qi _,
      tab num_head (λ h, tab (width2 (att_value_w self)) (λ c,
        vsum (imap (λ ki vk, fmul (((weights !!! h) !!! qi) !!! ki) ((vk !!! h) !!! c))
                   v)))) q in
  let weighted_avg :=
    if att_gating self then
      let gate_values : T3 R :=
        (λ x, map2 fsigmoid
                (zip_with (zip_with fadd) (einsum_a_ahc x (att_gating_w self))
                          (att_gating_b self))) <$> q_data in
      zip_with (zip_with (zip_with fmul)) weighted_avg gate_values
    else weighted_avg in
  (λ wa, zip_with fadd (einsum_hc_hco wa (att_output_w self)) (att_output_b self))
    <$> weighted_avg.

(** [Attention.forward]: q_data [n, b, q, a], m_data [n, b, k, a], bias
    broadcastable to [n, b, h, q, k], nonbatched_bias [n, h, q, k] or None.
    Every einsum has the leading axes [nb] on both sides: the rows are
    computed one by one. *)
Definition Attention_forward (self : Attention R) (q_data m_data : T4 R)
    (bias : T5 R) (nonbatched_bias : option (T4 R)) : T4 R :=
  imap (λ n (qn : T3 R),
    imap (λ b q_row,
      attention_row self q_row ((m_data !!! n) !!! b) (bget (bias !!! n) b)
        ((λ nb : T4 R, nb !!! n) <$> nonbatched_bias)) qn) q_data.

(** [subbatch(self.attention, [0, 1, 2], [1, 1, 1], bs, 1)]: q_data, m_data
    and bias are sliced along axis 1, the shared bias is passed whole. *)
Definition sb_attn (self : Attention R) (bs : nat)
    (q_data m_data : T4 R) (bias : T5 R) (nonbatched_bias : option (T4 R))
  : result (T4 R) :=
  subbatch
    (λ s e '(q, m, b), (slice_ax1 s e q, slice_ax1 s e m, slice_ax1 s e b))
    (λ '(q, _, _), width1 q) concat_ax1
    (λ '(q, m, b), Attention_forward self q m b nonbatched_bias)
    bs (q_data, m_data, bias).

(** [subbatch(self.attention, [0, 1], [1, 1], bs, 1)], as the template
    embedding calls it: the bias is passed whole too. *)
Definition sb_attn_qm (self : Attention R) (bs : nat)
    (q_data m_data : T4 R) (bias : T5 R) : result (T4 R) :=
  subbatch
    (λ s e '(q, m), (slice_ax1 s e q, slice_ax1 s e m))
    (λ '(q, _), width1 q) concat_ax1
    (λ '(q, m), Attention_forward self q m bias None)
    bs (q_data, m_data).

End Attention.

(** ** modules.py: GlobalAttention and MSAColumnGlobalAttention *)

Record GlobalAttention (R : Type) : Type := mkGlobalAttention {
  ga_gating : bool;
  ga_key_dim : Z;
  ga_query_w : T3 R;          (* [q_dim, num_head, key_dim] *)
  ga_key_w : T2 R;            (* [kv_dim, key_dim]: no heads *)
  ga_value_w : T2 R;          (* [kv_dim, value_dim] *)
  ga_gating_w : T3 R;
  ga_gating_b : T2 R;
  ga_output_w : T3 R;
  ga_output_b : T1 R;
}.
Arguments mkGlobalAttention {R}.
Arguments ga_gating {R} _.
Arguments ga_key_dim {R} _.
Arguments ga_query_w {R} _.
Arguments ga_key_w {R} _.
Arguments ga_value_w {R} _.
Arguments ga_gating_w {R} _.
Arguments ga_gating_b {R} _.
Arguments ga_output_w {R} _.
Arguments ga_output_b {R} _.

Section GlobalAttention.
Context {R : Type} `{Float R}.

(** [utils.mask_mean(mask, value, axis=2)], a function of a file that is not
    among the sources: a parameter.  It maps q_mask [n, b, q, 1] and q_data
    [n, b, q, a] to the pooled queries [n, b, a]. *)
Variable mask_mean : T4 R → T4 R → T3 R.

(** [einsum('a,ac->c', x, w)] *)
Definition einsum_a_ac (x : T1 R) (w : T2 R) : T1 R :=
  tab (width1 w) (λ c, vsum (zip_with (λ xa wa, fmul xa (wa !!! c)) x w)).

Definition global_attention_row (self : GlobalAttention R)
    (q_data m_data : T2 R) (q_avg : T1 R) (q_mask : T2 R) : T2 R :=
  let k : T2 R := (λ x, einsum_a_ac x (ga_key_w self)) <$> m_data in
  let v : T2 R := (λ x, einsum_a_ac x (ga_value_w self)) <$> m_data in
  let c := frsqrt (of_Z (ga_key_dim self)) in
  let q : T2 R :=                                                   (* [h, c] *)
    map2 (λ y, fmul y c) (einsum_a_ahc q_avg (ga_query_w self)) in
  (* q_mask: [q, 1] -> unsqueeze -> [..., 0] -> [1, q] *)
  let q_mask_ : T2 R := [(λ r : T1 R, r !!! 0%nat) <$> q_mask] in
  let bias : T2 R := map2 mask_bias q_mask_ in
  let logits : T2 R :=                                              (* [h, k] *)
    imap (λ h qh, imap (λ ki kk, fadd (dot qh kk) (bget bias h !!! ki)) k) q in
  let weights := softmax <$> logits in
  let weighted_avg : T2 R :=                                        (* [h, c] *)
    (λ wh, tab (width1 (ga_value_w self))
               (λ c, vsum (zip_with (λ w vk, fmul w (vk !!! c)) wh v)))
      <$> weights in
  if ga_gating self then
    let gate_values : T3 R :=                                    (* [q, h, v] *)
      (λ x, map2 fsigmoid
              (zip_with (zip_with fadd) (einsum_a_ahc x (ga_gating_w self))
                        (ga_gating_b self))) <$> q_data in
    (λ g, zip_with fadd
            (einsum_hc_hco (zip_with (zip_with fmul) weighted_avg g)
                           (ga_output_w self))
            (ga_output_b self)) <$> gate_values
  else
    let output : T1 R :=
      zip_with fadd (einsum_hc_hco weighted_avg (ga_output_w self))
               (ga_output_b self) in
    (λ x, [x]) <$> output.                       (* unsqueeze(output, axis=-1) *)

(** [GlobalAttention.forward].  The [bias] argument is overwritten by
    [1e9 * (q_mask_ - 1.)] before its first use. *)
Definition GlobalAttention_forward (self : GlobalAttention R)
    (q_data m_data q_mask : T4 R) (bias : T5 R) : T4 R :=
  let q_avg := mask_mean q_mask q_data in
  imap (λ n (qn : T3 R),
    imap (λ b q_row,
      global_attention_row self q_row ((m_data !!! n) !!! b)
        ((q_avg !!! n) !!! b) ((q_mask !!! n) !!! b)) qn) q_data.

Record MSAColumnGlobalAttention : Type := mkMSAColumnGlobalAttention {
  mcga_query_norm : LayerNorm (R := R);
  mcga_attention : GlobalAttention R;
}.

(** [MSAColumnGlobalAttention.forward], with the bias it hands to the
    attention left open: [bias_of] builds it from the transposed mask. *)
Definition MSAColumnGlobalAttention_forward_with (bias_of : T3 R → T5 R)
    (self : MSAColumnGlobalAttention) (gc : GlobalConfig) (training : bool)
    (msa_act : T4 R) (msa_mask : T3 R) : result (T4 R) :=
  let msa_act := transpose_021 msa_act in
  let msa_mask := transpose_021 msa_mask in
  let bias := bias_of msa_mask in
  let msa_mask : T4 R := map3 (λ x, [x]) msa_mask in
  let msa_act := map3 (mcga_query_norm self) msa_act in
  msa_act ←
    (if negb training then
       (* low memory mode using subbatch *)
       subbatch
         (λ s e '(q, m, k), (slice_ax1 s e q, slice_ax1 s e m, slice_ax1 s e k))
         (λ '(q, _, _), width1 q) concat_ax1
         (λ '(q, m, k), GlobalAttention_forward (mcga_attention self) q m k bias)
         (Z.to_nat (subbatch_size gc)) (msa_act, msa_act, msa_mask)
     else
       Ok (GlobalAttention_forward (mcga_attention self)
             msa_act msa_act msa_mask bias));
  mret (transpose_021 msa_act).

(** [bias = 1e9 * (msa_mask - 1.)], unsqueezed on axes 2 and 3. *)
Definition column_bias (msa_mask : T3 R) : T5 R :=
  map2 (λ v : T1 R, [[mask_bias <$> v]]) msa_mask.

Definition MSAColumnGlobalAttention_forward :=
  MSAColumnGlobalAttention_forward_with column_bias.

End GlobalAttention.

(** ** modules.py: Transition *)

Record Transition (R : Type) : Type := mkTransition {
  tr_input_layer_norm : T1 R → T1 R;
  transition1 : Linear (R := R);
  transition2 : Linear (R := R);
}.
Arguments mkTransition {R}.
Arguments tr_input_layer_norm {R} _.
Arguments transition1 {R} _.
Arguments transition2 {R} _.

Section Transition.
Context {R : Type} `{Float R}.

Definition transition_module (self : Transition R) (x : T4 R) : T4 R :=
  let x := map3 (Linear_forward (transition1 self)) x in
  let x := map4 frelu x in
  let x := map3 (Linear_forward (transition2 self)) x in
  x.

Definition Transition_forward (self : Transition R) (gc : GlobalConfig)
    (training : bool) (act : T4 R) (mask : T3 R) : result (T4 R) :=
  let act := map3 (tr_input_layer_norm self) act in
  if negb training then
    (* low memory mode using subbatch *)
    subbatch slice_ax1 width1 concat_ax1 (transition_module self)
             (Z.to_nat (subbatch_size gc)) act
  else
    Ok (transition_module self act).

End Transition.

(** ** modules.py: TriangleMultiplication *)

Record TriangleMultiplication (R : Type) : Type := mkTriangleMultiplication {
  tm_equation : string;                       (* self.config.equation *)
  tm_layer_norm_input : T1 R → T1 R;
  tm_left_projection : Linear (R := R);
  tm_right_projection : Linear (R := R);
  tm_left_gate : Linear (R := R);
  tm_right_gate : Linear (R := R);
  tm_center_layer_norm : T1 R → T1 R;
  tm_output_projection : Linear (R := R);
  tm_gating_linear : Linear (R := R);
}.
Arguments mkTriangleMultiplication {R}.
Arguments tm_equation {R} _.
Arguments tm_layer_norm_input {R} _.
Arguments tm_left_projection {R} _.
Arguments tm_right_projection {R} _.
Arguments tm_left_gate {R} _.
Arguments tm_right_gate {R} _.
Arguments tm_center_layer_norm {R} _.
Arguments tm_output_projection {R} _.
Arguments tm_gating_linear {R} _.

Section TriangleMultiplication.
Context {R : Type} `{Float R}.

(** [einsum('bikc,bjkc->bijc', left, right)] *)
Definition einsum_bikc_bjkc (left right : T4 R) : T4 R :=
  zip_with (λ (lb rb : T3 R),
    (λ li : T2 R,
       (λ rj : T2 R,
          tab (width1 li) (λ c,
            vsum (zip_with (λ (lk rk : T1 R), fmul (lk !!! c) (rk !!! c)) li rj)))
         <$> rb) <$> lb) left right.

(** [einsum('bkjc,bkic->bijc', left, right)] *)
Definition einsum_bkjc_bkic (left right : T4 R) : T4 R :=
  zip_with (λ (lb rb : T3 R),
    tab (width1 rb) (λ i,
      tab (width1 lb) (λ j,
        tab (width2 lb) (λ c,
          vsum (zip_with (λ (lk rk : T2 R), fmul ((lk !!! j) !!! c) ((rk !!! i) !!! c))
                         lb rb))))) left right.

Definition TriangleMultiplication_forward (self : TriangleMultiplication R)
    (gc : GlobalConfig) (training : bool) (act : T4 R) (mask : T3 R)
  : result (T4 R) :=
  (* mask = unsqueeze(mask, axis=-1): folded into mul_mask *)
  let act := map3 (tm_layer_norm_input self) act in                 (* line 1 *)
  let gate_values :=
    map4 fsigmoid (map3 (Linear_forward (tm_gating_linear self)) act) in
  let left_proj_act := mul_mask mask (map3 (Linear_forward (tm_left_projection self)) act) in
  let right_proj_act := mul_mask mask (map3 (Linear_forward (tm_right_projection self)) act) in
  let left_gate_values :=
    map4 fsigmoid (map3 (Linear_forward (tm_left_gate self)) act) in
  let right_gate_values :=
    map4 fsigmoid (map3 (Linear_forward (tm_right_gate self)) act) in
  let left_proj_act := zip4 fmul left_proj_act left_gate_values in
  let right_proj_act := zip4 fmul right_proj_act right_gate_values in
  act ←
    (if decide (tm_equation self = "ikc,jkc->ijc") then
       (* dim, out_idx = 1, 1 *)
       if negb training then
         subbatch slice_ax1 width1 concat_ax1
                  (λ l, einsum_bikc_bjkc l right_proj_act)
                  (Z.to_nat (subbatch_size gc)) left_proj_act
       else Ok (einsum_bikc_bjkc left_proj_act right_proj_act)
     else if decide (tm_equation self = "kjc,kic->ijc") then
       (* dim, out_idx = 2, 2 *)
       if negb training then
         subbatch slice_ax2 width2 concat_ax2
                  (λ l, einsum_bkjc_bkic l right_proj_act)
                  (Z.to_nat (subbatch_size gc)) left_proj_act
       else Ok (einsum_bkjc_bkic left_proj_act right_proj_act)
     else Raise (ValueError "unknown equation."));
  let act := map3 (tm_center_layer_norm self) act in
  let act := map3 (Linear_forward (tm_output_projection self)) act in
  mret (zip4 fmul act gate_values).

End TriangleMultiplication.

(** ** modules.py: OuterProductMean *)

Record OuterProductMean (R : Type) : Type := mkOuterProductMean {
  opm_chunk_size : Z;                          (* self.config.chunk_size *)
  opm_layer_norm_input : T1 R → T1 R;
  opm_left_projection : Linear (R := R);
  opm_right_projection : Linear (R := R);
  opm_output_w : T3 R;                         (* [c, e, f] *)
  opm_output_b : T1 R;                         (* [f] *)
}.
Arguments mkOuterProductMean {R}.
Arguments opm_chunk_size {R} _.
Arguments opm_layer_norm_input {R} _.
Arguments opm_left_projection {R} _.
Arguments opm_right_projection {R} _.
Arguments opm_output_w {R} _.
Arguments opm_output_b {R} _.

Section OuterProductMean.
Context {R : Type} `{Float R}.

(** [einsum('nacb,nade->ndceb', left, right)] *)
Definition einsum_nacb_nade_ndceb (left right : T4 R) : T5 R :=
  zip_with (λ (ln rn : T3 R),
    tab (width1 rn) (λ d,
      tab (width1 ln) (λ c,
        tab (width2 rn) (λ e,
          tab (width2 ln) (λ b,
            vsum (zip_with (λ (la ra : T2 R),
                              fmul ((la !!! c) !!! b) ((ra !!! d) !!! e))
                           ln rn)))))) left right.

(** [einsum('ndceb,cef->ndbf', act, w) + b] *)
Definition einsum_ndceb_cef_ndbf (act : T5 R) (w : T3 R) (bias : T1 R) : T4 R :=
  map2 (λ m : T3 R,                                           (* [c, e, b] *)
    tab (width2 m) (λ b,
      tab (width2 w) (λ f,
        fadd (vsum (imap (λ c (mc : T2 R),
                      vsum (imap (λ e (mce : T1 R),
                              fmul (mce !!! b) (((w !!! c) !!! e) !!! f)) mc)) m))
             (bias !!! f)))) act.

Definition compute_chunk (self : OuterProductMean R) (right_act : T4 R)
    (left_act : T4 R) : T4 R :=
  let left_act := map2 (λ m : T2 R, transpose m) left_act in   (* [0, 1, 3, 2] *)
  let act := einsum_nacb_nade_ndceb left_act right_act in
  let act := einsum_ndceb_cef_ndbf act (opm_output_w self) (opm_output_b self) in
  transpose_021 act.                                           (* [0, 2, 1, 3] *)

(** [einsum('nabc,nadc->nbdc', mask, mask)] for the mask unsqueezed on its
    last axis ([c] has length one). *)
Definition mask_norm (mask : T3 R) : T3 R :=
  (λ mn : T2 R,
     tab (width1 mn) (λ b, tab (width1 mn) (λ d,
       vsum ((λ ma : T1 R, fmul (ma !!! b) (ma !!! d)) <$> mn)))) <$> mask.

Definition OuterProductMean_forward (self : OuterProductMean R)
    (training : bool) (act : T4 R) (mask : T3 R) : result (T4 R) :=
  let act := map3 (opm_layer_norm_input self) act in
  let left_act := mul_mask mask (map3 (Linear_forward (opm_left_projection self)) act) in
  let right_act := mul_mask mask (map3 (Linear_forward (opm_right_projection self)) act) in
  act ←
    (if negb training then
       (* low memory mode using subbatch *)
       subbatch slice_ax2 width2 concat_ax1 (compute_chunk self right_act)
                (Z.to_nat (opm_chunk_size self)) left_act
     else Ok (compute_chunk self right_act left_act));
  let epsilon := lit 1 (-3) in
  let norm := mask_norm mask in
  mret (zip_with (zip_with (zip_with
          (λ (v : T1 R) nrm, (λ x, fdiv x (fadd epsilon nrm)) <$> v))) act norm).

End OuterProductMean.

(** ** modules.py: DistogramHead *)

Record DistogramHead (R : Type) : Type := mkDistogramHead {
  half_logits : Linear (R := R);
  first_break : R;
  last_break : R;
  num_bins : Z;
}.
Arguments mkDistogramHead {R}.
Arguments half_logits {R} _.
Arguments first_break {R} _.
Arguments last_break {R} _.
Arguments num_bins {R} _.

Section DistogramHead.
Context {R : Type} `{Float R}.

(** [paddle.linspace(start, stop, num)] *)
Definition linspace (start stop : R) (num : Z) : T1 R :=
  tab (Z.to_nat num)
      (λ i, fadd start (fmul (of_Z (Z.of_nat i))
                             (fdiv (fsub stop start) (of_Z (num - 1))))).

(** [DistogramHead.forward]: the pair [(logits, bin_edges)] of the dict it
    returns. *)
Definition DistogramHead_forward (self : DistogramHead R) (pair : T4 R)
  : T4 R * T2 R :=
  let half_logits := map3 (Linear_forward (half_logits self)) pair in
  let logits := zip4 fadd half_logits (transpose_021 half_logits) in
  let breaks := linspace (first_break self) (last_break self) (num_bins self - 1) in
  let breaks := replicate (length logits) breaks in
  (logits, breaks).

End DistogramHead.

(** ** modules.py: EvoformerIteration *)

Record Activations (R : Type) : Type := mkActivations {
  act_msa : T4 R;             (* activations['msa'] *)
  act_pair : T4 R;            (* activations['pair'] *)
}.
Arguments mkActivations {R} _ _.
Arguments act_msa {R} _.
Arguments act_pair {R} _.

Record Masks (R : Type) : Type := mkMasks {
  mask_msa : T3 R;
  mask_pair : T3 R;
}.
Arguments mkMasks {R} _ _.
Arguments mask_msa {R} _.
Arguments mask_pair {R} _.

(** The sublayers and dropout layers that [__init__] builds.  Of the two
    column attentions only the one selected by [is_extra_msa] exists. *)
Record EvoformerIteration (R : Type) : Type := mkEvoformerIteration {
  is_extra_msa : bool;
  msa_row_attention_with_pair_bias : T4 R → T3 R → T4 R → T4 R;
  msa_row_attn_dropout : T4 R → T4 R;
  msa_column_global_attention : T4 R → T3 R → T4 R;
  msa_column_attention : T4 R → T3 R → T4 R;
  msa_col_attn_dropout : T4 R → T4 R;
  msa_transition : T4 R → T3 R → T4 R;
  msa_transition_dropout : T4 R → T4 R;
  outer_product_mean : T4 R → T3 R → T4 R;
  outer_product_mean_dropout : T4 R → T4 R;
  triangle_multiplication_outgoing : T4 R → T3 R → T4 R;
  triangle_outgoing_dropout : T4 R → T4 R;
  triangle_multiplication_incoming : T4 R → T3 R → T4 R;
  triangle_incoming_dropout : T4 R → T4 R;
  triangle_attention_starting_node : T4 R → T3 R → T4 R;
  triangle_starting_dropout : T4 R → T4 R;
  triangle_attention_ending_node : T4 R → T3 R → T4 R;
  triangle_ending_dropout : T4 R → T4 R;
  pair_transition : T4 R → T3 R → T4 R;
  pair_transition_dropout : T4 R → T4 R;
}.
Arguments mkEvoformerIteration {R}.
Arguments is_extra_msa {R} _.
Arguments msa_row_attention_with_pair_bias {R} _ _ _ _.
Arguments msa_row_attn_dropout {R} _ _.
Arguments msa_column_global_attention {R} _ _ _.
Arguments msa_column_attention {R} _ _ _.
Arguments msa_col_attn_dropout {R} _ _.
Arguments msa_transition {R} _ _ _.
Arguments msa_transition_dropout {R} _ _.
Arguments outer_product_mean {R} _ _ _.
Arguments outer_product_mean_dropout {R} _ _.
Arguments triangle_multiplication_outgoing {R} _ _ _.
Arguments triangle_outgoing_dropout {R} _ _.
Arguments triangle_multiplication_incoming {R} _ _ _.
Arguments triangle_incoming_dropout {R} _ _.
Arguments triangle_attention_starting_node {R} _ _ _.
Arguments triangle_starting_dropout {R} _ _.
Arguments triangle_attention_ending_node {R} _ _ _.
Arguments triangle_ending_dropout {R} _ _.
Arguments pair_transition {R} _ _ _.
Arguments pair_transition_dropout {R} _ _.

(** A computation that records, in order, the names of the sublayers it
    calls. *)
Definition calling (A : Type) : Type := (A * list string)%type.

#[global] Instance calling_ret : MRet calling := λ _ a, (a, []).
#[global] Instance calling_bind : MBind calling := λ _ _ f m,
  let '(a, names) := m in let '(b, names') := f a in (b, names ++ names').

(** The call of the sublayer [self.<name>]. *)
Definition call {A} (name : string) (value : A) : calling A := (value, [name]).

Section EvoformerIteration.
Context {R : Type} `{Float R}.

Definition EvoformerIteration_forward (self : EvoformerIteration R)
    (activations : Activations R) (masks : Masks R) : calling (Activations R) :=
  let msa_act := act_msa activations in
  let pair_act := act_pair activations in
  let msa_mask := mask_msa masks in
  let pair_mask := mask_pair masks in
  (* dropout + residue update *)
  residual ← call "msa_row_attention_with_pair_bias"
    (msa_row_attention_with_pair_bias self msa_act msa_mask pair_act);
  let residual := msa_row_attn_dropout self residual in
  let msa_act := zip4 fadd msa_act residual in
  msa_act ←
    (if is_extra_msa self then
       residual ← call "msa_column_global_attention"
         (msa_column_global_attention self msa_act msa_mask);
       let residual := msa_col_attn_dropout self residual in
       let msa_act := zip4 fadd msa_act residual in
       residual ← call "msa_transition" (msa_transition self msa_act msa_mask);
       let residual := msa_transition_dropout self residual in
       mret (zip4 fadd msa_act residual)
     else
       residual ← call "msa_column_attention"
         (msa_column_attention self msa_act msa_mask);
       let residual := msa_col_attn_dropout self residual in
       let msa_act := zip4 fadd msa_act residual in
       residual ← call "msa_transition" (msa_transition self msa_act msa_mask);
       let residual := msa_transition_dropout self residual in
       mret (zip4 fadd msa_act residual));
  residual ← call "outer_product_mean" (outer_product_mean self msa_act msa_mask);
  let residual := outer_product_mean_dropout self residual in
  let pair_act := zip4 fadd pair_act residual in
  residual ← call "triangle_multiplication_outgoing"
    (triangle_multiplication_outgoing self pair_act pair_mask);
  let residual := triangle_outgoing_dropout self residual in
  let pair_act := zip4 fadd pair_act residual in
  residual ← call "triangle_multiplication_incoming"
    (triangle_multiplication_incoming self pair_act pair_mask);
  let residual := triangle_incoming_dropout self residual in
  let pair_act := zip4 fadd pair_act residual in
  residual ← call "triangle_attention_starting_node"
    (triangle_attention_starting_node self pair_act pair_mask);
  let residual := triangle_starting_dropout self residual in
  let pair_act := zip4 fadd pair_act residual in
  residual ← call "triangle_attention_ending_node"
    (triangle_attention_ending_node self pair_act pair_mask);
  let residual := triangle_ending_dropout self residual in
  let pair_act := zip4 fadd pair_act residual in
  residual ← call "pair_transition" (pair_transition self pair_act pair_mask);
  let residual := pair_transition_dropout self residual in
  let pair_act := zip4 fadd pair_act residual in
  mret (mkActivations msa_act pair_act).

(** *** The block as the specification words it: an ordered list of
    residual updates [act = act + dropout(sublayer(act, mask))], each on the
    msa or on the pair activation. *)

Inductive track : Type := OnMsa | OnPair.

Record Sublayer : Type := mkSublayer {
  sl_name : string;
  sl_track : track;
  sl_apply : Activations R → Masks R → T4 R;
  sl_dropout : T4 R → T4 R;
}.

Definition residual_update (masks : Masks R)
    (st : calling (Activations R)) (l : Sublayer) : calling (Activations R) :=
  let '(a, names) := st in
  let update := sl_dropout l (sl_apply l a masks) in
  (match sl_track l with
   | OnMsa => mkActivations (zip4 fadd (act_msa a) update) (act_pair a)
   | OnPair => mkActivations (act_msa a) (zip4 fadd (act_pair a) update)
   end,
   names ++ [sl_name l]).

Definition evoformer_sublayers (self : EvoformerIteration R) : list Sublayer :=
  [ mkSublayer "msa_row_attention_with_pair_bias" OnMsa
      (λ a m, msa_row_attention_with_pair_bias self (act_msa a) (mask_msa m) (act_pair a))
      (msa_row_attn_dropout self);
    (if is_extra_msa self
     then mkSublayer "msa_column_global_attention" OnMsa
            (λ a m, msa_column_global_attention self (act_msa a) (mask_msa m))
            (msa_col_attn_dropout self)
     else mkSublayer "msa_column_attention" OnMsa
            (λ a m, msa_column_attention self (act_msa a) (mask_msa m))
            (msa_col_attn_dropout self));
    mkSublayer "msa_transition" OnMsa
      (λ a m, msa_transition self (act_msa a) (mask_msa m))
      (msa_transition_dropout self);
    mkSublayer "outer_product_mean" OnPair
      (λ a m, outer_product_mean self (act_msa a) (mask_msa m))
      (outer_product_mean_dropout self);
    mkSublayer "triangle_multiplication_outgoing" OnPair
      (λ a m, triangle_multiplication_outgoing self (act_pair a) (mask_pair m))
      (triangle_outgoing_dropout self);
    mkSublayer "triangle_multiplication_incoming" OnPair
      (λ a m, triangle_multiplication_incoming self (act_pair a) (mask_pair m))
      (triangle_incoming_dropout self);
    mkSublayer "triangle_attention_starting_node" OnPair
      (λ a m, triangle_attention_starting_node self (act_pair a) (mask_pair m))
      (triangle_starting_dropout self);
    mkSublayer "triangle_attention_ending_node" OnPair
      (λ a m, triangle_attention_ending_node self (act_pair a) (mask_pair m))
      (triangle_ending_dropout self);
    mkSublayer "pair_transition" OnPair
      (λ a m, pair_transition self (act_pair a) (mask_pair m))
      (pair_transition_dropout self) ].

Definition residual_block (self : EvoformerIteration R)
    (activations : Activations R) (masks : Masks R) : calling (Activations R) :=
  foldl (residual_update masks) (activations, []) (evoformer_sublayers self).

End EvoformerIteration.

(** ** modules.py: TemplateEmbedding *)

(** The template embedding owns [SingleTemplateEmbedding], whose forward
    needs [quat_affine], a module outside the two files: it is a field. *)
Record TemplateEmbedding (R : Type) : Type := mkTemplateEmbedding {
  te_subbatch_size : Z;                (* self.config.subbatch_size *)
  te_num_channels : Z;                 (* ...triangle_attention_ending_node.value_dim *)
  te_single_template_embedding :
    T4 R → gmap string (Tensor R) → T3 R → result (T4 R);
  te_attention : Attention R;
}.
Arguments mkTemplateEmbedding {R}.
Arguments te_subbatch_size {R} _.
Arguments te_num_channels {R} _.
Arguments te_single_template_embedding {R} _ _ _ _.
Arguments te_attention {R} _.

Section TemplateEmbedding.
Context {R : Type} `{Float R}.

(** A rank-2 dict tensor as a matrix. *)
Definition nd_to_T1 (a : ndarray R) : result (T1 R) :=
  match a with
  | Dim rows => mapM (λ r, match r with Scalar x => Ok x | Dim _ => Raise TypeError end) rows
  | Scalar _ => Raise TypeError
  end.
Definition nd_to_T2 (a : ndarray R) : result (T2 R) :=
  match a with
  | Dim rows => mapM nd_to_T1 rows
  | Scalar _ => Raise TypeError
  end.

(** [paddle.reshape]: the elements in row-major order, regrouped. *)
Definition flatten4 (t : T4 R) : T1 R := mjoin (mjoin (mjoin t)).
Definition flatten5 (t : T5 R) : T1 R := flatten4 (mjoin t).

Fixpoint chunks_fuel {A} (fuel k : nat) (l : list A) : list (list A) :=
  match fuel with
  | O => []
  | S fuel' =>
      match l with
      | [] => []
      | _ => take k l :: chunks_fuel fuel' k (drop k l)
      end
  end.
(** The consecutive pieces of length [k] of [l]. *)
Definition chunks {A} (k : nat) (l : list A) : list (list A) :=
  chunks_fuel (length l) k l.

(** [paddle.reshape(x, [-1, d1, d2, d3])] of the flattened [x]. *)
Definition reshape4 (d1 d2 d3 : nat) (l : T1 R) : T4 R :=
  chunks d1 (chunks d2 (chunks d3 l)).

(** [paddle.stack(outs, axis=1)] *)
Definition stack_ax1 (outs : list (T4 R)) : result (T5 R) :=
  match outs with
  | [] => Raise (ValueError "stack of no tensor")
  | _ => Ok (transpose outs)
  end.

(** [paddle.transpose(x, [0, 2, 3, 1, 4])] *)
Definition transpose_02314 (t : T5 R) : T5 R :=
  (λ tb : T4 R,
     tab (width1 tb) (λ i, tab (width2 tb) (λ j,
       (λ tt : T3 R, (tt !!! i) !!! j) <$> tb))) <$> t.

Definition TemplateEmbedding_forward (self : TemplateEmbedding R)
    (training : bool) (query_embedding : T4 R)
    (template_batch : gmap string (Tensor R)) (mask_2d : T3 R)
  : result (T4 R) :=
  template_mask_t ← getitem template_batch "template_mask";
  num_templates ← shape_at (data template_mask_t) 1;
  let num_channels := Z.to_nat (te_num_channels self) in
  let num_res := width1 query_embedding in
  template_mask ← nd_to_T2 (data template_mask_t);
  let query_channels := width3 query_embedding in
  outs ← mapM (λ i,
                 (* By default, num_templates = 4 *)
                 batch0 ← dict_mapM (tensor_index1 i) template_batch;
                 te_single_template_embedding self query_embedding batch0 mask_2d)
              (seq 0 num_templates);
  template_pair_repr ← stack_ax1 outs;
  let flat_query :=
    reshape4 (num_res * num_res) 1 query_channels (flatten4 query_embedding) in
  let flat_templates :=
    reshape4 (num_res * num_res) num_templates num_channels
             (flatten5 (transpose_02314 template_pair_repr)) in
  (* bias = 1e9 * (template_mask[:, None, None, None, :] - 1.) *)
  let bias : T5 R := (λ v : T1 R, [[[mask_bias <$> v]]]) <$> template_mask in
  emb ←
    (if negb training then
       sb_attn_qm (te_attention self) (Z.to_nat (te_subbatch_size self))
                  flat_query flat_templates bias
     else
       Ok (Attention_forward (te_attention self) flat_query flat_templates
             bias None));
  let emb := reshape4 num_res num_res query_channels (flatten4 emb) in
  (* No gradients if no templates. *)
  mret (map4 (λ x, fmul x (of_bool (fgtb (sum2 template_mask) f0))) emb).

End TemplateEmbedding.

(** ** Specification-side definitions for the driver *)

Section DriverSpec.
Context {R : Type} `{Float R}.

(** The claimed iteration count: the minimum of [config.num_recycle] and the
    per-batch override when there is one, else [config.num_recycle]. *)
Definition claimed_num_iter (self : AlphaFold R)
    (batch : gmap string (Tensor R)) : Z :=
  Z.min (num_recycle (config self))
        (match batch !! "num_iter_recycling" with
         | Some t =>
             match nd_index0 0 (data t) ≫= nd_item with
             | Ok x => to_Z x
             | Raise _ => num_recycle (config self)
             end
         | None => num_recycle (config self)
         end).

(** [recycled self prev invs prev']: starting from the recycling state
    [prev], the invocations [invs] ran one after the other, each on the state
    extracted from the output of the one before, and left the state
    [prev']. *)
Inductive recycled (self : AlphaFold R)
  : gmap string (Tensor R) → list (Invocation R) → gmap string (Tensor R) → Prop :=
  | recycled_nil prev : recycled self prev [] prev
  | recycled_cons prev inv out prev1 invs prev' :
      inv_non_ensembled_batch inv = prev →
      AlphaFoldIteration_forward (alphafold_iteration self)
        (inv_ensembled_batch inv) (inv_non_ensembled_batch inv)
        (inv_ensemble_representations inv) = Ok out →
      _get_prev out = Ok prev1 →
      recycled self prev1 invs prev' →
      recycled self prev (inv :: invs) prev'.

(** A well-formed array of the given shape. *)
Fixpoint nd_has_shape (shape : list nat) (a : ndarray R) : Prop :=
  match shape, a with
  | [], Scalar _ => True
  | n :: s, Dim rows => length rows = n ∧ Forall (nd_has_shape s) rows
  | _, _ => False
  end.

(** The all-zero recycling state for [B] batch elements and [N] residues. *)
Definition zero_prev (self : AlphaFold R) (B N : nat) : gmap string (Tensor R) :=
  let emb_config := embeddings_and_evoformer (config self) in
  {[ "prev_pos" := mkTensor (nd_full [B; N; atom_type_num; 3%nat] f0) true;
     "prev_msa_first_row" :=
       mkTensor (nd_full [B; N; Z.to_nat (msa_channel emb_config)] f0) true;
     "prev_pair" :=
       mkTensor (nd_full [B; N; N; Z.to_nat (pair_channel emb_config)] f0) true ]}.

(** [a[i0, i1, ...]]: the element of an array at a full index, [None] when
    the index is out of range or of the wrong length. *)
Fixpoint nd_get (path : list nat) (a : ndarray R) : option R :=
  match path, a with
  | [], Scalar x => Some x
  | i :: path', Dim rows => rows !! i ≫= nd_get path'
  | _, _ => None
  end.

(** The arithmetic mean of the scalars [xs]: their sum, first to last,
    divided by their number as a float. *)
Definition scalar_mean (xs : list R) : option R :=
  match xs with
  | [] => None
  | x :: xs' => Some (fdiv (foldl fadd x xs') (of_Z (Z.of_nat (length xs))))
  end.

(** [r] holds the element-wise mean of the tensors [members]: it has their
    shape, and at every index its element is the mean of their elements. *)
Definition mean_of (members : list (Tensor R)) (r : option (Tensor R)) : Prop :=
  ∃ t, r = Some t ∧
    (∀ s, Forall (λ m, nd_has_shape s (data m)) members →
          nd_has_shape s (data t)) ∧
    (∀ path xs,
       Forall2 (λ m x, nd_get path (data m) = Some x) members xs →
       nd_get path (data t) = scalar_mean xs).

(** The head modules leave the representation [k] alone: no head returns
    an extra 'representations' entry under that key. *)
Definition heads_preserve (self : AlphaFoldIteration R) (k : string) : Prop :=
  ∀ name representations batch0 out extra,
    head_module self name representations batch0 = Ok out →
    head_representations out = Some extra → extra !! k = None.

End DriverSpec.

(** ** model.py: the prediction dict, [tensor_to_numpy] and [slice_pred_dict]

    [RunModel] walks the value that the model returns as a nested dict whose
    leaves are paddle tensors or numpy arrays. *)

#[local] Unset Elimination Schemes.
Inductive pyval (R : Type) : Type :=
  | VTensor (t : Tensor R)                 (* a paddle.Tensor *)
  | VNumpy (a : ndarray R)                 (* a numpy.ndarray *)
  | VDict (d : gmap string (pyval R)).     (* a dict *)
#[local] Set Elimination Schemes.
Arguments VTensor {R} t.
Arguments VNumpy {R} a.
Arguments VDict {R} d.

Section PredictionDict.
Context {R : Type} `{Float R}.

#[local] Abbreviation PredDict := (gmap string (pyval R)).

(** The body of the loop of [tensor_to_numpy], on the value under one key.
    The function updates the dicts in place and returns nothing; here the
    updated dict is returned. *)
Fixpoint tensor_to_numpy_value (v : pyval R) : pyval R :=
  match v with
  | VTensor t => VNumpy (data t)                    (* pred_dict[k].numpy() *)
  | VDict d => VDict (tensor_to_numpy_value <$> d)  (* tensor_to_numpy(pred_dict[k]) *)
  | VNumpy a => VNumpy a
  end.

Definition tensor_to_numpy (pred_dict : PredDict) : PredDict :=
  tensor_to_numpy_value <$> pred_dict.

(** [l[i]] for a Python int [i]: negative indices count from the end. *)
Definition py_index {A} (i : Z) (l : list A) : result A :=
  let n := Z.of_nat (length l) in
  if bool_decide (- n ≤ i < n) then
    match l !! Z.to_nat (if i <? 0 then i + n else i) with
    | Some x => Ok x
    | None => Raise IndexError
    end
  else Raise IndexError.

(** [a[i]] on an array: its [i]-th entry along the first axis. *)
Definition np_getitem (i : Z) (a : ndarray R) : result (ndarray R) :=
  match a with
  | Dim rows => py_index i rows
  | Scalar _ => Raise IndexError
  end.

(** The loop of [slice_pred_dict] over the keys of one dict, [rec] being
    what is done to the value of a key that is not ignored. *)
Definition slice_entries (rec : pyval R → result (pyval R))
    (ignores : list string) (d : PredDict) : result PredDict :=
  dict_imapM (λ _ r, r)
    (map_imap (λ k v, Some (if bool_decide (k ∈ ignores) then Ok v else rec v)) d).

Fixpoint slice_value (slice_idx : Z) (ignores : list string) (v : pyval R)
  : result (pyval R) :=
  match v with
  | VDict d =>                       (* slice_pred_dict(pred_dict[k], ...) *)
      VDict <$> slice_entries (slice_value slice_idx ignores) ignores d
  | VNumpy a => VNumpy <$> np_getitem slice_idx a   (* pred_dict[k][slice_idx] *)
  | VTensor t =>
      (λ a, VTensor (mkTensor a (stop_gradient t))) <$> np_getitem slice_idx (data t)
  end.

(** [slice_pred_dict(pred_dict, slice_idx, ignores)]; the dict it returns is
    the argument, updated in place. *)
Definition slice_pred_dict (pred_dict : PredDict) (slice_idx : Z)
    (ignores : list string) : result PredDict :=
  slice_entries (slice_value slice_idx ignores) ignores pred_dict.

(** The default of the parameter [ignores]. *)
Definition default_ignores : list string := ["breaks"].

(** The number of nodes of a value: a measure for induction. *)
Fixpoint pyval_size (v : pyval R) : nat :=
  match v with
  | VDict d => S (map_fold (λ _ x n, (pyval_size x + n)%nat) 0%nat d)
  | _ => 1
  end.

(** A value without any paddle tensor in it, at any depth. *)
Inductive no_tensor : pyval R → Prop :=
  | no_tensor_numpy a : no_tensor (VNumpy a)
  | no_tensor_dict d : map_Forall (λ _ v, no_tensor v) d → no_tensor (VDict d).

(** A value that [slice_pred_dict] can slice at [slice_idx]: every array
    that is not under an ignored key has an entry [slice_idx] on its first
    axis. *)
Definition has_index (slice_idx : Z) (a : ndarray R) : Prop :=
  match a with
  | Dim rows => - Z.of_nat (length rows) ≤ slice_idx < Z.of_nat (length rows)
  | Scalar _ => False
  end.

#[local] Unset Elimination Schemes.
Inductive sliceable (slice_idx : Z) (ignores : list string) : pyval R → Prop :=
  | sliceable_numpy a : has_index slice_idx a → sliceable slice_idx ignores (VNumpy a)
  | sliceable_tensor t :
      has_index slice_idx (data t) → sliceable slice_idx ignores (VTensor t)
  | sliceable_dict d :
      map_Forall (λ k v, k ∈ ignores ∨ sliceable slice_idx ignores v) d →
      sliceable slice_idx ignores (VDict d).
#[local] Set Elimination Schemes.

End PredictionDict.

(** ** model.py: RunModel.predict *)

(** [self.alphafold] behaves as its [global_config] tells it to; the method
    [update_subbatch_size] changes that configuration, which is passed
    explicitly here. *)
Record RunModel (R : Type) : Type := mkRunModel {
  dynamic_subbatch_size : bool;
  alphafold : GlobalConfig → AlphaFold R;
}.
Arguments mkRunModel {R} _ _.
Arguments dynamic_subbatch_size {R} _.
Arguments alphafold {R} _ _.

Section RunModel.
Context {R : Type} `{Float R}.

(** [x.shape[-i]] for [i >= 1] *)
Definition shape_from_end (a : ndarray R) (i : nat) : result nat :=
  match reverse (nd_shape a) !! pred i with
  | Some n => Ok n
  | None => Raise IndexError
  end.

(** The nested dict of tensors that the model returns, as a prediction
    dict. *)
Definition to_pyval (ret : gmap string (gmap string (Tensor R)))
  : gmap string (pyval R) :=
  (λ d : gmap string (Tensor R), VDict (VTensor <$> d)) <$> ret.

(** [RunModel.predict]: the value returned or the exception raised, the
    global configuration it leaves, and the invocations of the iteration. *)
Definition predict (self : RunModel R) (gc : GlobalConfig)
    (feat : gmap string (Tensor R))
    (ensemble_representations return_representations : bool)
  : result (gmap string (pyval R)) * GlobalConfig * list (Invocation R) :=
  match (if dynamic_subbatch_size self then
           aatype ← getitem feat "aatype";
           seq_len ← shape_from_end (data aatype) 1;
           extra_msa ← getitem feat "extra_msa";
           extra_msa_num ← shape_from_end (data extra_msa) 2;
           update_subbatch_size gc (Z.of_nat seq_len) (Z.of_nat extra_msa_num)
         else Ok gc) with
  | Raise e => (Raise e, gc, [])
  | Ok gc' =>
      let '(ret, log) :=
        AlphaFold_forward (alphafold self gc') feat
          ensemble_representations return_representations [] in
      ((λ ret, tensor_to_numpy (to_pyval ret)) <$> ret, gc', log)
  end.

End RunModel.

(** ** modules.py: Attention.__init__ *)

(** [a % b] and [a // b] on Python ints. *)
Definition py_mod (a b : Z) : result Z :=
  if b =? 0 then Raise ZeroDivisionError else Ok (a `mod` b).
Definition py_floordiv (a b : Z) : result Z :=
  if b =? 0 then Raise ZeroDivisionError else Ok (a `div` b).

(** [nn.initializer.XavierUniform()] and [nn.initializer.Constant(value)]. *)
Inductive initializer (R : Type) : Type :=
  | XavierUniform
  | Constant (value : R).
Arguments XavierUniform {R}.
Arguments Constant {R} value.

Record AttentionConfig : Type := {
  cfg_num_head : Z;               (* config.num_head *)
  cfg_key_dim : option Z;         (* config.get('key_dim', ...) *)
  cfg_value_dim : option Z;       (* config.get('value_dim', ...) *)
  cfg_gating : bool;              (* config.gating *)
}.

(** The attributes that [Attention.__init__] sets; the gating parameters are
    there when [config.gating] is on. *)
Record AttentionLayer (P : Type) : Type := mkAttentionLayer {
  self_key_dim : Z;
  self_value_dim : Z;
  self_query_w : P;
  self_key_w : P;
  self_value_w : P;
  self_gating : option (P * P);          (* gating_w, gating_b *)
  self_output_w : P;
  self_output_b : P;
}.
Arguments mkAttentionLayer {P}.
Arguments self_key_dim {P} _.
Arguments self_value_dim {P} _.
Arguments self_query_w {P} _.
Arguments self_key_w {P} _.
Arguments self_value_w {P} _.
Arguments self_gating {P} _.
Arguments self_output_w {P} _.
Arguments self_output_b {P} _.

Section AttentionInit.
Context {R : Type} `{Float R} {P : Type}.

(** [paddle.create_parameter(shape, 'float32', default_initializer)], a
    function of the library: a parameter.  It raises on a shape it does not
    accept. *)
Variable create_parameter : list Z → initializer R → result P.

Definition Attention_init (config : AttentionConfig) (global_config : GlobalConfig)
    (q_dim kv_dim output_dim : Z) : result (AttentionLayer P) :=
  let num_head := cfg_num_head config in
  let key_dim := default q_dim (cfg_key_dim config) in
  let value_dim := default kv_dim (cfg_value_dim config) in
  r ← py_mod key_dim num_head;
  _ ← assert_ (r =? 0);
  r ← py_mod value_dim num_head;
  _ ← assert_ (r =? 0);
  key_dim ← py_floordiv key_dim num_head;
  value_dim ← py_floordiv value_dim num_head;
  query_w ← create_parameter [q_dim; num_head; key_dim] XavierUniform;
  key_w ← create_parameter [kv_dim; num_head; key_dim] XavierUniform;
  value_w ← create_parameter [kv_dim; num_head; value_dim] XavierUniform;
  gating ←
    (if cfg_gating config then
       gating_w ← create_parameter [q_dim; num_head; value_dim] (Constant f0);
       gating_b ← create_parameter [num_head; value_dim] (Constant f1);
       mret (Some (gating_w, gating_b))
     else mret None);
  let init := if zero_init global_config then Constant f0 else XavierUniform in
  output_w ← create_parameter [num_head; value_dim; output_dim] init;
  output_b ← create_parameter [output_dim] (Constant f0);
  mret (mkAttentionLayer key_dim value_dim query_w key_w value_w gating
                         output_w output_b).

End AttentionInit.

(** ** modules.py: dgram_from_positions *)

Section Dgram.
Context {R : Type} `{Float R}.

(** [paddle.square(lower_breaks)] and the upper breaks built from them. *)
Definition dgram_lower_breaks (num_bins : Z) (min_bin max_bin : R) : T1 R :=
  (λ x, fmul x x) <$> linspace min_bin max_bin num_bins.
Definition dgram_upper_breaks (lower_breaks : T1 R) : T1 R :=
  drop 1 lower_breaks ++ [lit 1 8].

(** [_squared_difference] summed over the coordinates: [dist2[b, i, j]]. *)
Definition dgram_dist2 (positions : T3 R) : T3 R :=
  (λ pb : T2 R,
     (λ p_i : T1 R,
        (λ p_j : T1 R,
           vsum (zip_with (λ x y, fmul (fsub x y) (fsub x y)) p_i p_j)) <$> pb)
       <$> pb) <$> positions.

(** [dgram_from_positions] for positions of shape [batch, N_res, 3]; the
    result has shape [batch, N_res, N_res, num_bins]. *)
Definition dgram_from_positions (positions : T3 R) (num_bins : Z)
    (min_bin max_bin : R) : T4 R :=
  let lower_breaks := dgram_lower_breaks num_bins min_bin max_bin in
  let upper_breaks := dgram_upper_breaks lower_breaks in
  map3 (λ d : R,
          zip_with (λ lo up, fmul (of_bool (fgtb d lo)) (of_bool (fgtb up d)))
                   lower_breaks upper_breaks)
       (dgram_dist2 positions).

End Dgram.

(** Laws of the comparison [>] that the bins of a distogram rely on.  Each
    holds of IEEE floats, NaN, the infinities and the two zeros included:
    a comparison with NaN is false, rounding is monotone, and [0 > -0] is
    false.  [fgtb f0 x = false] reads: [x] is not negative. *)
Record float_order_laws (R : Type) `{Float R} : Prop := {
  mul_0_0 : fmul f0 f0 = f0;
  mul_0_1 : fmul f0 f1 = f0;
  mul_1_0 : fmul f1 f0 = f0;
  gt_trans : ∀ x y z : R, fgtb x y = true → fgtb y z = true → fgtb x z = true;
  (* x*x > y*y gives x > y for x, y not negative *)
  gt_square : ∀ x y : R,
    fgtb (fmul x x) (fmul y y) = true →
    fgtb f0 x = false → fgtb f0 y = false → fgtb x y = true;
  (* s + a > s + b gives a > b *)
  gt_add : ∀ s a b : R, fgtb (fadd s a) (fadd s b) = true → fgtb a b = true;
  (* a*t > b*t gives a > b for t not negative *)
  gt_mul : ∀ a b t : R,
    fgtb (fmul a t) (fmul b t) = true → fgtb f0 t = false → fgtb a b = true;
  (* float(i) > float(j) gives i > j *)
  gt_of_Z : ∀ i j : Z, fgtb (of_Z i) (of_Z j) = true → j < i;
  (* sums, products and quotients of numbers that are not negative *)
  nonneg_add : ∀ x y : R,
    fgtb f0 x = false → fgtb f0 y = false → fgtb f0 (fadd x y) = false;
  nonneg_mul : ∀ x y : R,
    fgtb f0 x = false → fgtb f0 y = false → fgtb f0 (fmul x y) = false;
  nonneg_of_Z : ∀ n : Z, 0 ≤ n → fgtb f0 (of_Z n) = false;
  nonneg_div : ∀ (x : R) (n : Z),
    fgtb f0 x = false → 0 ≤ n → fgtb f0 (fdiv x (of_Z n)) = false;
  (* y - x is not negative unless x > y *)
  nonneg_sub : ∀ x y : R, fgtb x y = false → fgtb f0 (fsub y x) = false;
}.

(** ** modules.py: EmbeddingsAndEvoformer.forward, the relative positions

    The lines under 'RelPosEmbedder' that build [rel_pos] from the residue
    indices, for the [max_relative_feature > 0] of the configuration. *)

Section RelPos.
Context {R : Type} `{Float R}.

(** [paddle.clip(x, min, max)] *)
Definition clip (x min max : Z) : Z := Z.min (Z.max x min) max.

(** [nn.functional.one_hot(x, num_classes)] for [0 <= x < num_classes] *)
Definition one_hot (x num_classes : Z) : T1 R :=
  tab (Z.to_nat num_classes) (λ i, of_bool (bool_decide (Z.of_nat i = x))).

(** A signed integer of [bits] bits: the result of an operation on an int32
    or int64 tensor wraps around. *)
Definition wrap (bits : Z) (x : Z) : Z :=
  (x + 2 ^ (bits - 1)) `mod` 2 ^ bits - 2 ^ (bits - 1).

(** [rel_pos] for [pos = batch['residue_index']], of shape [bs, N_res] and
    of an integer dtype of [bits] bits:
    [offset[b, i, j] = pos[b, i] - pos[b, j]]. *)
Definition rel_pos (bits : Z) (max_relative_feature : Z) (pos : list (list Z))
  : T4 R :=
  (λ pb : list Z,
     (λ p_i : Z,
        (λ p_j : Z,
           let offset := wrap bits (p_i - p_j) in
           one_hot (clip (wrap bits (offset + max_relative_feature)) 0
                         (2 * max_relative_feature))
                   (2 * max_relative_feature + 1)) <$> pb) <$> pb) <$> pos.

End RelPos.

(** ** model.py: RunModel.init_params *)

(** [s.endswith(suffix)] and [s[n:]] on Python strings. *)
Definition endswith (s suffix : string) : bool :=
  bool_decide (String.list_ascii_of_string suffix
                 `suffix_of` String.list_ascii_of_string s).
Definition string_drop (n : nat) (s : string) : string :=
  String.string_of_list_ascii (drop n (String.list_ascii_of_string s)).

Section InitParams.
Context {Param : Type}.

(** The file readers and [utils.jax_params_to_paddle] are not in the two
    files: [np_load] stands for reading an '.npz' file into a dict,
    [paddle_load] for [paddle.load]; a dict that is only iterated is the list
    of its items, in order. *)
Variable np_load : string → result (list (string * Param)).
Variable jax_params_to_paddle : list (string * Param) → list (string * Param).
Variable paddle_load : string → result (gmap string Param).

(** [{k[len('alphafold.'):]: v for k, v in pd_params.items()}] *)
Definition strip_alphafold (pd_params : list (string * Param)) : gmap string Param :=
  foldl (λ acc kv, <[string_drop (String.length "alphafold.") kv.1 := kv.2]> acc)
        ∅ pd_params.

(** [RunModel.init_params]: the dict that is handed to
    [self.alphafold.set_state_dict]. *)
Definition init_params (params_path : string) : result (gmap string Param) :=
  if endswith params_path ".npz" then
    params ← np_load params_path;
    let pd_params := jax_params_to_paddle params in
    mret (strip_alphafold pd_params)
  else if endswith params_path ".pd" then
    paddle_load params_path
  else Raise (ValueError "Unsupported params file type").

End InitParams.

(** ** model.py: RunModel.preprocess *)

Inductive dtype : Type :=
  | int32 | int64 | float32 | float64
  | object_                                  (* dtype 'O' *)
  | other_dtype (name : string).

#[global] Instance dtype_eq_dec : EqDecision dtype.
Proof. solve_decision. Defined.

(** A numpy array: its dtype and its entries. *)
Record NpArray (R : Type) : Type := mkNpArray {
  np_dtype : dtype;
  np_values : ndarray R;
}.
Arguments mkNpArray {R} _ _.
Arguments np_dtype {R} _.
Arguments np_values {R} _.

(** The fields of [self.config.data] that [preprocess] reads or writes. *)
Record DataConfig : Type := mkDataConfig {
  unsupervised_features : list string;   (* common.unsupervised_features *)
  use_templates : bool;                   (* common.use_templates *)
  template_features : list string;       (* common.template_features *)
  max_extra_msa : Z;                      (* common.max_extra_msa *)
  crop_size : Z;                          (* eval.crop_size *)
}.

Section Preprocess.
Context {R : Type} `{Float R}.

#[local] Abbreviation Features := (gmap string (NpArray R)).

(** Outside the two files: the conversion of one entry by [astype], the two
    functions of [input_pipeline] and [utils.map_to_tensor(features,
    add_batch=True)]. *)
Variable cast : dtype → dtype → R → R.
Variable np_to_array_dict : Features → list string → bool → result Features.
Variable process_arrays_from_config : Features → DataConfig → result Features.
Variable map_to_tensor : Features → result (gmap string (Tensor R)).

(** [a.astype(t)] *)
Definition astype (t : dtype) (a : NpArray R) : NpArray R :=
  mkNpArray t (nd_map (cast (np_dtype a) t) (np_values a)).

(** [features[k] = features[k][:, :extra_msa_length]] *)
Definition crop_extra_msa (extra_msa_length : Z) (features : Features)
    (k : string) : result Features :=
  v ← getitem features k;
  d ← nd_slice1 0 extra_msa_length (np_values v);
  mret (<[k := mkNpArray (np_dtype v) d]> features).

(** An array whose second axis has at most [n] entries. *)
Definition cropped (n : Z) (d : ndarray R) : Prop :=
  ∃ rows, d = Dim rows ∧
          Forall (λ r, ∃ l, r = Dim l ∧ Z.of_nat (length l) ≤ n) rows.

(** The loop that narrows the 64-bit dtypes. *)
Definition narrow (v : NpArray R) : NpArray R :=
  if decide (np_dtype v = int64) then astype int32 v
  else if decide (np_dtype v = float64) then astype float32 v
  else v.

(** [RunModel.preprocess].  [pkl] is the path of the cache file, if any;
    [files] maps the path of each existing pickle file to the features in
    it.  The result holds the value returned or the exception raised, the
    caller's [raw_features] as the call leaves it, and the files. *)
Definition preprocess (data : DataConfig) (raw_features : Features)
    (random_seed : Z) (pkl : option string) (files : gmap string Features)
  : result (gmap string (Tensor R)) * Features * gmap string Features :=
  match pkl ≫= (λ path, files !! path) with
  | Some features =>
      (* Use cached pkl *)
      (map_to_tensor features, raw_features, files)
  | None =>
      (* Processing input features *)
      let data_config := data in                             (* deepcopy *)
      let feature_names :=
        unsupervised_features data_config
        ++ (if use_templates data_config then template_features data_config
            else []) in
      match (seq_length ← getitem raw_features "seq_length";
             first ← np_getitem 0 (np_values (seq_length : NpArray R));
             nd_item (first : ndarray R)) with
      | Raise e => (Raise e, raw_features, files)
      | Ok n =>
          let num_residues := to_Z n in
          let data_config :=
            mkDataConfig (unsupervised_features data_config)
              (use_templates data_config) (template_features data_config)
              (max_extra_msa data_config) num_residues in
          let raw_features :=
            match raw_features !! "deletion_matrix_int" with
            | Some a =>
                <["deletion_matrix" := astype float32 a]>
                  (delete "deletion_matrix_int" raw_features)
            | None => raw_features
            end in
          match (array_dict ← np_to_array_dict raw_features feature_names
                                (use_templates data_config);
                 features ← process_arrays_from_config array_dict data_config;
                 let features : Features :=
                   filter (λ kv, np_dtype kv.2 ≠ object_) features in
                 let extra_msa_length := max_extra_msa data_config in
                 features ← foldlM (crop_extra_msa extra_msa_length) features
                   ["extra_msa"; "extra_has_deletion"; "extra_deletion_value";
                    "extra_msa_mask"];
                 mret (narrow <$> (features : Features))) with
          | Raise e => (Raise e, raw_features, files)
          | Ok features =>
              let files :=
                match pkl with
                | Some path => <[path := features]> files
                | None => files
                end in
              (map_to_tensor features, raw_features, files)
          end
      end
  end.

End Preprocess.

(** ** A small concrete model, used to run the definitions

    Integers stand for the scalars; the orchestrator copies the feature
    'feat' into every representation and adds the recycled pair tensor to
    'pair' when there is one; the structure module copies 'single'. *)

Module Demo.

#[global] Instance Float_Z : Float Z := {|
  f0 := 0; f1 := 1;
  fadd := Z.add; fsub := Z.sub; fmul := Z.mul; fdiv := Z.div;
  fgtb := Z.gtb;
  of_Z := id; to_Z := id;
  lit := λ m e, m * 10 ^ e;
  frsqrt := id; frelu := Z.max 0; fsigmoid := id;
  softmax := id;
|}.

Definition tensor (a : ndarray Z) : Tensor Z := mkTensor a false.

Definition vec (l : list Z) : ndarray Z := Dim (Scalar <$> l).

Definition demo_evoformer (batch : gmap string (Tensor Z))
  : result (EvoformerOutput Z) :=
  feat ← getitem batch "feat";
  let pair := match batch !! "prev_pair" with
              | Some p => tensor_iadd feat p
              | None => feat
              end in
  mret (mkEvoformerOutput feat pair feat feat).

Definition demo_head (name : string)
    (representations batch : gmap string (Tensor Z)) : result (HeadOutput Z) :=
  single ← getitem representations "single";
  if decide (name = "structure_module") then
    mret (mkHeadOutput {[ "final_atom_positions" := single ]}
                       (Some {[ "structure_module" := single ]}))
  else
    mret (mkHeadOutput {[ "logits" := single ]} None).

Definition iteration : AlphaFoldIteration Z :=
  mkAlphaFoldIteration
    [("distogram", {| weight := 1 |});
     ("masked_msa", {| weight := 2 |});
     ("predicted_lddt", {| weight := 0 |});
     ("structure_module", {| weight := 1 |})]
    demo_evoformer demo_head.

Definition model (num_recycle : Z) : AlphaFold Z :=
  mkAlphaFold
    {| num_recycle := num_recycle;
       resample_msa_in_recycling := false;
       embeddings_and_evoformer := {| msa_channel := 2; pair_channel := 1 |} |}
    iteration.

(** One batch element, [n] ensemble members, two residues. *)
Definition batch (members : list (list Z)) : gmap string (Tensor Z) :=
  {[ "aatype" := tensor (Dim [Dim ((λ _, vec [0; 0]) <$> members)]);
     "seq_length" := tensor (Dim [vec ((λ _, 2) <$> members)]);
     "feat" := tensor (Dim [Dim (vec <$> members)]) ]}.

Definition batch1 : gmap string (Tensor Z) := batch [[10; 20]].
(** The same with the per-batch override set to zero iterations. *)
Definition batch1_override0 : gmap string (Tensor Z) :=
  <["num_iter_recycling" := tensor (Dim [vec [0]])]> batch1.
(** The same with a negative override. *)
Definition batch1_override_neg : gmap string (Tensor Z) :=
  <["num_iter_recycling" := tensor (Dim [vec [-1]])]> batch1.
Definition batch3 : gmap string (Tensor Z) := batch [[3; 30]; [6; 60]; [9; 90]].

(** A distogram head with two bins on a pair tensor of shape [1, 2, 2, 1]. *)
Definition distogram : DistogramHead Z :=
  mkDistogramHead (mkLinear [[1; 2]] [0; 10]) 2 22 3.
Definition pair_act : T4 Z := [[[[1]; [2]]; [[3]; [4]]]].

(** A template embedding over two templates whose mask is zero; the single
    template embedding returns the query embedding. *)
Definition attention : Attention Z :=
  mkAttention false 1 [[[1]]] [[[1]]] [[[1]]] [] [] [[[1]]] [0].
Definition template_embedding : TemplateEmbedding Z :=
  mkTemplateEmbedding 4 1 (λ query _ _, Ok query) attention.
Definition template_mask : Tensor Z := tensor (Dim [vec [0; 0]]).
Definition template_batch : gmap string (Tensor Z) :=
  {[ "template_mask" := template_mask ]}.

(** A run on a concrete input is evaluated down to a boolean, so that no
    proof term holds the dicts it produced. *)
Definition returns {A} (r : result A * list (Invocation Z)) : bool :=
  match r.1 with Ok _ => true | Raise _ => false end.

Definition succeeds {A} (r : result A) : bool :=
  match r with Ok _ => true | Raise _ => false end.

End Demo.

(** More inputs for the same model. *)

Module Fixtures.
Import Demo.

(** An iteration whose structure module has weight zero. *)
Definition iteration_no_structure : AlphaFoldIteration Z :=
  mkAlphaFoldIteration
    [("distogram", {| weight := 1 |}); ("structure_module", {| weight := 0 |})]
    demo_evoformer demo_head.

(** A model that takes a fresh slice of the MSA at every recycling. *)
Definition model_resample (num_recycle : Z) : AlphaFold Z :=
  mkAlphaFold
    {| num_recycle := num_recycle;
       resample_msa_in_recycling := true;
       embeddings_and_evoformer := {| msa_channel := 2; pair_channel := 1 |} |}
    iteration.

Definition run_model : RunModel Z := mkRunModel true (λ _, model 1).

Definition global_config : GlobalConfig :=
  {| subbatch_size := 48; deterministic := true; zero_init := false |}.

(** Features with [width] extra MSA rows for a sequence of [seq_len]
    residues: 'aatype' [1, 1, seq_len], 'extra_msa' [1, 1, width, 1]. *)
Definition feat (seq_len width : nat) : gmap string (Tensor Z) :=
  {[ "aatype" := tensor (Dim [Dim [vec (replicate seq_len 0)]]);
     "seq_length" := tensor (Dim [vec [Z.of_nat seq_len]]);
     "feat" := tensor (Dim [Dim [vec (replicate seq_len 0)]]);
     "extra_msa" := tensor (Dim [Dim [Dim (replicate width (vec [0]))]]) ]}.

(** A prediction as [predict] returns it, for one batch element. *)
Definition prediction : gmap string (pyval Z) :=
  {[ "distogram" :=
       VDict {[ "logits" := VNumpy (Dim [vec [1; 2]]);
                "bin_edges" := VNumpy (Dim [vec [5]]) ]};
     "predicted_aligned_error" :=
       VDict {[ "logits" := VNumpy (Dim [vec [3]]);
                "breaks" := VNumpy (vec []) ]} ]}.

(** Three positions on a line. *)
Definition positions : T3 Z := [[[0; 0; 0]; [2; 0; 0]; [5; 0; 0]]].

(** A template batch without any template. *)
Definition no_template_batch : gmap string (Tensor Z) :=
  {[ "template_mask" := tensor (Dim [Dim []]) ]}.

(** Raw features with an integer deletion matrix, and a pipeline that passes
    on the features it is asked for. *)
Definition int_array (a : ndarray Z) : NpArray Z := mkNpArray int64 a.

Definition raw_features : gmap string (NpArray Z) :=
  {[ "seq_length" := int_array (vec [2; 2]);
     "deletion_matrix_int" := int_array (Dim [vec [0; 1]]);
     "extra_msa" := int_array (Dim [Dim [vec [1; 2]; vec [3; 4]; vec [5; 6]]]);
     "extra_has_deletion" := int_array (Dim [Dim [vec [0; 0]; vec [0; 0]; vec [0; 0]]]);
     "extra_deletion_value" :=
       mkNpArray float64 (Dim [Dim [vec [0; 0]; vec [0; 0]; vec [0; 0]]]);
     "extra_msa_mask" := mkNpArray float32 (Dim [Dim [vec [1; 1]; vec [1; 1]; vec [1; 1]]]);
     "domain_name" := mkNpArray object_ (vec [0]) ]}.

Definition data_config : DataConfig :=
  mkDataConfig ["extra_msa"; "extra_has_deletion"; "extra_deletion_value";
                "extra_msa_mask"; "domain_name"] false [] 2 0.

Definition demo_np_to_array_dict (np_example : gmap string (NpArray Z))
    (features : list string) (use_templates : bool)
  : result (gmap string (NpArray Z)) :=
  Ok (filter (λ kv, kv.1 ∈ features) np_example).

Definition demo_preprocess :=
  preprocess (λ _ _ x, x) demo_np_to_array_dict (λ d _, Ok d)
             (λ features, Ok ((λ a, tensor (np_values a)) <$> features)).

(** Parameters as the '.npz' file of the pre-trained model names them. *)
Definition jax_params : list (string * Z) :=
  [("alphafold.evoformer.w", 1); ("alphafold.evoformer.b", 2)].
Definition demo_init_params :=
  init_params (λ _, Ok jax_params) (λ params, params)
              (λ _, Ok ({[ "evoformer.w" := 7 ]} : gmap string Z)).

(** A second pair tensor of shape [1, 2, 2, 1]. *)
Definition pair_act2 : T4 Z := [[[[5]; [6]]; [[7]; [8]]]].

(** A global attention with one head, output_dim 2 and no gating, three
    queries of one channel, and a pooling that takes the first query. *)
Definition global_attention : GlobalAttention Z :=
  mkGlobalAttention false 1 [[[1]]] [[1]] [[1]] [] [] [[[1; 1]]] [0; 0].
Definition queries : T4 Z := [[[[1]; [2]; [3]]]].
Definition first_query (mask value : T4 Z) : T3 Z :=
  (λ vn : T3 Z, (λ vb : T2 Z, vb !!! 0%nat) <$> vn) <$> value.

(** A transition and an outgoing triangle multiplication on one channel,
    and a pair activation of shape [1, 3, 3, 1] with its mask; chunks of two
    rows do not divide the three rows. *)
Definition linear (w b : Z) : Linear (R := Z) := mkLinear [[w]] [b].
Definition transition : Transition Z :=
  mkTransition (λ x, x) (linear 2 1) (linear 3 0).
Definition triangle_multiplication : TriangleMultiplication Z :=
  mkTriangleMultiplication "ikc,jkc->ijc" (λ x, x) (linear 1 0) (linear 2 0)
    (linear 1 1) (linear 1 0) (λ x, x) (linear 1 2) (linear 1 0).
Definition pair_act3 : T4 Z :=
  [[[[1]; [2]; [3]]; [[4]; [5]; [6]]; [[7]; [8]; [9]]]].
Definition pair_mask3 : T3 Z := [[[1; 1; 1]; [1; 1; 0]; [1; 1; 1]]].
Definition global_config2 : GlobalConfig :=
  {| subbatch_size := 2; deterministic := true; zero_init := false |}.

End Fixtures.

(** ** An arithmetic with a NaN *)

(** Integers with a NaN: [None] propagates through every operation and
    every comparison with it is false, as with IEEE floats. *)
Definition nan_lift2 (f : Z → Z → Z) (x y : option Z) : option Z :=
  match x, y with Some a, Some b => Some (f a b) | _, _ => None end.

Definition Float_nan : Float (option Z) := {|
  f0 := Some 0; f1 := Some 1;
  fadd := nan_lift2 Z.add; fsub := nan_lift2 Z.sub;
  fmul := nan_lift2 Z.mul; fdiv := nan_lift2 Z.div;
  fgtb := λ x y, match x, y with Some a, Some b => a >? b | _, _ => false end;
  of_Z := Some; to_Z := default 0;
  lit := λ m e, Some (m * 10 ^ e);
  frsqrt := id; frelu := fmap (Z.max 0); fsigmoid := id;
  softmax := id;
|}.

Module NanFixtures.
#[local] Existing Instance Float_nan.

Definition nan_attention : Attention (option Z) :=
  mkAttention false 1 [[[Some 1]]] [[[Some 1]]] [[[Some 1]]] [] []
              [[[Some 1]]] [Some 0].
Definition nan_template_embedding : TemplateEmbedding (option Z) :=
  mkTemplateEmbedding 4 1 (λ query _ _, Ok query) nan_attention.
(** A query embedding of shape [1, 2, 2, 1] with a NaN in it. *)
Definition nan_query : T4 (option Z) :=
  [[[[None]; [Some 2]]; [[Some 3]; [Some 4]]]].
Definition nan_template_mask : Tensor (option Z) :=
  mkTensor (Dim [Dim [Scalar (Some 0); Scalar (Some 0)]]) false.
Definition nan_template_batch : gmap string (Tensor (option Z)) :=
  {[ "template_mask" := nan_template_mask ]}.
Definition nan_run : result (T4 (option Z)) :=
  TemplateEmbedding_forward nan_template_embedding false nan_query
    nan_template_batch [].
End NanFixtures.

(* ===================================================================== *)
(** * Part II: lemmas and theorems                                       *)
(* ===================================================================== *)

(** ** RunModel.update_subbatch_size *)

(** C5: the subbatch-size policy. Extra-MSA width 5120 with a sequence
    shorter than 200 sets the subbatch size to 5120; width 1024 with a
    sequence shorter than 600 sets it to 1024 (the other settings of the
    configuration stay as they are); a width that is neither 5120 nor 1024
    raises the configuration error; in every other case the configuration is
    returned unchanged. *)
Theorem update_subbatch_size_policy (gc : GlobalConfig) (seq_len extra_msa_num : Z) :
  (extra_msa_num = 5120 ∧ seq_len < 200 →
     ∃ gc', update_subbatch_size gc seq_len extra_msa_num = Ok gc' ∧
            subbatch_size gc' = 5120 ∧
            deterministic gc' = deterministic gc ∧ zero_init gc' = zero_init gc) ∧
  (extra_msa_num = 1024 ∧ seq_len < 600 →
     ∃ gc', update_subbatch_size gc seq_len extra_msa_num = Ok gc' ∧
            subbatch_size gc' = 1024 ∧
            deterministic gc' = deterministic gc ∧ zero_init gc' = zero_init gc) ∧
  (extra_msa_num ≠ 5120 ∧ extra_msa_num ≠ 1024 →
     update_subbatch_size gc seq_len extra_msa_num
       = Raise (ValueError "Unknown subbatch strategy")) ∧
  (¬ (extra_msa_num = 5120 ∧ seq_len < 200) →
   ¬ (extra_msa_num = 1024 ∧ seq_len < 600) →
   ¬ (extra_msa_num ≠ 5120 ∧ extra_msa_num ≠ 1024) →
     update_subbatch_size gc seq_len extra_msa_num = Ok gc).
Proof.
  unfold update_subbatch_size.
  destruct (Z.eqb_spec extra_msa_num 5120) as [E1|E1];
    [|destruct (Z.eqb_spec extra_msa_num 1024) as [E2|E2]];
    destruct (Z.ltb_spec seq_len 200), (Z.ltb_spec seq_len 600);
    repeat split; intros; try reflexivity; try lia;
    try (eexists; split; [reflexivity|done]); exfalso; intuition lia.
Qed.

(** ** The error monad *)

Lemma bind_Ok {A B} (m : result A) (f : A → result B) (b : B) :
  m ≫= f = Ok b → ∃ a, m = Ok a ∧ f a = Ok b.
Proof. destruct m as [a|e]; simpl; [eauto | discriminate]. Qed.

Lemma fmap_Ok {A B} (m : result A) (f : A → B) (b : B) :
  f <$> m = Ok b → ∃ a, m = Ok a ∧ b = f a.
Proof. destruct m as [a|e]; simpl; [|discriminate]. intros [= <-]. eauto. Qed.

Lemma getitem_Ok {V} (d : gmap string V) k v : getitem d k = Ok v ↔ d !! k = Some v.
Proof. unfold getitem. destruct (d !! k); split; congruence. Qed.

Lemma assert_Ok b u : assert_ b = Ok u → b = true.
Proof. destruct b; [done | discriminate]. Qed.

Lemma traced_bind_Ok {R A B} (m : traced R A) (f : A → traced R B) log b log' :
  (m ≫= f) log = (Ok b, log') →
  ∃ a log1, m log = (Ok a, log1) ∧ f a log1 = (Ok b, log').
Proof.
  unfold mbind, traced_bind. destruct (m log) as [[a|e] log1]; [eauto | discriminate].
Qed.

Lemma lift_Ok {R A} (m : result A) (log log' : list (Invocation R)) a :
  lift m log = (Ok a, log') → m = Ok a ∧ log' = log.
Proof. unfold lift. by intros [= -> ->]. Qed.

Lemma traced_ret_Ok {R A} (a b : A) (log log' : list (Invocation R)) :
  mret (M := traced R) a log = (Ok b, log') → a = b ∧ log' = log.
Proof. unfold mret, traced_ret. by intros [= -> ->]. Qed.

(** Decompose a successful run step by step. *)
Ltac inv_ok :=
  repeat match goal with
  | H : (_ ≫= _) _ = (Ok _, _) |- _ =>
      apply traced_bind_Ok in H; destruct H as (? & ? & ? & H)
  | H : lift _ _ = (Ok _, _) |- _ => apply lift_Ok in H; destruct H as [H ->]
  | H : mret _ _ = (Ok _, _) |- _ => apply traced_ret_Ok in H; destruct H as [H ->]
  | H : _ ≫= _ = Ok _ |- _ => apply bind_Ok in H; destruct H as (? & ? & H)
  | H : _ <$> _ = Ok _ |- _ => apply fmap_Ok in H; destruct H as (? & H & ->)
  | H : mret _ = Ok _ |- _ => injection H as H
  | H : Ok _ = Ok _ |- _ => injection H as H
  | H : Raise _ = Ok _ |- _ => discriminate H
  end.

Lemma mapM_Ok {A B} (f : A → result B) (l : list A) (k : list B) :
  mapM f l = Ok k ↔ Forall2 (λ x y, f x = Ok y) l k.
Proof.
  revert k. induction l as [|x l IH]; intros k; simpl.
  - split; [intros [= <-]; constructor | by inversion 1].
  - split.
    + intros Hm. inv_ok. subst k. constructor; [done|]. by apply IH.
    + inversion 1 as [|? y ? k' Hx Hl]; subst.
      rewrite Hx. simpl. apply IH in Hl. rewrite Hl. reflexivity.
Qed.

(** Every entry of a dict comprehension comes from the entry of the same
    key. *)
Lemma dict_imapM_lookup {A B} (f : string → A → result B)
    (d : gmap string A) (d' : gmap string B) :
  dict_imapM f d = Ok d' →
  ∀ k, match d !! k with
       | Some v => ∃ b, f k v = Ok b ∧ d' !! k = Some b
       | None => d' !! k = None
       end.
Proof.
  unfold dict_imapM. intros Hd. apply fmap_Ok in Hd as (l' & Hm & ->).
  apply mapM_Ok in Hm.
  assert (Hfst : l'.*1 = (map_to_list d).*1).
  { clear -Hm. induction Hm as [|kv kv' l l' Hkv _ IH]; [done|].
    apply fmap_Ok in Hkv as (b & _ & ->). by rewrite !fmap_cons, IH. }
  intros k. destruct (d !! k) as [v|] eqn:Ek.
  - apply elem_of_map_to_list, list_elem_of_lookup in Ek as [i Ei].
    destruct (Forall2_lookup_l _ _ _ _ _ Hm Ei) as (kv' & Ei' & Hkv).
    apply fmap_Ok in Hkv as (b & Hb & ->). simpl in Hb.
    exists b. split; [done|].
    apply elem_of_list_to_map_1.
    + rewrite Hfst. apply NoDup_fst_map_to_list.
    + eapply list_elem_of_lookup_2; eauto.
  - apply not_elem_of_list_to_map_1. rewrite Hfst.
    intros Hin. apply list_elem_of_fmap in Hin as ([k' v] & -> & Hin).
    apply elem_of_map_to_list in Hin. simpl in Ek. congruence.
Qed.

(** ** Arrays of a given shape *)

Section NdarrayFacts.
Context {R : Type} `{Float R}.

Lemma nd_map_const (c : R) s : ∀ a,
  nd_has_shape s a → nd_map (λ _, c) a = nd_full s c.
Proof.
  induction s as [|n s IH]; intros [x|rows]; simpl; try done.
  intros [<- Hrows]. f_equal.
  induction Hrows as [|r rows Hr _ IHrows]; simpl; [done|].
  by rewrite IH, IHrows.
Qed.

Lemma nd_index1_shape i B E s (a a' : ndarray R) :
  nd_has_shape (B :: E :: s) a → nd_index1 i a = Ok a' →
  nd_has_shape (B :: s) a'.
Proof.
  destruct a as [x|rows]; simpl; [done|]. intros [<- Hrows] Hi.
  inv_ok. simpl.
  match goal with Hm : mapM _ _ = Ok _ |- _ => apply mapM_Ok in Hm; rename Hm into HF end.
  split; [symmetry; eapply Forall2_length; eauto|].
  induction HF as [|r r' rows rows' Hr _ IHF]; [constructor|].
  inversion Hrows as [|? ? Hr0 Hrows']; subst.
  constructor; [|by apply IHF].
  destruct r as [x|l]; simpl in *; [done|]. destruct Hr0 as [_ Hl].
  destruct (l !! i) as [e|] eqn:El; [|discriminate]. injection Hr as <-.
  eapply Forall_lookup_1; eauto.
Qed.

Lemma nd_shape_has_shape B E N b e n (a : ndarray R) :
  nd_has_shape [B; E; N] a → nd_shape a = [b; e; n] → b = B ∧ e = E ∧ n = N.
Proof.
  destruct a as [x|rows]; simpl; [done|]. intros [<- Hrows].
  destruct Hrows as [|r rows Hr _]; simpl; [done|].
  destruct r as [x|rows2]; simpl in *; [done|]. destruct Hr as [<- Hrows2].
  destruct Hrows2 as [|r2 rows2 Hr2 _]; simpl; [done|].
  destruct r2 as [x|rows3]; simpl in *; [done|]. destruct Hr2 as [<- Hrows3].
  intros [= <- <- <-]. done.
Qed.

Lemma nd_unsqueeze_last_full (c : R) s :
  nd_unsqueeze_last (nd_full s c) = nd_full (s ++ [1%nat]) c.
Proof.
  induction s as [|n s IH]; simpl; [done|].
  f_equal. change (map ?f ?l) with (f <$> l). by rewrite fmap_replicate, IH.
Qed.

Lemma mjoin_replicate_replicate {A} (r n : nat) (x : A) :
  mjoin (replicate r (replicate n x)) = replicate (r * n) x.
Proof.
  induction r as [|r IH]; simpl; [done|]. by rewrite IH, replicate_add.
Qed.

Lemma nd_tile_full (c : R) s : ∀ reps,
  length reps = length s →
  nd_tile reps (nd_full s c) = nd_full (zip_with Nat.mul reps s) c.
Proof.
  induction s as [|n s IH]; intros [|r rs]; simpl; try done.
  intros [= Hlen]. f_equal.
  change (map ?f ?l) with (f <$> l).
  by rewrite fmap_replicate, IH, mjoin_replicate_replicate.
Qed.

Lemma prev_pos_zero B N a b (d : ndarray R) :
  nd_has_shape [B; N] d →
  nd_tile [1; 1; a; b]%nat
    (nd_unsqueeze_last (nd_unsqueeze_last (nd_map (λ _, f0) d)))
  = nd_full [B; N; a; b] f0.
Proof.
  intros Hs.
  rewrite (nd_map_const _ _ _ Hs), !nd_unsqueeze_last_full, nd_tile_full by done.
  f_equal. cbn [zip_with app]. by rewrite !Nat.mul_1_l, !Nat.mul_1_r.
Qed.

Lemma prev_msa_first_row_zero B N a (d : ndarray R) :
  nd_has_shape [B; N] d →
  nd_tile [1; 1; a]%nat (nd_unsqueeze_last (nd_map (λ _, f0) d))
  = nd_full [B; N; a] f0.
Proof.
  intros Hs.
  rewrite (nd_map_const _ _ _ Hs), !nd_unsqueeze_last_full, nd_tile_full by done.
  f_equal. cbn [zip_with app]. by rewrite !Nat.mul_1_l, !Nat.mul_1_r.
Qed.

End NdarrayFacts.

Ltac inv_ok_pairs :=
  repeat first
    [ progress inv_ok
    | match goal with p : prod _ _ |- _ => destruct p end ].

(** ** AlphaFold.forward: the recycling driver *)

Section DriverFacts.
Context {R : Type} `{Float R}.

Implicit Types (self : AlphaFold R) (batch prev : gmap string (Tensor R)).
Implicit Types (log : list (Invocation R)).

(** What [_get_prev] extracts, and that gradient tracking is off on it. *)
Lemma _get_prev_spec (ret : gmap string (gmap string (Tensor R))) prev :
  _get_prev ret = Ok prev →
  ∃ sm pos reps mfr pair,
    ret !! "structure_module" = Some sm ∧ sm !! "final_atom_positions" = Some pos ∧
    ret !! "representations" = Some reps ∧
    reps !! "msa_first_row" = Some mfr ∧ reps !! "pair" = Some pair ∧
    prev = {[ "prev_pos" := set_stop_gradient pos;
              "prev_msa_first_row" := set_stop_gradient mfr;
              "prev_pair" := set_stop_gradient pair ]}.
Proof.
  unfold _get_prev. intros Hp. inv_ok.
  repeat match goal with Hg : getitem _ _ = Ok _ |- _ => apply getitem_Ok in Hg end.
  do 5 eexists. repeat (split; [eassumption|]).
  subst prev. rewrite !fmap_insert, map_fmap_singleton. reflexivity.
Qed.

Lemma _get_prev_stop_gradient (ret : gmap string (gmap string (Tensor R))) prev k t :
  _get_prev ret = Ok prev → prev !! k = Some t → stop_gradient t = true.
Proof.
  unfold _get_prev. intros Hp Hk. inv_ok. subst prev.
  rewrite lookup_fmap in Hk. destruct (_ !! k); [|discriminate].
  by injection Hk as <-.
Qed.

Lemma _run_single_recycling_Ok self batch inner ens prev idx log out log' :
  _run_single_recycling self batch inner ens prev idx log = (Ok out, log') →
  ∃ eb, log' = log ++ [mkInvocation eb prev ens] ∧
        AlphaFoldIteration_forward (alphafold_iteration self) eb prev ens = Ok out.
Proof.
  unfold _run_single_recycling. intros Hr. inv_ok.
  unfold call_iteration in Hr. injection Hr as Hf <-. eauto.
Qed.

Lemma recycle_loop self batch inner ens idxs : ∀ prev log prev' log',
  foldlT (recycle_step self batch inner ens) prev idxs log = (Ok prev', log') →
  ∃ invs, log' = log ++ invs ∧ length invs = length idxs ∧
          recycled self prev invs prev'.
Proof.
  induction idxs as [|i idxs IH]; simpl; intros prev log prev' log' Hl.
  - inv_ok. subst. exists []. rewrite app_nil_r. repeat split. constructor.
  - inv_ok. unfold recycle_step in *. inv_ok.
    match goal with Hr : _run_single_recycling _ _ _ _ _ _ _ = _ |- _ =>
      apply _run_single_recycling_Ok in Hr; destruct Hr as (eb & -> & Hf) end.
    apply IH in Hl as (invs & -> & Hlen & Hrec).
    exists (mkInvocation eb prev ens :: invs). rewrite <- app_assoc. simpl.
    repeat split; [by rewrite Hlen|]. econstructor; eauto.
Qed.

Lemma recycled_consecutive self prev invs prev' final :
  recycled self prev invs prev' → inv_non_ensembled_batch final = prev' →
  ∀ k inv inv',
    (invs ++ [final]) !! k = Some inv → (invs ++ [final]) !! S k = Some inv' →
    ∃ out,
      AlphaFoldIteration_forward (alphafold_iteration self)
        (inv_ensembled_batch inv) (inv_non_ensembled_batch inv)
        (inv_ensemble_representations inv) = Ok out ∧
      _get_prev out = Ok (inv_non_ensembled_batch inv').
Proof.
  induction 1 as [prev|prev inv0 out prev1 invs prev' Hne Hf Hg Hrec IH];
    intros Hfin k inv inv' Hk Hk'.
  - destruct k; simpl in *; discriminate.
  - destruct k as [|k]; simpl in *.
    + injection Hk as <-. exists out. split; [done|].
      destruct Hrec; simpl in *; injection Hk' as <-; congruence.
    + eapply IH; eauto.
Qed.

Lemma get_num_iter_claimed self batch n :
  get_num_iter self batch = Ok n → n = claimed_num_iter self batch.
Proof.
  unfold get_num_iter, claimed_num_iter.
  destruct (batch !! "num_iter_recycling") as [t|].
  - intros Hn. inv_ok. subst n.
    match goal with H1 : nd_index0 _ _ = Ok _ |- _ => rewrite H1 end. simpl.
    match goal with H1 : nd_item _ = Ok _ |- _ => rewrite H1 end. lia.
  - intros [= <-]. lia.
Qed.

(** The shape of every successful run: the loop's invocations, then the
    final one, whose output is returned. *)
Lemma AlphaFold_forward_Ok self batch ens rr ret log :
  AlphaFold_forward self batch ens rr [] = (Ok ret, log) →
  ∃ aatype b e n prev0 num_iter invs prev eb out,
    batch !! "aatype" = Some aatype ∧ nd_shape (data aatype) = [b; e; n] ∧
    (if bool_decide (num_recycle (config self) ≠ 0)
     then get_num_iter self batch = Ok num_iter ∧
          initial_prev self batch n = Ok prev0 ∧
          length invs = length (py_range num_iter)
     else num_iter = 0 ∧ prev0 = ∅ ∧ invs = []) ∧
    recycled self prev0 invs prev ∧
    log = invs ++ [mkInvocation eb prev ens] ∧
    AlphaFoldIteration_forward (alphafold_iteration self) eb prev ens = Ok out ∧
    ret = (if rr then out else delete "representations" out).
Proof.
  unfold AlphaFold_forward. intros Hf. inv_ok_pairs.
  match goal with Hr : _run_single_recycling _ _ _ _ _ _ _ = _ |- _ =>
    apply _run_single_recycling_Ok in Hr; destruct Hr as (eb & -> & Hout) end.
  match goal with Hg : getitem batch _ = Ok ?t |- _ =>
    apply getitem_Ok in Hg; exists t end.
  match goal with Hs : match nd_shape ?d with _ => _ end = Ok _ |- _ =>
    destruct (nd_shape d) as [|b [|e' [|n' [|]]]] eqn:Hshape; try discriminate;
    injection Hs as <- <-; exists b, e', n' end.
  case_bool_decide as Hnr.
  - inv_ok.
    match goal with Hl : foldlT _ _ _ _ = _ |- _ =>
      apply recycle_loop in Hl; destruct Hl as (invs & -> & Hlen & Hrec) end.
    inv_ok. simplify_eq.
    do 6 eexists. do 2 (split; [done|]).
    split; [split; [eassumption|split; [eassumption|eassumption]]|].
    split; [eassumption|]. simpl. eauto.
  - inv_ok. simplify_eq.
    exists ∅, 0, [], ∅, eb. eexists. do 2 (split; [done|]).
    split; [done|]. split; [constructor|]. eauto.
Qed.

Lemma recycled_consecutive_state self prev invs prev' final :
  recycled self prev invs prev' → inv_non_ensembled_batch final = prev' →
  ∀ k inv inv',
    (invs ++ [final]) !! k = Some inv → (invs ++ [final]) !! S k = Some inv' →
    ∃ out sm pos reps mfr pair,
      AlphaFoldIteration_forward (alphafold_iteration self)
        (inv_ensembled_batch inv) (inv_non_ensembled_batch inv)
        (inv_ensemble_representations inv) = Ok out ∧
      out !! "structure_module" = Some sm ∧
      sm !! "final_atom_positions" = Some pos ∧
      out !! "representations" = Some reps ∧
      reps !! "msa_first_row" = Some mfr ∧ reps !! "pair" = Some pair ∧
      inv_non_ensembled_batch inv'
        = {[ "prev_pos" := mkTensor (data pos) true;
             "prev_msa_first_row" := mkTensor (data mfr) true;
             "prev_pair" := mkTensor (data pair) true ]}.
Proof.
  intros Hrec Hfin k inv inv' Hk Hk'.
  destruct (recycled_consecutive _ _ _ _ _ Hrec Hfin _ _ _ Hk Hk')
    as (out & Hout & Hprev).
  apply _get_prev_spec in Hprev
    as (sm & pos & reps & mfr & pair & Hsm & Hpos & Hreps & Hmfr & Hpair & Heq).
  exists out, sm, pos, reps, mfr, pair. by rewrite Heq.
Qed.

Lemma length_py_range_max n : Z.of_nat (length (py_range n)) = Z.max n 0.
Proof. unfold py_range. rewrite length_fmap, length_seq. lia. Qed.

(** C1 (as amended): a run of [AlphaFold.forward] that returns has invoked
    the iteration exactly max(num_iter, 0) + 1 times, for num_iter =
    min(config.num_recycle, the 'num_iter_recycling' override when present,
    else config.num_recycle); each invocation after the first, the final
    one included, received as its non-ensembled input the dict with exactly
    the keys 'prev_pos', 'prev_msa_first_row' and 'prev_pair', holding the
    'final_atom_positions' of the structure module and the 'msa_first_row'
    and 'pair' representations of the output of the invocation before it,
    with [stop_gradient] set; and the value returned is the output of the
    last invocation (with its 'representations' entry deleted when
    [return_representations] is off). *)
Theorem forward_recycling self batch ens rr ret log :
  AlphaFold_forward self batch ens rr [] = (Ok ret, log) →
  Z.of_nat (length log) = Z.max (claimed_num_iter self batch) 0 + 1 ∧
  (∀ k inv inv',
     log !! k = Some inv → log !! S k = Some inv' →
     ∃ out sm pos reps mfr pair,
       AlphaFoldIteration_forward (alphafold_iteration self)
         (inv_ensembled_batch inv) (inv_non_ensembled_batch inv)
         (inv_ensemble_representations inv) = Ok out ∧
       out !! "structure_module" = Some sm ∧
       sm !! "final_atom_positions" = Some pos ∧
       out !! "representations" = Some reps ∧
       reps !! "msa_first_row" = Some mfr ∧ reps !! "pair" = Some pair ∧
       inv_non_ensembled_batch inv'
         = {[ "prev_pos" := mkTensor (data pos) true;
              "prev_msa_first_row" := mkTensor (data mfr) true;
              "prev_pair" := mkTensor (data pair) true ]}) ∧
  (∃ inv out,
     last log = Some inv ∧
     AlphaFoldIteration_forward (alphafold_iteration self)
       (inv_ensembled_batch inv) (inv_non_ensembled_batch inv)
       (inv_ensemble_representations inv) = Ok out ∧
     ret = if rr then out else delete "representations" out).
Proof.
  intros Hf.
  apply AlphaFold_forward_Ok in Hf
    as (aatype & b & e & n & prev0 & num_iter & invs & prev & eb & out &
        _ & _ & Hiter & Hrec & -> & Hout & ->).
  split; [|split].
  - rewrite length_app. simpl.
    case_bool_decide as Hnr.
    + destruct Hiter as (Hn & _ & Hlen).
      apply get_num_iter_claimed in Hn. subst num_iter.
      rewrite Hlen, Nat2Z.inj_add, length_py_range_max. reflexivity.
    + destruct Hiter as (_ & _ & ->). simpl.
      assert (num_recycle (config self) = 0) as H0
        by (destruct (decide (num_recycle (config self) = 0)); [done|contradiction]).
      unfold claimed_num_iter. rewrite H0. lia.
  - intros k inv inv'. eapply recycled_consecutive_state; eauto.
  - eexists _, out. rewrite last_snoc. simpl. eauto.
Qed.

Lemma initial_prev_zero self batch aatype B E N n prev :
  batch !! "aatype" = Some aatype → nd_has_shape [B; E; N] (data aatype) →
  initial_prev self batch n = Ok prev →
  prev = <["prev_pair" :=
            mkTensor (nd_full [B; N; n; Z.to_nat (pair_channel
                        (embeddings_and_evoformer (config self)))] f0) true]>
           (zero_prev self B N).
Proof.
  intros Ha Hs. unfold initial_prev. apply getitem_Ok in Ha. rewrite Ha.
  intros Hp. apply bind_Ok in Hp as (a & [= <-] & Hp).
  apply bind_Ok in Hp as (z & Hz & [= <-]).
  apply fmap_Ok in Hz as (t & Hi & ->).
  unfold tensor_index1 in Hi. apply fmap_Ok in Hi as (d & Hi & ->).
  eapply nd_index1_shape in Hs; [|eassumption].
  unfold zero_prev, tensor_tile, tensor_unsqueeze_last, zeros_like.
  cbn [data stop_gradient].
  rewrite (prev_pos_zero _ _ atom_type_num _ _ Hs), (prev_pos_zero _ _ n _ _ Hs),
    (prev_msa_first_row_zero _ _ _ _ Hs).
  apply map_eq. intros k.
  destruct (decide (k = "prev_pair")) as [->|?]; [by simplify_map_eq|].
  destruct (decide (k = "prev_pos")) as [->|?]; [by simplify_map_eq|].
  destruct (decide (k = "prev_msa_first_row")) as [->|?]; by simplify_map_eq.
Qed.

(** C4 (as amended): when no recycling iteration is to be made (num_iter =
    min(config.num_recycle, override) is not positive), a run that returns
    has made exactly one invocation of the iteration.  Its recycling-state
    input is the empty dict when config.num_recycle is 0, and the three
    all-zero tensors prev_pos [B, N, 37, 3], prev_msa_first_row
    [B, N, msa_channel] and prev_pair [B, N, N, pair_channel] when
    config.num_recycle is not 0, for an 'aatype' feature of shape
    [B, E, N]. *)
Theorem forward_zero_iterations self batch ens rr ret log aatype B E N :
  claimed_num_iter self batch ≤ 0 →
  batch !! "aatype" = Some aatype → nd_has_shape [B; E; N] (data aatype) →
  AlphaFold_forward self batch ens rr [] = (Ok ret, log) →
  ∃ eb,
    log = [mkInvocation eb
             (if decide (num_recycle (config self) = 0) then ∅
              else zero_prev self B N) ens].
Proof.
  intros Hzero Ha Hs Hf.
  apply AlphaFold_forward_Ok in Hf
    as (aatype' & b & e & n & prev0 & num_iter & invs & prev & eb & out &
        Ha' & Hshape & Hiter & Hrec & -> & Hout & ->).
  assert (aatype' = aatype) as -> by congruence.
  destruct (nd_shape_has_shape _ _ _ _ _ _ _ Hs Hshape) as (_ & _ & ->).
  exists eb. case_bool_decide as Hnr.
  - destruct Hiter as (Hn & Hprev & Hlen).
    apply get_num_iter_claimed in Hn. subst num_iter.
    unfold py_range in Hlen. rewrite Z2Nat.nonpos in Hlen by done.
    destruct invs; [|discriminate]. inversion Hrec; subst.
    rewrite decide_False by done. simpl. do 2 f_equal.
    rewrite (initial_prev_zero _ _ _ _ _ _ _ _ Ha Hs Hprev).
    apply insert_id. unfold zero_prev.
    by rewrite !lookup_insert_ne, lookup_singleton_eq by done.
  - destruct Hiter as (_ & -> & ->). inversion Hrec; subst.
    rewrite decide_True; [done|].
    destruct (decide (num_recycle (config self) = 0)); [done|contradiction].
Qed.

End DriverFacts.

Section DriverWitness.
Import Demo.

Lemma returns_Ok {A} (r : result A * list (Invocation Z)) :
  returns r = true → ∃ a log, r = (Ok a, log).
Proof. destruct r as [[a|e] log]; [eauto | discriminate]. Defined.

Lemma succeeds_Ok {A} (r : result A) : succeeds r = true → ∃ a, r = Ok a.
Proof. destruct r as [a|e]; [eauto | discriminate]. Defined.

Lemma forward_recycling_witness :
  ∃ (ret : gmap string (gmap string (Tensor Z))) (log : list (Invocation Z)),
    AlphaFold_forward (model 2) batch1 false true [] = (Ok ret, log) ∧
    Z.of_nat (length log) = 3 ∧
    (∀ (k : nat) (inv inv' : Invocation Z),
       log !! k = Some inv → log !! S k = Some inv' →
       ∃ (out : gmap string (gmap string (Tensor Z)))
         (sm : gmap string (Tensor Z)) (pos : Tensor Z)
         (reps : gmap string (Tensor Z)) (mfr pair : Tensor Z),
         AlphaFoldIteration_forward (alphafold_iteration (model 2))
           (inv_ensembled_batch inv) (inv_non_ensembled_batch inv)
           (inv_ensemble_representations inv) = Ok out ∧
         out !! "structure_module" = Some sm ∧
         sm !! "final_atom_positions" = Some pos ∧
         out !! "representations" = Some reps ∧
         reps !! "msa_first_row" = Some mfr ∧ reps !! "pair" = Some pair ∧
         inv_non_ensembled_batch inv'
           = {[ "prev_pos" := mkTensor (data pos) true;
                "prev_msa_first_row" := mkTensor (data mfr) true;
                "prev_pair" := mkTensor (data pair) true ]}).
Proof.
  assert (returns (AlphaFold_forward (model 2) batch1 false true []) = true)
    as Hrun by (vm_compute; reflexivity).
  destruct (returns_Ok _ Hrun) as (ret & log & E).
  assert (Z.max (claimed_num_iter (model 2) batch1) 0 + 1 = 3) as Hn
    by (vm_compute; reflexivity).
  exists ret, log. split; [exact E|].
  destruct (forward_recycling (model 2) batch1 false true ret log E)
    as (Hlen & Hstate & _).
  split; [exact (eq_trans Hlen Hn)|exact Hstate].
Defined.

Lemma forward_zero_iterations_witness :
  ∃ ret log,
    AlphaFold_forward (model 2) batch1_override0 false true [] = (Ok ret, log) ∧
    ∃ eb, log = [mkInvocation eb
                   (if decide (num_recycle (config (model 2)) = 0) then ∅
                    else zero_prev (model 2) 1 2) false].
Proof.
  assert (returns (AlphaFold_forward (model 2) batch1_override0 false true [])
          = true) as Hrun by (vm_compute; reflexivity).
  destruct (returns_Ok _ Hrun) as (ret & log & E).
  assert (claimed_num_iter (model 2) batch1_override0 ≤ 0) as H0
    by (vm_compute; discriminate).
  assert (batch1_override0 !! "aatype" = Some (tensor (Dim [Dim [vec [0; 0]]])))
    as Ha by (vm_compute; reflexivity).
  assert (nd_has_shape [1; 1; 2]%nat (data (tensor (Dim [Dim [vec [0; 0]]]))))
    as Hs by (simpl; repeat constructor).
  exists ret, log. split; [exact E|].
  exact (forward_zero_iterations (model 2) batch1_override0 false true ret log
           _ _ _ _ H0 Ha Hs E).
Defined.

(** With [config.num_recycle = 0] the single invocation receives the empty
    dict: there is no 'prev_pos' (nor any other) recycling tensor in it. *)
Lemma forward_no_recycle_empty_state :
  ∃ ret inv,
    AlphaFold_forward (model 0) batch1 false true [] = (Ok ret, [inv]) ∧
    inv_non_ensembled_batch inv = ∅ ∧
    inv_non_ensembled_batch inv !! "prev_pos" = None.
Proof.
  assert (match AlphaFold_forward (model 0) batch1 false true [] with
          | (Ok _, [inv]) => bool_decide (size (inv_non_ensembled_batch inv) = 0%nat)
          | _ => false
          end = true) as Hrun by (vm_compute; reflexivity).
  destruct (AlphaFold_forward (model 0) batch1 false true [])
    as [[ret|e] [|inv [|]]]; try discriminate Hrun.
  apply bool_decide_eq_true, map_size_empty_iff in Hrun.
  exists ret, inv. rewrite Hrun. done.
Qed.

(** A negative override: the iteration count is -1, and the driver makes
    one invocation, not num_iter + 1 = 0. *)
Lemma forward_negative_override_one_invocation :
  claimed_num_iter (model 2) batch1_override_neg = -1 ∧
  ∃ (ret : gmap string (gmap string (Tensor Z))) (inv : Invocation Z),
    AlphaFold_forward (model 2) batch1_override_neg false true [] = (Ok ret, [inv]).
Proof.
  split; [vm_compute; reflexivity|].
  assert (match AlphaFold_forward (model 2) batch1_override_neg false true [] with
          | (Ok _, [inv]) => true
          | _ => false
          end = true) as Hrun by (vm_compute; reflexivity).
  destruct (AlphaFold_forward (model 2) batch1_override_neg false true [])
    as [[ret|e] [|inv [|]]]; try discriminate Hrun.
  by exists ret, inv.
Qed.

End DriverWitness.

(** ** AlphaFoldIteration.forward *)

Section IterationFacts.
Context {R : Type} `{Float R}.

Implicit Types (self : AlphaFoldIteration R).
Implicit Types (eb neb : gmap string (Tensor R)).

Lemma output_dict_lookup (o : EvoformerOutput R) :
  output_dict o !! "single" = Some (out_single o) ∧
  output_dict o !! "pair" = Some (out_pair o) ∧
  output_dict o !! "msa" = Some (out_msa o) ∧
  output_dict o !! "msa_first_row" = Some (out_msa_first_row o).
Proof. unfold output_dict. repeat split; by simplify_map_eq. Qed.

Lemma iadd_all_lookup (reps upd reps' : gmap string (Tensor R)) k v :
  iadd_all reps upd = Ok reps' → reps !! k = Some v →
  ∃ u, upd !! k = Some u ∧ reps' !! k = Some (tensor_iadd v u).
Proof.
  intros Hi Hk. apply dict_imapM_lookup with (k := k) in Hi. rewrite Hk in Hi.
  destruct Hi as (b & Hb & Hr). inv_ok. subst b.
  match goal with Hg : getitem _ _ = Ok _ |- _ => apply getitem_Ok in Hg end. eauto.
Qed.

(** The loop over the other ensemble members: each representation that is
    present accumulates the members' values in order. *)
Lemma ensemble_loop self eb neb idxs : ∀ reps reps',
  foldlM (ensemble_step self eb neb) reps idxs = Ok reps' →
  ∃ outs,
    Forall2 (λ i o, ∃ b, _slice_batch eb neb i = Ok b ∧ evoformer self b = Ok o)
            idxs outs ∧
    ∀ k v (g : EvoformerOutput R → Tensor R),
      (∀ o, output_dict o !! k = Some (g o)) → reps !! k = Some v →
      reps' !! k = Some (foldl tensor_iadd v (g <$> outs)).
Proof.
  induction idxs as [|i idxs IH]; simpl; intros reps reps' Hl.
  - injection Hl as <-. exists []. split; [constructor|]. by intros.
  - apply bind_Ok in Hl as (reps1 & Hstep & Hl).
    unfold ensemble_step in Hstep.
    apply bind_Ok in Hstep as (b & Hb & Hstep).
    apply bind_Ok in Hstep as (o & Ho & Hadd).
    apply IH in Hl as (outs & HF & Hacc).
    exists (o :: outs). split; [constructor; eauto|].
    intros k v g Hg Hk. simpl.
    destruct (iadd_all_lookup _ _ _ _ _ Hadd Hk) as (u & Hu & Hk1).
    rewrite Hg in Hu. injection Hu as <-. eauto.
Qed.

(** The loop over the heads changes no representation that the heads
    preserve. *)
Lemma run_heads_preserve self batch0 k names : ∀ reps ret reps' ret',
  heads_preserve self k →
  foldlM (run_head self batch0) (reps, ret) names = Ok (reps', ret') →
  reps' !! k = reps !! k.
Proof.
  induction names as [|name names IH]; simpl; intros reps ret reps' ret' Hp Hl.
  - by injection Hl as <- <-.
  - apply bind_Ok in Hl as ([reps1 ret1] & Hh & Hl).
    rewrite (IH _ _ _ _ Hp Hl). unfold run_head in Hh.
    apply bind_Ok in Hh as (out & Hout & Hh).
    destruct (head_representations out) as [extra|] eqn:Hex.
    + injection Hh as <- <-. rewrite lookup_union_r; [done|]. eapply Hp; eauto.
    + by injection Hh as <- <-.
Qed.

Lemma nd_index1_empty_row i (a : ndarray R) :
  shape_at a 1 = Ok 0%nat → ∃ e, nd_index1 i a = Raise e.
Proof.
  unfold shape_at. destruct a as [x|rows]; simpl; [discriminate|].
  destruct rows as [|r rows]; simpl; [discriminate|].
  destruct r as [x|l]; simpl; [discriminate|].
  destruct l; simpl; [|discriminate]. intros _. eauto.
Qed.

Lemma nd_get_zip (f : R → R → R) path : ∀ (a b : ndarray R) x y,
  nd_get path a = Some x → nd_get path b = Some y →
  nd_get path (nd_zip f a b) = Some (f x y).
Proof.
  induction path as [|i path IH]; intros [xa|ra] [xb|rb] x y; simpl; try done.
  - by intros [= ->] [= ->].
  - intros Ha Hb. rewrite lookup_zip_with.
    destruct (ra !! i) as [a'|]; simpl in *; [|done].
    destruct (rb !! i) as [b'|]; simpl in *; [|done]. by apply IH.
Qed.

Lemma nd_get_map (f : R → R) path : ∀ (a : ndarray R),
  nd_get path (nd_map f a) = f <$> nd_get path a.
Proof.
  induction path as [|i path IH]; intros [x|rows]; simpl; try done.
  change (map ?g ?l) with (g <$> l). rewrite list_lookup_fmap.
  destruct (rows !! i) as [a'|]; simpl; [apply IH|done].
Qed.

Lemma nd_has_shape_zip (f : R → R → R) s : ∀ (a b : ndarray R),
  nd_has_shape s a → nd_has_shape s b → nd_has_shape s (nd_zip f a b).
Proof.
  induction s as [|n s IH]; intros [xa|ra] [xb|rb]; simpl; try done.
  intros [Hla Ha] [Hlb Hb]. split; [rewrite length_zip_with; lia|].
  clear Hla Hlb. revert rb Hb.
  induction Ha as [|a ra Ha _ IHa]; intros rb Hb; [constructor|].
  destruct Hb as [|b rb Hb Hrb]; simpl; constructor; auto.
Qed.

Lemma nd_has_shape_map (f : R → R) s : ∀ (a : ndarray R),
  nd_has_shape s a → nd_has_shape s (nd_map f a).
Proof.
  induction s as [|n s IH]; intros [x|rows]; simpl; try done.
  intros [Hl Hr]. change (map ?g ?l) with (g <$> l).
  split; [by rewrite length_fmap|].
  apply Forall_fmap. eapply Forall_impl; [exact Hr|]. intros a. apply IH.
Qed.

(** The members' sum, as the loop accumulates it, has the members' shape,
    and at every index its element is the sum of theirs, first to last. *)
Lemma foldl_iadd_shape s (ts : list (Tensor R)) : ∀ t : Tensor R,
  nd_has_shape s (data t) → Forall (λ m, nd_has_shape s (data m)) ts →
  nd_has_shape s (data (foldl tensor_iadd t ts)).
Proof.
  induction ts as [|u ts IH]; intros t Ht Hts; simpl; [done|].
  inversion Hts as [|? ? Hu Hts']; subst.
  apply IH; [|done]. unfold tensor_iadd. simpl. by apply nd_has_shape_zip.
Qed.

Lemma foldl_iadd_get path (ts : list (Tensor R)) : ∀ (t : Tensor R) x xs,
  nd_get path (data t) = Some x →
  Forall2 (λ m y, nd_get path (data m) = Some y) ts xs →
  nd_get path (data (foldl tensor_iadd t ts)) = Some (foldl fadd x xs).
Proof.
  induction ts as [|u ts IH]; intros t x xs Ht Hts.
  - by inversion Hts.
  - inversion Hts as [|? y ? xs' Hu Hts']; subst. simpl.
    apply IH; [|done]. unfold tensor_iadd. simpl. by apply nd_get_zip.
Qed.

(** C2: with [ensemble_representations] on, for head modules that leave the
    four orchestrator representations alone, a run of the iteration that
    returns has evaluated the orchestrator once per ensemble member [i] on
    [_slice_batch(i)], n >= 1 times in all; the returned 'pair', 'single' and
    'msa_first_row' representations are the arithmetic mean of the members'
    outputs (of their shape, and at every index the members' elements added
    first to last and divided by n), and the returned 'msa' is the first
    member's own output. *)
Theorem forward_ensemble_mean self eb neb ret :
  (∀ k, k ∈ ["pair"; "single"; "msa_first_row"; "msa"] → heads_preserve self k) →
  AlphaFoldIteration_forward self eb neb true = Ok ret →
  ∃ (outs : list (EvoformerOutput R)) (reps : gmap string (Tensor R)),
    (∃ sl, eb !! "seq_length" = Some sl ∧ shape_at (data sl) 1 = Ok (length outs)) ∧
    (1 ≤ length outs)%nat ∧
    (∀ i o, outs !! i = Some o →
            ∃ b, _slice_batch eb neb i = Ok b ∧ evoformer self b = Ok o) ∧
    ret !! "representations" = Some reps ∧
    mean_of (out_pair <$> outs) (reps !! "pair") ∧
    mean_of (out_single <$> outs) (reps !! "single") ∧
    mean_of (out_msa_first_row <$> outs) (reps !! "msa_first_row") ∧
    reps !! "msa" = out_msa <$> head outs.
Proof.
  intros Hheads Hf. unfold AlphaFoldIteration_forward in Hf.
  apply bind_Ok in Hf as (sl & Hsl & Hf). apply getitem_Ok in Hsl.
  apply bind_Ok in Hf as (n & Hn & Hf).
  apply bind_Ok in Hf as (_ & _ & Hf).
  apply bind_Ok in Hf as (batch0 & Hb0 & Hf).
  apply bind_Ok in Hf as (r0 & Hr0 & Hf).
  apply fmap_Ok in Hr0 as (o0 & Ho0 & ->).
  destruct (output_dict_lookup o0) as (Hsingle & Hpair & Hmsa & Hmfr).
  apply bind_Ok in Hf as (msa & Hm & Hf).
  apply getitem_Ok in Hm. rewrite Hmsa in Hm. injection Hm as <-.
  apply bind_Ok in Hf as (r2 & Hloop & Hf).
  apply bind_Ok in Hloop as (r1 & Hloop & [= <-]).
  apply bind_Ok in Hf as (names & _ & Hf).
  apply bind_Ok in Hf as ([reps ret'] & Hh & [= <-]).
  apply ensemble_loop in Hloop as (outs & HF & Hacc).
  (* there is at least one member *)
  assert (n ≠ 0%nat) as Hn0.
  { intros ->. unfold _slice_batch in Hb0. apply bind_Ok in Hb0 as (b & Hb & _).
    apply dict_imapM_lookup with (k := "seq_length") in Hb. rewrite Hsl in Hb.
    destruct Hb as (t & Ht & _). unfold tensor_index1 in Ht.
    apply fmap_Ok in Ht as (d & Hd & _).
    destruct (nd_index1_empty_row 0 _ Hn) as [e He]. congruence. }
  pose proof (Forall2_length _ _ _ HF) as Hlen. rewrite length_seq in Hlen.
  exists (o0 :: outs), reps. simpl.
  assert (S (length outs) = n) as Hlen' by lia.
  split; [exists sl; by rewrite Hlen'|]. split; [lia|].
  split.
  { intros [|i] o Hi; simpl in Hi.
    - injection Hi as <-. eauto.
    - destruct (Forall2_lookup_r _ _ _ _ _ HF Hi) as (j & Hj & Hev).
      apply lookup_seq in Hj as [-> _]. exact Hev. }
  split; [apply lookup_insert_eq|].
  assert (Hmean : ∀ k (g : EvoformerOutput R → Tensor R),
            k ≠ "msa" → (∀ o, output_dict o !! k = Some (g o)) →
            k ∈ ["pair"; "single"; "msa_first_row"; "msa"] →
            mean_of (g o0 :: (g <$> outs)) (reps !! k)).
  { intros k g Hne Hg Hk.
    rewrite (run_heads_preserve _ _ _ _ _ _ _ _ (Hheads k Hk) Hh).
    rewrite lookup_insert_ne by done. unfold idiv_all. rewrite lookup_fmap.
    erewrite Hacc; [|exact Hg|by rewrite lookup_delete_ne, Hg by done].
    simpl. eexists. split; [reflexivity|]. split.
    - intros s Hs. inversion Hs as [|? ? Hs0 Hs']; subst.
      unfold tensor_idiv. simpl. by apply nd_has_shape_map, foldl_iadd_shape.
    - intros path xs Hxs. inversion Hxs as [|? x ? xs' Hx Hxs']; subst.
      unfold tensor_idiv. simpl. rewrite nd_get_map.
      rewrite (foldl_iadd_get _ _ _ _ _ Hx Hxs'). simpl.
      apply Forall2_length in Hxs'. rewrite length_fmap in Hxs'.
      by rewrite <- Hxs'. }
  split; [apply (Hmean "pair" out_pair);
            [done|intros; apply output_dict_lookup|set_solver]|].
  split; [apply (Hmean "single" out_single);
            [done|intros; apply output_dict_lookup|set_solver]|].
  split; [apply (Hmean "msa_first_row" out_msa_first_row);
            [done|intros; apply output_dict_lookup|set_solver]|].
  rewrite (run_heads_preserve _ _ "msa" _ _ _ _ _ (Hheads "msa" ltac:(set_solver)) Hh).
  by rewrite lookup_insert_eq.
Qed.

(** C9 (as amended): when ensembling is not requested and the batch does not
    hold exactly one ensemble member, the iteration fails on its assertion,
    before any module runs; the assertion is the only check on the number of
    members, and it is skipped when ensembling is requested. *)
Theorem forward_asserts_one_member self eb neb seq_length n :
  eb !! "seq_length" = Some seq_length →
  shape_at (data seq_length) 1 = Ok n →
  n ≠ 1%nat →
  AlphaFoldIteration_forward self eb neb false = Raise AssertionError.
Proof.
  intros Hs Hn Hne. unfold AlphaFoldIteration_forward.
  apply getitem_Ok in Hs. rewrite Hs. simpl. rewrite Hn. simpl.
  destruct (Nat.eqb_spec n 1); [contradiction|reflexivity].
Qed.

End IterationFacts.

Section IterationWitness.
Import Demo.

Lemma demo_heads_preserve (k : string) :
  k ∈ ["pair"; "single"; "msa_first_row"; "msa"] → heads_preserve iteration k.
Proof.
  intros Hk name reps b out extra Hout Hex.
  change (demo_head name reps b = Ok out) in Hout.
  unfold demo_head in Hout. apply bind_Ok in Hout as (single & _ & Hout).
  destruct (decide (name = "structure_module")).
  - injection Hout as <-. injection Hex as <-.
    apply lookup_singleton_ne. intros <-. revert Hk.
    rewrite !elem_of_cons, elem_of_nil. intros [?|[?|[?|[?|[]]]]]; discriminate.
  - injection Hout as <-. discriminate.
Qed.

(** The orchestrator of the concrete model on the member [i] of [batch3]. *)
Lemma demo_member (i : nat) (o : EvoformerOutput Z) :
  (∃ b, _slice_batch batch3 ∅ i = Ok b ∧ evoformer iteration b = Ok o) →
  _slice_batch batch3 ∅ i ≫= evoformer iteration = Ok o.
Proof. intros (b & -> & Ho). exact Ho. Qed.

Lemma forward_ensemble_mean_witness :
  ∃ (ret : gmap string (gmap string (Tensor Z)))
    (reps : gmap string (Tensor Z)) (pair msa : Tensor Z),
    AlphaFoldIteration_forward iteration batch3 ∅ true = Ok ret ∧
    ret !! "representations" = Some reps ∧
    reps !! "pair" = Some pair ∧
    nd_has_shape [1; 2]%nat (data pair) ∧
    nd_get [0; 0]%nat (data pair) = Some 6 ∧
    nd_get [0; 1]%nat (data pair) = Some 60 ∧
    reps !! "msa" = Some msa ∧ data msa = Dim [vec [3; 30]].
Proof.
  assert (succeeds (AlphaFoldIteration_forward iteration batch3 ∅ true) = true)
    as Hrun by (vm_compute; reflexivity).
  destruct (succeeds_Ok _ Hrun) as (ret & E).
  destruct (forward_ensemble_mean iteration batch3 ∅ ret demo_heads_preserve E)
    as (outs & reps & (sl & Hsl & Hn) & _ & Hmem & Hr & (pair & Hp & Hshape & Hget)
        & _ & _ & Hm).
  assert (batch3 !! "seq_length" = Some (tensor (Dim [vec [2; 2; 2]]))) as Hsl'
    by (vm_compute; reflexivity).
  assert (sl = tensor (Dim [vec [2; 2; 2]])) as -> by congruence.
  assert (length outs = 3%nat) as Hlen by (injection Hn as <-; reflexivity).
  destruct outs as [|o0 [|o1 [|o2 [|]]]]; try discriminate Hlen.
  assert (o0 = mkEvoformerOutput (tensor (Dim [vec [3; 30]])) (tensor (Dim [vec [3; 30]]))
                 (tensor (Dim [vec [3; 30]])) (tensor (Dim [vec [3; 30]]))) as ->.
  { pose proof (demo_member 0 o0 (Hmem 0%nat o0 eq_refl)) as H0.
    assert (_slice_batch batch3 ∅ 0 ≫= evoformer iteration
            = Ok (mkEvoformerOutput (tensor (Dim [vec [3; 30]])) (tensor (Dim [vec [3; 30]]))
                 (tensor (Dim [vec [3; 30]])) (tensor (Dim [vec [3; 30]]))))
      as H0' by (vm_compute; reflexivity).
    congruence. }
  assert (o1 = mkEvoformerOutput (tensor (Dim [vec [6; 60]])) (tensor (Dim [vec [6; 60]]))
                 (tensor (Dim [vec [6; 60]])) (tensor (Dim [vec [6; 60]]))) as ->.
  { pose proof (demo_member 1 o1 (Hmem 1%nat o1 eq_refl)) as H1.
    assert (_slice_batch batch3 ∅ 1 ≫= evoformer iteration
            = Ok (mkEvoformerOutput (tensor (Dim [vec [6; 60]])) (tensor (Dim [vec [6; 60]]))
                 (tensor (Dim [vec [6; 60]])) (tensor (Dim [vec [6; 60]]))))
      as H1' by (vm_compute; reflexivity).
    congruence. }
  assert (o2 = mkEvoformerOutput (tensor (Dim [vec [9; 90]])) (tensor (Dim [vec [9; 90]]))
                 (tensor (Dim [vec [9; 90]])) (tensor (Dim [vec [9; 90]]))) as ->.
  { pose proof (demo_member 2 o2 (Hmem 2%nat o2 eq_refl)) as H2.
    assert (_slice_batch batch3 ∅ 2 ≫= evoformer iteration
            = Ok (mkEvoformerOutput (tensor (Dim [vec [9; 90]])) (tensor (Dim [vec [9; 90]]))
                 (tensor (Dim [vec [9; 90]])) (tensor (Dim [vec [9; 90]]))))
      as H2' by (vm_compute; reflexivity).
    congruence. }
  exists ret, reps, pair, (tensor (Dim [vec [3; 30]])).
  split; [exact E|]. split; [exact Hr|]. split; [exact Hp|].
  split.
  { apply Hshape. repeat constructor. }
  split.
  { exact (Hget [0; 0]%nat [3; 6; 9]
             ltac:(repeat constructor)). }
  split.
  { exact (Hget [0; 1]%nat [30; 60; 90]
             ltac:(repeat constructor)). }
  split; [exact Hm|reflexivity].
Defined.

Lemma forward_asserts_one_member_witness :
  AlphaFoldIteration_forward iteration batch3 ∅ false = Raise AssertionError.
Proof.
  assert (batch3 !! "seq_length" = Some (tensor (Dim [vec [2; 2; 2]]))) as Hs
    by (vm_compute; reflexivity).
  assert (shape_at (data (tensor (Dim [vec [2; 2; 2]]))) 1 = Ok 3%nat) as Hn
    by reflexivity.
  exact (forward_asserts_one_member iteration batch3 ∅ _ 3%nat Hs Hn
           ltac:(discriminate)).
Defined.

(** Ensembling requested, one ensemble member in the batch: the iteration
    returns. *)
Lemma forward_ensembling_one_member_returns :
  shape_at (data (tensor (Dim [vec [2]]))) 1 = Ok 1%nat ∧
  batch1 !! "seq_length" = Some (tensor (Dim [vec [2]])) ∧
  ∃ ret, AlphaFoldIteration_forward iteration batch1 ∅ true = Ok ret.
Proof.
  split; [reflexivity|]. split; [vm_compute; reflexivity|].
  assert (succeeds (AlphaFoldIteration_forward iteration batch1 ∅ true) = true)
    as Hrun by (vm_compute; reflexivity).
  exact (succeeds_Ok _ Hrun).
Qed.

End IterationWitness.

(** ** Nested lists as tensors *)

Section TensorFacts.
Context {R : Type} `{Float R}.

Lemma length_tab {A} n (f : nat → A) : length (tab n f) = n.
Proof. unfold tab. by rewrite length_fmap, length_seq. Qed.

Lemma lookup_tab {A} n (f : nat → A) i :
  tab n f !! i = if decide (i < n)%nat then Some (f i) else None.
Proof.
  unfold tab. rewrite list_lookup_fmap. case_decide.
  - by rewrite lookup_seq_lt.
  - rewrite lookup_seq_ge by lia. done.
Qed.

Lemma lookup_total_Some {A} `{Inhabited A} (l : list A) i x :
  l !! i = Some x → l !!! i = x.
Proof. intros Hl. by rewrite list_lookup_total_alt, Hl. Qed.

Lemma shaped2_width1 {A} n m (t : list (list A)) :
  shaped2 n m t → (0 < n)%nat → width1 t = m.
Proof.
  intros [Hn Ht] H0. destruct t as [|r t]; simpl in *; [lia|].
  by inversion Ht.
Qed.

Lemma shaped2_lookup {A} n m (t : list (list A)) i r :
  shaped2 n m t → t !! i = Some r → length r = m.
Proof. intros [_ Ht] Hi. eapply (Forall_lookup_1 _ _ _ _ Ht Hi). Qed.

Lemma get2_transpose {A} `{Inhabited A} n m (t : list (list A)) i j :
  shaped2 n m t → get2 (transpose t) i j = get2 t j i.
Proof.
  intros Ht. unfold get2, transpose. rewrite lookup_tab.
  destruct (t !! j) as [r|] eqn:Ej; simpl.
  - pose proof (shaped2_lookup _ _ _ _ _ Ht Ej) as Hr.
    assert (0 < n)%nat as Hn.
    { destruct Ht as [<- _]. apply lookup_lt_Some in Ej. lia. }
    rewrite (shaped2_width1 _ _ _ Ht Hn).
    case_decide as Hi; simpl.
    + rewrite list_lookup_fmap, Ej. simpl.
      destruct (lookup_lt_is_Some_2 r i ltac:(lia)) as [x Hx].
      by rewrite Hx, (lookup_total_Some _ _ _ Hx).
    + symmetry. apply lookup_ge_None. lia.
  - case_decide; simpl; [|done]. by rewrite list_lookup_fmap, Ej.
Qed.

Lemma get2_zip_with {A B C} (f : A → B → C) (t1 : list (list A)) (t2 : list (list B)) i j :
  get2 (zip_with (zip_with f) t1 t2) i j
  = x ← get2 t1 i j; y ← get2 t2 i j; Some (f x y).
Proof.
  unfold get2. rewrite lookup_zip_with.
  destruct (t1 !! i) as [r1|]; simpl; [|done].
  destruct (t2 !! i) as [r2|]; simpl.
  - by rewrite lookup_zip_with.
  - by destruct (r1 !! j).
Qed.

Lemma shaped3_map3 {A B} (f : list A → list B) a b c (t : list (list (list (list A)))) :
  shaped3 a b c t → shaped3 a b c (map3 f t).
Proof.
  unfold map3, map2. intros [Ha Ht]. split; [by rewrite length_fmap|].
  apply Forall_fmap. eapply Forall_impl; [exact Ht|]. intros tb [Hb Htb]. simpl.
  split; [by rewrite length_fmap|].
  apply Forall_fmap. eapply Forall_impl; [exact Htb|]. intros r Hr. simpl.
  unfold shaped1 in *. by rewrite length_fmap.
Qed.

End TensorFacts.

(** ** DistogramHead.forward *)

Section DistogramFacts.
Context {R : Type} `{Float R}.

(** C6: for a pair representation of shape [B, N, N, c_z] and a scalar
    addition that is commutative (IEEE addition is), the distogram logits at
    [b, i, j, bin] and at [b, j, i, bin] are the same, for all indices (both
    are absent when an index is out of range). *)
Theorem distogram_logits_symmetric (self : DistogramHead R) (pair : T4 R)
    (B N : nat) (b i j bin : nat) :
  (∀ x y : R, fadd x y = fadd y x) →
  shaped3 B N N pair →
  get4 (DistogramHead_forward self pair).1 b i j bin
  = get4 (DistogramHead_forward self pair).1 b j i bin.
Proof.
  intros Hcomm Hpair. unfold DistogramHead_forward. cbn [fst].
  set (h := map3 (Linear_forward (half_logits self)) pair).
  assert (Hh : shaped3 B N N h) by by apply shaped3_map3.
  unfold get4, zip4, transpose_021. rewrite lookup_zip_with, list_lookup_fmap.
  destruct (h !! b) as [hb|] eqn:Eb; simpl; [|done].
  destruct Hh as [_ Hh]. pose proof (Forall_lookup_1 _ _ _ _ Hh Eb) as Hhb.
  rewrite !get2_zip_with, !(get2_transpose _ _ _ _ _ Hhb).
  destruct (get2 hb i j) as [x|], (get2 hb j i) as [y|]; simpl; try done.
  rewrite !lookup_zip_with.
  destruct (x !! bin) as [u|], (y !! bin) as [v|]; simpl; try done.
  by rewrite Hcomm.
Qed.

End DistogramFacts.

(** ** EvoformerIteration.forward *)

Section EvoformerFacts.
Context {R : Type} `{Float R}.


End EvoformerFacts.

(** ** GlobalAttention.forward *)

Section GlobalAttentionFacts.
Context {R : Type} `{Float R}.

(** C10: the output of the global attention does not depend on its [bias]
    argument: any two values of it give the same output, for the same
    q_data, m_data and q_mask; and so the column-global attention returns
    the same whatever bias it builds and passes. *)
Theorem global_attention_ignores_bias (mask_mean : T4 R → T4 R → T3 R)
    (self : GlobalAttention R) (q_data m_data q_mask : T4 R) (bias1 bias2 : T5 R)
    (column : MSAColumnGlobalAttention) (gc : GlobalConfig) (training : bool)
    (msa_act : T4 R) (msa_mask : T3 R) (bias_of : T3 R → T5 R) :
  GlobalAttention_forward mask_mean self q_data m_data q_mask bias1
    = GlobalAttention_forward mask_mean self q_data m_data q_mask bias2 ∧
  MSAColumnGlobalAttention_forward mask_mean column gc training msa_act msa_mask
    = MSAColumnGlobalAttention_forward_with mask_mean bias_of column gc training
        msa_act msa_mask.
Proof.
  split; [reflexivity|].
  unfold MSAColumnGlobalAttention_forward, MSAColumnGlobalAttention_forward_with.
  destruct training; reflexivity.
Qed.

End GlobalAttentionFacts.

(** ** TemplateEmbedding.forward *)

Section TemplateFacts.
Context {R : Type} `{Float R}.

Lemma vsum_zero (v : T1 R) :
  fadd f0 f0 = f0 → Forall (λ x, x = f0) v → vsum v = f0.
Proof.
  intros H0 Hv. unfold vsum. induction Hv as [|x v -> _ IH]; simpl; [done|].
  by rewrite IH.
Qed.

Lemma sum2_zero (t : T2 R) :
  fadd f0 f0 = f0 → Forall (Forall (λ x, x = f0)) t → sum2 t = f0.
Proof.
  intros H0 Ht. unfold sum2. apply vsum_zero; [done|].
  apply Forall_fmap. eapply Forall_impl; [exact Ht|].
  intros v Hv. simpl. by apply vsum_zero.
Qed.

Lemma map4_Forall (f : R → R) (P : R → Prop) (t : T4 R) :
  (∀ x, P (f x)) → Forall (Forall (Forall (Forall P))) (map4 f t).
Proof.
  intros Hf. unfold map4, map3, map2.
  repeat (apply Forall_fmap, Forall_true; intros ?; simpl).
  apply Hf.
Qed.


End TemplateFacts.

Section NumericsWitness.
Import Demo NanFixtures.

Lemma distogram_logits_symmetric_witness :
  get4 (DistogramHead_forward distogram pair_act).1 0 0 1 1
  = get4 (DistogramHead_forward distogram pair_act).1 0 1 0 1.
Proof.
  assert (shaped3 1 2 2 pair_act) as Hs by (repeat split; repeat constructor).
  exact (distogram_logits_symmetric distogram pair_act 1 2 0 0 1 1 Z.add_comm Hs).
Defined.



End NumericsWitness.


(** ** Slicing and chunks *)

Lemma zip_with_fmap_same {A B C D} (f : B → C → D) (g : A → B) (h : A → C)
    (l : list A) :
  zip_with f (g <$> l) (h <$> l) = (λ x, f (g x) (h x)) <$> l.
Proof. induction l as [|x l IH]; csimpl; [done|]. by rewrite IH. Qed.

Section SliceFacts.
Context {A : Type}.
Implicit Types (l : list A) (t : list (list A)).

Lemma tab_ext {B} n (f g : nat → B) :
  (∀ i, (i < n)%nat → f i = g i) → tab n f = tab n g.
Proof.
  intros Hfg. unfold tab. apply list_fmap_ext. intros i x Hx.
  apply lookup_seq in Hx as [-> Hi]. by apply Hfg.
Qed.

Lemma fmap_tab {B C} (g : B → C) n (f : nat → B) :
  g <$> tab n f = tab n (λ i, g (f i)).
Proof. unfold tab. by rewrite <- list_fmap_compose. Qed.

Lemma take_drop_tab {B} k s n (f : nat → B) :
  take k (drop s (tab n f)) = tab (min k (n - s)) (λ j, f (s + j)%nat).
Proof.
  unfold tab. rewrite <- fmap_drop, <- fmap_take, drop_seq, take_seq. simpl.
  rewrite <- (Nat.add_0_r s) at 1. rewrite <- fmap_add_seq.
  by rewrite <- list_fmap_compose.
Qed.

Lemma length_slice k s l : length (take k (drop s l)) = min k (length l - s).
Proof. by rewrite length_take, length_drop. Qed.

Lemma lookup_total_slice `{Inhabited A} k s l i :
  (i < k)%nat → take k (drop s l) !!! i = l !!! (s + i)%nat.
Proof. intros Hi. by rewrite lookup_total_take_lt, lookup_total_drop. Qed.

Lemma lookup_total_fmap_slice k s t n :
  ((λ r : list A, take k (drop s r)) <$> t) !!! n = take k (drop s (t !!! n)).
Proof.
  rewrite !list_lookup_total_alt, list_lookup_fmap.
  destruct (t !! n); simpl; [done|]. by rewrite drop_nil, take_nil.
Qed.

Lemma imap_take_drop {B} (f g : nat → A → B) k s l :
  (∀ i x, (i < k)%nat → l !! (s + i)%nat = Some x → g i x = f (s + i)%nat x) →
  imap g (take k (drop s l)) = take k (drop s (imap f l)).
Proof.
  intros Hfg. apply list_eq. intros i.
  rewrite list_lookup_imap.
  destruct (decide (i < k)%nat) as [Hi|Hi].
  - rewrite !lookup_take_lt, !lookup_drop, list_lookup_imap by done.
    destruct (l !! (s + i)%nat) as [x|] eqn:Ex; simpl; [|done].
    f_equal. by apply Hfg.
  - rewrite !lookup_take_ge by lia. done.
Qed.

Lemma Forall_length_take_ge W s t :
  Forall (λ r, length r = W) t → (W ≤ s)%nat → take s <$> t = t.
Proof.
  intros Ht Hs. induction Ht as [|r t Hr _ IH]; csimpl; [done|].
  rewrite IH. by rewrite take_ge by lia.
Qed.

Lemma slice_ax1_0 bs t : slice_ax1 0 (0 + bs) t = take bs <$> t.
Proof. unfold slice_ax1. apply list_fmap_ext. intros i r _. by rewrite Nat.sub_0_r. Qed.

Lemma append_slice_ax1 s bs t :
  zip_with app (take s <$> t) (slice_ax1 s (s + bs) t) = take (s + bs) <$> t.
Proof.
  unfold slice_ax1. rewrite zip_with_fmap_same. apply list_fmap_ext. intros i r _.
  replace (s + bs - s)%nat with bs by lia. apply take_take_drop.
Qed.

End SliceFacts.

Section ChunkFacts.

Lemma chunk_starts_from_lt fuel : ∀ s W bs,
  Forall (λ x, (x < W)%nat) (chunk_starts_from fuel s W bs).
Proof.
  induction fuel as [|fuel IH]; intros s W bs; simpl; [constructor|].
  destruct (Nat.ltb_spec s W); [|constructor]. constructor; [done|apply IH].
Qed.

(** Appending the chunks of [y] from offset [s] on to its first [s] entries
    gives [y] back. *)
Lemma foldl_chunks {Y : Type} (prefix : nat → Y → Y) (slice : nat → nat → Y → Y)
    (append : Y → Y → Y) (W bs : nat) (y : Y) :
  (∀ s, append (prefix s y) (slice s (s + bs)%nat y) = prefix (s + bs)%nat y) →
  (∀ s, (W ≤ s)%nat → prefix s y = y) →
  (0 < bs)%nat →
  ∀ fuel s, (W ≤ s + fuel)%nat →
    foldl append (prefix s y)
          ((λ st, slice st (st + bs)%nat y) <$> chunk_starts_from fuel s W bs) = y.
Proof.
  intros Happ Hfull Hbs. induction fuel as [|fuel IH]; intros s Hs; simpl.
  - apply Hfull. lia.
  - destruct (Nat.ltb_spec s W); simpl.
    + rewrite Happ. apply IH. lia.
    + by apply Hfull.
Qed.

(** A function that commutes with slicing is left unchanged by
    [subbatch], along axis 1 of its result... *)
Lemma subbatch_ax1_id {Args A : Type} (slice : nat → nat → Args → Args)
    (width : Args → nat) (f : Args → list (list A)) (bs : nat) (args : Args) :
  (0 < bs)%nat → (0 < width args)%nat →
  Forall (λ r, length r = width args) (f args) →
  (∀ s, (s < width args)%nat →
        f (slice s (s + bs)%nat args) = slice_ax1 s (s + bs) (f args)) →
  subbatch slice width concat_ax1 f bs args = Ok (f args).
Proof.
  intros Hbs HW Hlen Hcomm. unfold subbatch, chunk_starts.
  destruct (width args) as [|w] eqn:EW; [lia|]. simpl.
  rewrite Hcomm by lia. f_equal.
  erewrite (Forall_fmap_ext_1 _ (λ st, slice_ax1 st (st + bs) (f args))).
  2:{ eapply Forall_impl; [apply chunk_starts_from_lt|]. intros st Hst.
      apply Hcomm. exact Hst. }
  rewrite slice_ax1_0.
  apply (foldl_chunks (λ s y, take s <$> y) slice_ax1 (zip_with app) (S w) bs (f args)).
  - intros s. apply append_slice_ax1.
  - intros s Hs. eapply Forall_length_take_ge; eauto.
  - done.
  - lia.
Qed.

(** ... and along axis 2. *)
Lemma subbatch_ax2_id {Args A : Type} (slice : nat → nat → Args → Args)
    (width : Args → nat) (f : Args → list (list (list A))) (bs : nat) (args : Args) :
  (0 < bs)%nat → (0 < width args)%nat →
  Forall (Forall (λ r, length r = width args)) (f args) →
  (∀ s, (s < width args)%nat →
        f (slice s (s + bs)%nat args) = slice_ax2 s (s + bs) (f args)) →
  subbatch slice width concat_ax2 f bs args = Ok (f args).
Proof.
  intros Hbs HW Hlen Hcomm. unfold subbatch, chunk_starts.
  destruct (width args) as [|w] eqn:EW; [lia|]. simpl.
  rewrite Hcomm by lia. f_equal.
  erewrite (Forall_fmap_ext_1 _ (λ st, slice_ax2 st (st + bs) (f args))).
  2:{ eapply Forall_impl; [apply chunk_starts_from_lt|]. intros st Hst.
      apply Hcomm. exact Hst. }
  assert (slice_ax2 0 (0 + bs) (f args)
          = (λ tb : list (list A), take bs <$> tb) <$> f args) as ->.
  { unfold slice_ax2. apply list_fmap_ext. intros i tb _.
    apply (slice_ax1_0 bs tb). }
  apply (foldl_chunks (λ s y, (λ tb : list (list A), take s <$> tb) <$> y)
           slice_ax2 (zip_with (zip_with app)) (S w) bs (f args)).
  - intros s. unfold slice_ax2. rewrite zip_with_fmap_same.
    apply list_fmap_ext. intros i tb _. apply append_slice_ax1.
  - intros s Hs. clear -Hlen Hs.
    induction Hlen as [|tb y Htb _ IH]; csimpl; [done|].
    rewrite IH. f_equal. eapply Forall_length_take_ge; eauto.
  - done.
  - lia.
Qed.

End ChunkFacts.

(** ** Shapes through the element-wise operations *)

Lemma fmap_zip_with {A B C D} (g : C → D) (f : A → B → C) (l : list A) (k : list B) :
  g <$> zip_with f l k = zip_with (λ x y, g (f x y)) l k.
Proof. revert k. induction l as [|x l IH]; intros [|y k]; csimpl; [done..|]. by rewrite IH. Qed.

Lemma zip_level {A B C} (f : A → B → C) (P : A → Prop) (Q : B → Prop)
    (S : C → Prop) n (l : list A) (k : list B) :
  (∀ x y, P x → Q y → S (f x y)) →
  length l = n ∧ Forall P l → length k = n ∧ Forall Q k →
  length (zip_with f l k) = n ∧ Forall S (zip_with f l k).
Proof.
  intros Hf [Hl HP] [Hk HQ]. split; [rewrite length_zip_with; lia|].
  clear Hl Hk. revert k HQ. induction HP as [|x l Hx _ IH]; intros k HQ; [constructor|].
  destruct HQ as [|y k Hy HQ]; simpl; [constructor|]. constructor; auto.
Qed.

Lemma fmap_level {A B} (f : A → B) (P : A → Prop) (Q : B → Prop) n (l : list A) :
  (∀ x, P x → Q (f x)) →
  length l = n ∧ Forall P l → length (f <$> l) = n ∧ Forall Q (f <$> l).
Proof.
  intros Hf [Hl HP]. split; [by rewrite length_fmap|].
  apply Forall_fmap. eapply Forall_impl; [exact HP|]. intros x. apply Hf.
Qed.

Section ShapeFacts.
Context {R : Type} `{Float R}.

Lemma length_Linear_forward (l : Linear) (x : T1 R) :
  length (Linear_forward l x) = length (bias_ l).
Proof. apply length_tab. Qed.

(** A function of the last axis whose result has a fixed length gives the
    last axis that length. *)
Lemma shaped4_map3 {A} (f : list A → T1 R) a b d c (t : list (list (list (list A)))) :
  (∀ v, length (f v) = c) → shaped3 a b d t → shaped4 a b d c (map3 f t).
Proof.
  intros Hf Ht. unfold map3, map2.
  apply (fmap_level _ (shaped2 b d) (shaped3 b d c)); [|exact Ht].
  intros tb. apply (fmap_level _ (shaped1 d) (shaped2 d c)).
  intros r. unfold shaped1. intros Hr.
  apply (fmap_level _ (λ _, True) (shaped1 c)); [intros; apply Hf|].
  split; [done|]. by apply Forall_true.
Qed.

Lemma shaped4_map4 (f : R → R) a b d c (t : T4 R) :
  shaped4 a b d c t → shaped4 a b d c (map4 f t).
Proof.
  unfold map4, map3, map2.
  apply (fmap_level _ (shaped3 b d c) (shaped3 b d c)). intros t3.
  apply (fmap_level _ (shaped2 d c) (shaped2 d c)). intros t2.
  apply (fmap_level _ (shaped1 c) (shaped1 c)). intros v.
  unfold shaped1. by rewrite length_fmap.
Qed.

Lemma shaped4_mul_mask a b d c (mask : T3 R) (x : T4 R) :
  shaped3 a b d mask → shaped4 a b d c x → shaped4 a b d c (mul_mask mask x).
Proof.
  unfold mul_mask.
  apply (zip_level _ (shaped2 b d) (shaped3 b d c) (shaped3 b d c)). intros m2 x3.
  apply (zip_level _ (shaped1 d) (shaped2 d c) (shaped2 d c)). intros m1 x2.
  unfold shaped1. intros Hm.
  apply (zip_level _ (λ _, True) (shaped1 c) (shaped1 c)).
  - intros m v _. unfold shaped1. by rewrite length_fmap.
  - split; [done|]. by apply Forall_true.
Qed.

Lemma shaped4_zip4 (f : R → R → R) a b d c1 c2 (x y : T4 R) :
  shaped4 a b d c1 x → shaped4 a b d c2 y →
  shaped4 a b d (min c1 c2) (zip4 f x y).
Proof.
  unfold zip4.
  apply (zip_level _ (shaped3 b d c1) (shaped3 b d c2) (shaped3 b d (min c1 c2))).
  intros x3 y3.
  apply (zip_level _ (shaped2 d c1) (shaped2 d c2) (shaped2 d (min c1 c2))).
  intros x2 y2.
  apply (zip_level _ (shaped1 c1) (shaped1 c2) (shaped1 (min c1 c2))).
  intros v w. unfold shaped1. intros <- <-. apply length_zip_with.
Qed.

(** The outer axes of a tensor of known shape. *)
Lemma shaped4_shaped3 {A} a b d c (t : list (list (list (list A)))) :
  shaped4 a b d c t → shaped3 a b d t.
Proof.
  intros [Ha Ht]. split; [done|]. eapply Forall_impl; [exact Ht|].
  intros t3 [Hb Ht3]. split; [done|]. eapply Forall_impl; [exact Ht3|].
  intros t2 [Hd _]. exact Hd.
Qed.

Lemma shaped3_shaped2 {A} a b d (t : list (list (list A))) :
  shaped3 a b d t → shaped2 a b t.
Proof.
  intros [Ha Ht]. split; [done|]. eapply Forall_impl; [exact Ht|].
  intros t2 [Hb _]. exact Hb.
Qed.

Lemma shaped2_rows {A} n m (t : list (list A)) :
  shaped2 n m t → (0 < n)%nat →
  width1 t = m ∧ Forall (λ r, length r = m) t.
Proof. intros Ht Hn. split; [by eapply shaped2_width1|]. apply Ht. Qed.

End ShapeFacts.

(** ** Chunked evaluation of the modules *)

Section ChunkedModules.
Context {R : Type} `{Float R}.

Lemma slice_ax1_fmap2 {B C} (g : B → C) s e (t : list (list B)) :
  (λ tb : list B, g <$> tb) <$> slice_ax1 s e t
  = slice_ax1 s e ((λ tb : list B, g <$> tb) <$> t).
Proof.
  unfold slice_ax1. rewrite <- !list_fmap_compose. apply list_fmap_ext.
  intros i tb _. simpl. by rewrite fmap_take, fmap_drop.
Qed.

Lemma transition_module_slice (self : Transition R) s e (x : T4 R) :
  transition_module self (slice_ax1 s e x)
  = slice_ax1 s e (transition_module self x).
Proof.
  unfold transition_module, map4, map3, map2. by rewrite !slice_ax1_fmap2.
Qed.

Lemma transition_module_shape (self : Transition R) a b (x : T4 R) :
  shaped2 a b x → shaped2 a b (transition_module self x).
Proof.
  unfold transition_module, map4, map3. intros Hx.
  repeat (apply (fmap_level _ (shaped1 b) (shaped1 b));
          [intros ?; unfold shaped1, map2; by rewrite length_fmap|]).
  exact Hx.
Qed.

Lemma Transition_chunked (self : Transition R) (gc : GlobalConfig)
    (act : T4 R) (mask : T3 R) B N :
  0 < subbatch_size gc → (0 < B)%nat → (0 < N)%nat → shaped2 B N act →
  Transition_forward self gc false act mask
  = Transition_forward self gc true act mask.
Proof.
  intros Hbs HB HN Hact. unfold Transition_forward. simpl.
  set (x := map3 (tr_input_layer_norm self) act).
  assert (Hx : shaped2 B N x).
  { unfold x, map3. apply (fmap_level _ (shaped1 N) (shaped1 N)); [|exact Hact].
    intros ?. unfold shaped1, map2. by rewrite length_fmap. }
  destruct (shaped2_rows _ _ _ Hx HB) as [Hw Hrows].
  apply subbatch_ax1_id.
  - lia.
  - lia.
  - rewrite Hw.
    exact (proj2 (shaped2_rows _ _ _ (transition_module_shape self _ _ _ Hx) HB)).
  - intros s _. apply transition_module_slice.
Qed.

(** *** Triangle multiplication *)

Lemma einsum_bikc_bjkc_slice s e (l r : T4 R) :
  einsum_bikc_bjkc (slice_ax1 s e l) r = slice_ax1 s e (einsum_bikc_bjkc l r).
Proof.
  unfold einsum_bikc_bjkc, slice_ax1. rewrite zip_with_fmap_l, fmap_zip_with.
  apply zip_with_ext; [|done..]. intros lb rb. by rewrite fmap_take, fmap_drop.
Qed.

Lemma einsum_bikc_bjkc_rows W (l r : T4 R) :
  Forall (λ lb, length lb = W) l →
  Forall (λ ob, length ob = W) (einsum_bikc_bjkc l r).
Proof.
  intros Hl. unfold einsum_bikc_bjkc.
  eapply Forall_zip_with_fst; [exact Hl|]. apply Forall_true.
  intros rb lb Hlb. by rewrite length_fmap.
Qed.

Lemma width1_slice_ax1 {A} n m k s (t : list (list A)) :
  shaped2 n m t → (0 < n)%nat → width1 (slice_ax1 s (s + k) t) = min k (m - s).
Proof.
  intros [Hn Ht] H0. destruct t as [|r t]; simpl in *; [lia|].
  inversion Ht as [|? ? Hr _]; subst. unfold shaped1 in Hr.
  replace (s + k - s)%nat with k by lia. by rewrite length_slice, Hr.
Qed.

Lemma einsum_bkjc_bkic_slice B K J C s k (l r : T4 R) :
  shaped4 B K J C l → (0 < K)%nat → (s < J)%nat → (0 < k)%nat →
  einsum_bkjc_bkic (slice_ax2 s (s + k) l) r
  = slice_ax2 s (s + k) (einsum_bkjc_bkic l r).
Proof.
  intros [_ Hl] HK Hs Hk. unfold einsum_bkjc_bkic, slice_ax2.
  rewrite zip_with_fmap_l, fmap_zip_with.
  apply Forall_zip_with_ext_l; [|done].
  eapply Forall_impl; [exact Hl|]. intros lb Hlb rb.
  unfold slice_ax1 at 4. rewrite fmap_tab. apply tab_ext. intros i _.
  rewrite take_drop_tab.
  rewrite (width1_slice_ax1 K J k s lb (shaped3_shaped2 _ _ _ _ Hlb) HK).
  rewrite (shaped2_width1 K J lb (shaped3_shaped2 _ _ _ _ Hlb) HK).
  replace (s + k - s)%nat with k by lia.
  apply tab_ext. intros j Hj.
  assert (width2 (slice_ax1 s (s + k) lb) = width2 lb) as ->.
  { destruct Hlb as [HKl Hlb]. destruct lb as [|lk lb]; simpl in *; [lia|].
    inversion Hlb as [|? ? [HJ Hlk] _]; subst.
    replace (s + k - s)%nat with k by lia.
    destruct (drop s lk) as [|v vs] eqn:Ed.
    { apply (f_equal length) in Ed. rewrite length_drop in Ed. simpl in Ed. lia. }
    destruct k; [lia|]. simpl.
    assert (v ∈ lk) as Hv.
    { eapply list_elem_of_lookup_2 with s. rewrite <- (Nat.add_0_r s).
      rewrite <- lookup_drop, Ed. done. }
    rewrite (proj1 (Forall_forall _ _) Hlk v Hv).
    destruct lk as [|v0 lk]; simpl in *; [lia|].
    inversion Hlk; subst. done. }
  apply tab_ext. intros c _. f_equal.
  unfold slice_ax1. rewrite zip_with_fmap_l.
  apply zip_with_ext; [|done..]. intros lk rk.
  by rewrite lookup_total_slice by lia.
Qed.

Lemma shaped3_width2 {A} a b c (t : list (list (list A))) :
  shaped3 a b c t → (0 < a)%nat → (0 < b)%nat → width2 t = c.
Proof.
  intros [Ha Ht] H0 Hb. destruct t as [|tb t]; simpl in *; [lia|].
  inversion Ht as [|? ? Htb _]; subst. by eapply shaped2_width1.
Qed.

Lemma einsum_bkjc_bkic_rows B N C (l r : T4 R) :
  shaped4 B N N C l → (0 < N)%nat →
  Forall (Forall (λ row, length row = N)) (einsum_bkjc_bkic l r).
Proof.
  intros [_ Hl] HN. unfold einsum_bkjc_bkic.
  eapply Forall_zip_with_fst; [exact Hl|]. apply Forall_true.
  intros rb lb Hlb. unfold tab. apply Forall_fmap, Forall_true. intros i. simpl.
  rewrite length_fmap, length_seq.
  by apply (shaped2_width1 N N lb (shaped3_shaped2 _ _ _ _ Hlb)).
Qed.

Lemma TriangleMultiplication_chunked (self : TriangleMultiplication R)
    (gc : GlobalConfig) (act : T4 R) (mask : T3 R) B N :
  0 < subbatch_size gc → (0 < B)%nat → (0 < N)%nat →
  shaped3 B N N act → shaped3 B N N mask →
  TriangleMultiplication_forward self gc false act mask
  = TriangleMultiplication_forward self gc true act mask.
Proof.
  intros Hbs HB HN Hact Hmask. unfold TriangleMultiplication_forward. cbn [negb].
  set (x := map3 (tm_layer_norm_input self) act).
  assert (Hx : shaped3 B N N x) by by apply shaped3_map3.
  set (left := zip4 fmul (mul_mask mask (map3 (Linear_forward (tm_left_projection self)) x))
                 (map4 fsigmoid (map3 (Linear_forward (tm_left_gate self)) x))).
  set (right := zip4 fmul (mul_mask mask (map3 (Linear_forward (tm_right_projection self)) x))
                  (map4 fsigmoid (map3 (Linear_forward (tm_right_gate self)) x))).
  assert (∃ C, shaped4 B N N C left) as [C Hleft].
  { eexists. apply shaped4_zip4.
    - apply shaped4_mul_mask; [exact Hmask|].
      apply shaped4_map3; [intros; apply length_Linear_forward|exact Hx].
    - apply shaped4_map4.
      apply shaped4_map3; [intros; apply length_Linear_forward|exact Hx]. }
  pose proof (shaped4_shaped3 _ _ _ _ _ Hleft) as Hleft3.
  pose proof (shaped3_shaped2 _ _ _ _ Hleft3) as Hleft2.
  destruct (shaped2_rows _ _ _ Hleft2 HB) as [Hw1 Hrows].
  destruct (decide (tm_equation self = "ikc,jkc->ijc")).
  - rewrite subbatch_ax1_id; [reflexivity|lia|lia| |].
    + rewrite Hw1. by apply einsum_bikc_bjkc_rows.
    + intros s _. apply einsum_bikc_bjkc_slice.
  - destruct (decide (tm_equation self = "kjc,kic->ijc")); [|reflexivity].
    pose proof (shaped3_width2 _ _ _ _ Hleft3 HB HN) as Hw2.
    rewrite subbatch_ax2_id; [reflexivity|lia|lia| |].
    + rewrite Hw2. eapply einsum_bkjc_bkic_rows; eauto.
    + intros s Hs. rewrite Hw2 in Hs.
      eapply einsum_bkjc_bkic_slice; eauto. lia.
Qed.

(** *** Attention *)

Lemma bget_slice {A} `{Inhabited A} W k s (r : list A) i :
  length r = W ∨ r = [] → (i < k)%nat → (s + i < W)%nat →
  bget (take k (drop s r)) i = bget r (s + i).
Proof.
  intros [Hr| ->] Hi Hsi.
  - unfold bget. rewrite length_slice, Hr.
    destruct (Nat.eqb_spec (min k (W - s)) 1) as [E1|E1],
             (Nat.eqb_spec W 1) as [E2|E2].
    + rewrite lookup_total_slice by lia. f_equal. lia.
    + assert (i = 0)%nat as -> by lia. by rewrite lookup_total_slice by lia.
    + rewrite lookup_total_slice by lia. f_equal. lia.
    + by rewrite lookup_total_slice by lia.
  - by rewrite drop_nil, take_nil.
Qed.

Lemma Attention_forward_slice (self : Attention R) W k s
    (q m : T4 R) (bias : T5 R) (nb : option (T4 R)) :
  Forall (λ r, length r = W) q → Forall (λ r, length r = W) bias →
  Attention_forward self (slice_ax1 s (s + k) q) (slice_ax1 s (s + k) m)
    (slice_ax1 s (s + k) bias) nb
  = slice_ax1 s (s + k) (Attention_forward self q m bias nb).
Proof.
  intros Hq Hbias. unfold Attention_forward, slice_ax1.
  replace (s + k - s)%nat with k by lia.
  rewrite imap_fmap, fmap_imap. apply imap_ext. intros n qn Hn. simpl.
  apply imap_take_drop. intros i x Hi Hx.
  pose proof (Forall_lookup_1 _ _ _ _ Hq Hn) as Hlen. simpl in Hlen.
  assert (s + i < W)%nat as Hsi by (apply lookup_lt_Some in Hx; lia).
  rewrite !lookup_total_fmap_slice, lookup_total_slice by done.
  f_equal. apply (bget_slice W); [|done..].
  rewrite list_lookup_total_alt.
  destruct (bias !! n) as [r|] eqn:Er; simpl; [|by right].
  left. exact (Forall_lookup_1 _ _ _ _ Hbias Er).
Qed.

Lemma Attention_forward_rows (self : Attention R) W
    (q m : T4 R) (bias : T5 R) (nb : option (T4 R)) :
  Forall (λ r, length r = W) q →
  Forall (λ r, length r = W) (Attention_forward self q m bias nb).
Proof.
  intros Hq. unfold Attention_forward. apply Forall_lookup_2. intros n o Ho.
  rewrite list_lookup_imap in Ho. destruct (q !! n) as [qn|] eqn:En; [|done].
  injection Ho as <-. rewrite length_imap.
  exact (Forall_lookup_1 _ _ _ _ Hq En).
Qed.

Lemma sb_attn_id (self : Attention R) (bs : nat) (q m : T4 R) (bias : T5 R)
    (nb : option (T4 R)) B W :
  (0 < bs)%nat → (0 < B)%nat → (0 < W)%nat →
  shaped2 B W q → Forall (λ r, length r = W) bias →
  sb_attn self bs q m bias nb = Ok (Attention_forward self q m bias nb).
Proof.
  intros Hbs HB HW Hq Hbias. destruct (shaped2_rows _ _ _ Hq HB) as [Hw Hrows].
  unfold sb_attn.
  apply (subbatch_ax1_id
           (λ s e '(q, m, b), (slice_ax1 s e q, slice_ax1 s e m, slice_ax1 s e b))
           (λ '(q, _, _), width1 q)
           (λ '(q, m, b), Attention_forward self q m b nb) bs (q, m, bias)).
  - done.
  - simpl. lia.
  - simpl. rewrite Hw. by apply Attention_forward_rows.
  - intros s _. by apply (Attention_forward_slice self W).
Qed.

(** *** Outer product mean *)

Lemma slice_ax1_add {A} s k (t : list (list A)) :
  slice_ax1 s (s + k) t = (λ r : list A, take k (drop s r)) <$> t.
Proof. unfold slice_ax1. by replace (s + k - s)%nat with k by lia. Qed.

Lemma width1_slice {A} n m k s (t : list (list A)) :
  shaped2 n m t → (0 < n)%nat →
  width1 ((λ r : list A, take k (drop s r)) <$> t) = min k (m - s).
Proof. intros Ht Hn. rewrite <- slice_ax1_add. by eapply width1_slice_ax1. Qed.

Lemma width1_take_drop {A} n m k s (t : list (list A)) :
  shaped2 n m t → (s < n)%nat → (0 < k)%nat → width1 (take k (drop s t)) = m.
Proof.
  intros Ht Hs Hk. destruct (drop s t) as [|r rs] eqn:Ed.
  - apply (f_equal length) in Ed. rewrite length_drop in Ed.
    destruct Ht as [Hn _]. simpl in Ed. lia.
  - destruct k; [lia|]. simpl.
    assert (t !! s = Some r) as Hr.
    { rewrite <- (Nat.add_0_r s), <- lookup_drop, Ed. done. }
    eapply shaped2_lookup; eauto.
Qed.

Lemma transpose_slice_rows {A} `{Inhabited A} Bn C s k (m : list (list A)) :
  shaped2 Bn C m → (s < Bn)%nat → (0 < k)%nat →
  transpose (take k (drop s m))
  = (λ col : list A, take k (drop s col)) <$> transpose m.
Proof.
  intros Hm Hs Hk. unfold transpose.
  rewrite (width1_take_drop Bn C k s m Hm Hs Hk).
  rewrite (shaped2_width1 Bn C m Hm) by lia.
  rewrite fmap_tab. apply tab_ext. intros c _. by rewrite fmap_take, fmap_drop.
Qed.

Lemma transpose_slice_cols {A} `{Inhabited A} D Bn s k (m : list (list A)) :
  shaped2 D Bn m → (0 < D)%nat →
  transpose ((λ row : list A, take k (drop s row)) <$> m)
  = take k (drop s (transpose m)).
Proof.
  intros Hm HD. unfold transpose.
  rewrite (width1_slice D Bn k s m Hm HD), (shaped2_width1 D Bn m Hm HD).
  rewrite take_drop_tab. apply tab_ext. intros j Hj.
  rewrite <- list_fmap_compose. apply list_fmap_ext. intros i row _. simpl.
  apply lookup_total_slice. lia.
Qed.

Lemma shaped2_transpose {A} `{Inhabited A} n m (t : list (list A)) :
  shaped2 n m t → (0 < n)%nat → shaped2 m n (transpose t).
Proof.
  intros Ht Hn. unfold transpose. rewrite (shaped2_width1 n m t Ht Hn).
  split; [apply length_tab|]. unfold tab. apply Forall_fmap, Forall_true.
  intros j. unfold shaped1. simpl. rewrite length_fmap. apply Ht.
Qed.

Lemma width1_fmap {A B} (g : list A → list B) (t : list (list A)) :
  (∀ x, length (g x) = length x) → width1 (g <$> t) = width1 t.
Proof. intros Hg. destruct t; simpl; [done|apply Hg]. Qed.

Lemma width2_slice {A} a b c k s (t : list (list (list A))) :
  shaped3 a b c t → (0 < a)%nat → (0 < b)%nat →
  width2 ((λ r : list (list A), (λ row : list A, take k (drop s row)) <$> r) <$> t)
  = min k (c - s).
Proof.
  intros [Ha Ht] H0 Hb. destruct t as [|tb t]; simpl in *; [lia|].
  inversion Ht as [|? ? Htb _]; subst. by apply (width1_slice b c).
Qed.

Lemma tab_level {A} (P : A → Prop) n (f : nat → A) :
  (∀ i, P (f i)) → length (tab n f) = n ∧ Forall P (tab n f).
Proof.
  intros Hf. split; [apply length_tab|]. unfold tab. by apply Forall_fmap, Forall_true.
Qed.

Lemma map2_map2 {A B C} (f : B → C) (g : A → B) (t : list (list A)) :
  map2 f (map2 g t) = map2 (λ x, f (g x)) t.
Proof.
  unfold map2. rewrite <- list_fmap_compose. apply list_fmap_ext. intros i r _.
  simpl. by rewrite <- list_fmap_compose.
Qed.

Lemma map2_ext {A B} (f g : A → B) (t : list (list A)) :
  Forall (Forall (λ x, f x = g x)) t → map2 f t = map2 g t.
Proof.
  intros Ht. unfold map2. apply Forall_fmap_ext_1.
  eapply Forall_impl; [exact Ht|]. intros r Hr. by apply Forall_fmap_ext_1.
Qed.

(** Slicing the residue axis goes through the four steps of
    [compute_chunk]. *)
Lemma transpose_0132_slice Nn A Bn C s k (l : T4 R) :
  shaped4 Nn A Bn C l → (s < Bn)%nat → (0 < k)%nat →
  map2 (λ m : T2 R, transpose m) (slice_ax2 s (s + k) l)
  = map3 (λ row : T1 R, take k (drop s row)) (map2 (λ m : T2 R, transpose m) l).
Proof.
  intros [_ Hl] Hs Hk. unfold slice_ax2, map3, map2.
  rewrite <- !list_fmap_compose. apply list_fmap_ext. intros n ln Hn. simpl.
  pose proof (Forall_lookup_1 _ _ _ _ Hl Hn) as [_ Hln].
  rewrite slice_ax1_add, <- !list_fmap_compose. apply list_fmap_ext.
  intros a la Ha. simpl.
  apply (transpose_slice_rows Bn C); [|done..].
  exact (Forall_lookup_1 _ _ _ _ Hln Ha).
Qed.

Lemma einsum_nacb_nade_ndceb_slice Nn A C Bn s k (L' R' : T4 R) :
  shaped4 Nn A C Bn L' → (0 < A)%nat → (0 < C)%nat →
  einsum_nacb_nade_ndceb (map3 (λ row : T1 R, take k (drop s row)) L') R'
  = map4 (λ row : T1 R, take k (drop s row)) (einsum_nacb_nade_ndceb L' R').
Proof.
  intros [_ HL] HA HC. unfold einsum_nacb_nade_ndceb, map4.
  unfold map3 at 1. rewrite zip_with_fmap_l, fmap_zip_with.
  apply Forall_zip_with_ext_l; [|done].
  eapply Forall_impl; [exact HL|]. intros ln Hln rn.
  unfold map3, map2.
  rewrite (width1_fmap _ ln) by (intros; apply length_fmap).
  rewrite (width2_slice A C Bn k s ln Hln HA HC).
  rewrite (shaped3_width2 A C Bn ln Hln HA HC).
  rewrite fmap_tab. apply tab_ext. intros d _.
  rewrite fmap_tab. apply tab_ext. intros c _.
  rewrite fmap_tab. apply tab_ext. intros e _.
  rewrite take_drop_tab. apply tab_ext. intros b Hb.
  f_equal. rewrite zip_with_fmap_l. apply zip_with_ext; [|done..].
  intros la ra. by rewrite lookup_total_fmap_slice, lookup_total_slice by lia.
Qed.

Lemma einsum_ndceb_cef_ndbf_slice C E Bn s k (act : T5 R) (w : T3 R) (bias : T1 R) :
  Forall (Forall (shaped3 C E Bn)) act → (0 < C)%nat → (0 < E)%nat →
  einsum_ndceb_cef_ndbf (map4 (λ row : T1 R, take k (drop s row)) act) w bias
  = map2 (λ rows : T2 R, take k (drop s rows)) (einsum_ndceb_cef_ndbf act w bias).
Proof.
  intros Hact HC HE. unfold einsum_ndceb_cef_ndbf.
  change (map4 (λ row : T1 R, take k (drop s row)) act)
    with (map2 (map2 (λ row : T1 R, take k (drop s row))) act).
  rewrite !map2_map2. apply map2_ext.
  eapply Forall_impl; [exact Hact|]. intros an Han.
  eapply Forall_impl; [exact Han|]. intros m Hm. simpl.
  unfold map2 at 1.
  rewrite (width2_slice C E Bn k s m Hm HC HE), (shaped3_width2 C E Bn m Hm HC HE).
  rewrite take_drop_tab. apply tab_ext. intros b Hb.
  apply tab_ext. intros f _. f_equal. f_equal.
  unfold map2. rewrite imap_fmap. apply imap_ext. intros c mc _. simpl. f_equal.
  rewrite imap_fmap. apply imap_ext. intros e mce _. simpl.
  by rewrite lookup_total_slice by lia.
Qed.

Lemma transpose_021_slice D Bn s k (X : T4 R) :
  Forall (shaped2 D Bn) X → (0 < D)%nat →
  transpose_021 (map2 (λ rows : T2 R, take k (drop s rows)) X)
  = slice_ax1 s (s + k) (transpose_021 X).
Proof.
  intros HX HD. unfold transpose_021, map2.
  rewrite slice_ax1_add, <- !list_fmap_compose. apply Forall_fmap_ext_1.
  eapply Forall_impl; [exact HX|]. intros xn Hxn. simpl.
  by apply (transpose_slice_cols D Bn).
Qed.

Lemma shaped4_transpose_0132 Nn A Bn C (l : T4 R) :
  shaped4 Nn A Bn C l → (0 < Bn)%nat →
  shaped4 Nn A C Bn (map2 (λ m : T2 R, transpose m) l).
Proof.
  intros Hl HB. unfold map2.
  apply (fmap_level _ (shaped3 A Bn C) (shaped3 A C Bn)); [|exact Hl]. intros t3.
  apply (fmap_level _ (shaped2 Bn C) (shaped2 C Bn)). intros m Hm.
  by apply shaped2_transpose.
Qed.

Lemma einsum_nacb_nade_ndceb_shape Nn A C Bn D E (L' R' : T4 R) :
  shaped4 Nn A C Bn L' → shaped4 Nn A D E R' →
  (0 < A)%nat → (0 < C)%nat → (0 < D)%nat →
  Forall (shaped4 D C E Bn) (einsum_nacb_nade_ndceb L' R').
Proof.
  intros HL HR HA HC HD. unfold einsum_nacb_nade_ndceb.
  refine (proj2 (zip_level _ (shaped3 A C Bn) (shaped3 A D E) (shaped4 D C E Bn)
                   Nn L' R' _ HL HR)).
  intros ln rn Hln Hrn.
  rewrite (shaped2_width1 A D rn (shaped3_shaped2 _ _ _ _ Hrn) HA).
  rewrite (shaped2_width1 A C ln (shaped3_shaped2 _ _ _ _ Hln) HA).
  rewrite (shaped3_width2 A D E rn Hrn HA HD).
  rewrite (shaped3_width2 A C Bn ln Hln HA HC).
  apply (tab_level (shaped3 C E Bn)). intros d.
  apply (tab_level (shaped2 E Bn)). intros c.
  apply (tab_level (shaped1 Bn)). intros e.
  apply length_tab.
Qed.

Lemma einsum_ndceb_cef_ndbf_shape D C E Bn (act : T5 R) (w : T3 R) (bias : T1 R) :
  Forall (shaped4 D C E Bn) act → (0 < C)%nat → (0 < E)%nat →
  Forall (shaped2 D Bn) (einsum_ndceb_cef_ndbf act w bias).
Proof.
  intros Hact HC HE. unfold einsum_ndceb_cef_ndbf, map2. apply Forall_fmap.
  eapply Forall_impl; [exact Hact|]. intros on Hon. simpl.
  apply (fmap_level _ (shaped3 C E Bn) (shaped1 Bn)); [|exact Hon].
  intros m Hm. unfold shaped1. rewrite length_tab. by apply (shaped3_width2 C E Bn).
Qed.

Section ComputeChunk.
Variables (self : OuterProductMean R) (Nn A Bn C E : nat).
Variables (left_act right_act : T4 R).
Hypothesis Hleft : shaped4 Nn A Bn C left_act.
Hypothesis Hright : shaped4 Nn A Bn E right_act.
Hypothesis HA : (0 < A)%nat.
Hypothesis HB : (0 < Bn)%nat.
Hypothesis HC : (0 < C)%nat.
Hypothesis HE : (0 < E)%nat.

Lemma compute_chunk_rows :
  Forall (λ r, length r = Bn) (compute_chunk self right_act left_act).
Proof.
  unfold compute_chunk, transpose_021. apply Forall_fmap.
  eapply Forall_impl.
  { apply (einsum_ndceb_cef_ndbf_shape Bn C E Bn); [|done..].
    apply (einsum_nacb_nade_ndceb_shape Nn A C Bn Bn E); [|done..].
    by apply shaped4_transpose_0132. }
  intros xn Hxn. simpl. unfold transpose. rewrite length_tab.
  by apply (shaped2_width1 Bn Bn).
Qed.

Lemma compute_chunk_slice s k :
  (s < Bn)%nat → (0 < k)%nat →
  compute_chunk self right_act (slice_ax2 s (s + k) left_act)
  = slice_ax1 s (s + k) (compute_chunk self right_act left_act).
Proof.
  intros Hs Hk. unfold compute_chunk.
  pose proof (shaped4_transpose_0132 _ _ _ _ _ Hleft HB) as HL.
  pose proof (einsum_nacb_nade_ndceb_shape Nn A C Bn Bn E _ _ HL Hright HA HC HB) as H1.
  rewrite (transpose_0132_slice Nn A Bn C s k left_act Hleft Hs Hk).
  rewrite (einsum_nacb_nade_ndceb_slice Nn A C Bn s k _ right_act HL HA HC).
  rewrite (einsum_ndceb_cef_ndbf_slice C E Bn s k).
  - apply (transpose_021_slice Bn Bn); [|done].
    by apply (einsum_ndceb_cef_ndbf_shape Bn C E Bn).
  - eapply Forall_impl; [exact H1|]. intros on Hon. apply Hon.
  - done.
  - done.
Qed.

End ComputeChunk.

Lemma OuterProductMean_chunked (self : OuterProductMean R)
    (act : T4 R) (mask : T3 R) B S N :
  0 < opm_chunk_size self → (0 < B)%nat → (0 < S)%nat → (0 < N)%nat →
  shaped3 B S N act → shaped3 B S N mask →
  (0 < length (bias_ (opm_left_projection self)))%nat →
  (0 < length (bias_ (opm_right_projection self)))%nat →
  OuterProductMean_forward self false act mask
  = OuterProductMean_forward self true act mask.
Proof.
  intros Hbs HB HS HN Hact Hmask HCl HCr. unfold OuterProductMean_forward. cbn [negb].
  set (x := map3 (opm_layer_norm_input self) act).
  assert (Hx : shaped3 B S N x) by by apply shaped3_map3.
  set (left := mul_mask mask (map3 (Linear_forward (opm_left_projection self)) x)).
  set (right := mul_mask mask (map3 (Linear_forward (opm_right_projection self)) x)).
  assert (Hleft : shaped4 B S N (length (bias_ (opm_left_projection self))) left).
  { apply shaped4_mul_mask; [exact Hmask|].
    apply shaped4_map3; [intros; apply length_Linear_forward|exact Hx]. }
  assert (Hright : shaped4 B S N (length (bias_ (opm_right_projection self))) right).
  { apply shaped4_mul_mask; [exact Hmask|].
    apply shaped4_map3; [intros; apply length_Linear_forward|exact Hx]. }
  pose proof (shaped3_width2 _ _ _ _ (shaped4_shaped3 _ _ _ _ _ Hleft) HB HS) as Hw2.
  rewrite subbatch_ax1_id; [reflexivity|lia|lia| |].
  - rewrite Hw2. eapply compute_chunk_rows; eauto.
  - intros s Hs. rewrite Hw2 in Hs.
    eapply compute_chunk_slice; eauto. lia.
Qed.

End ChunkedModules.

(** ** Chunked and unchunked evaluation *)

Section ChunkedClaim.
Context {R : Type} `{Float R}.

(** C3: for a positive chunk size, whether or not it divides the length of
    the sliced axis, and well-formed inputs without an empty axis, the
    chunked evaluation is the unchunked one: the attention called through
    [subbatch] returns what [Attention.forward] returns, and [Transition],
    [OuterProductMean] and [TriangleMultiplication] return in inference mode
    (chunked) what they return in training mode (unchunked). *)
Theorem chunked_equals_unchunked :
  (∀ (self : Attention R) (bs : nat) (q m : T4 R) (bias : T5 R)
     (nb : option (T4 R)) (B W : nat),
     (0 < bs)%nat → (0 < B)%nat → (0 < W)%nat →
     shaped2 B W q → Forall (λ r, length r = W) bias →
     sb_attn self bs q m bias nb = Ok (Attention_forward self q m bias nb)) ∧
  (∀ (self : Transition R) (gc : GlobalConfig) (act : T4 R) (mask : T3 R)
     (B N : nat),
     0 < subbatch_size gc → (0 < B)%nat → (0 < N)%nat → shaped2 B N act →
     Transition_forward self gc false act mask
     = Transition_forward self gc true act mask) ∧
  (∀ (self : OuterProductMean R) (act : T4 R) (mask : T3 R) (B S N : nat),
     0 < opm_chunk_size self → (0 < B)%nat → (0 < S)%nat → (0 < N)%nat →
     shaped3 B S N act → shaped3 B S N mask →
     (0 < length (bias_ (opm_left_projection self)))%nat →
     (0 < length (bias_ (opm_right_projection self)))%nat →
     OuterProductMean_forward self false act mask
     = OuterProductMean_forward self true act mask) ∧
  (∀ (self : TriangleMultiplication R) (gc : GlobalConfig) (act : T4 R)
     (mask : T3 R) (B N : nat),
     0 < subbatch_size gc → (0 < B)%nat → (0 < N)%nat →
     shaped3 B N N act → shaped3 B N N mask →
     TriangleMultiplication_forward self gc false act mask
     = TriangleMultiplication_forward self gc true act mask).
Proof.
  split; [|split; [|split]].
  - exact sb_attn_id.
  - exact Transition_chunked.
  - exact OuterProductMean_chunked.
  - exact TriangleMultiplication_chunked.
Qed.

End ChunkedClaim.

Section ChunkedWitness.
Import Demo Fixtures.

Lemma chunked_equals_unchunked_witness :
  Transition_forward transition global_config2 false pair_act3 pair_mask3
    = Ok (transition_module transition pair_act3) ∧
  TriangleMultiplication_forward triangle_multiplication global_config2 false
      pair_act3 pair_mask3
    = TriangleMultiplication_forward triangle_multiplication global_config2 true
        pair_act3 pair_mask3.
Proof.
  assert (shaped3 1 3 3 pair_act3) as Ha by (repeat split; repeat constructor).
  assert (shaped3 1 3 3 pair_mask3) as Hm by (repeat split; repeat constructor).
  assert (shaped2 1 3 pair_act3) as Ha2 by (repeat split; repeat constructor).
  destruct (chunked_equals_unchunked (R := Z)) as (_ & Htr & _ & Htm).
  split.
  - exact (Htr transition global_config2 pair_act3 pair_mask3 1%nat 3%nat
             eq_refl (Nat.lt_0_succ 0) (Nat.lt_0_succ 2) Ha2).
  - exact (Htm triangle_multiplication global_config2 pair_act3 pair_mask3
             1%nat 3%nat eq_refl (Nat.lt_0_succ 0) (Nat.lt_0_succ 2) Ha Hm).
Defined.

End ChunkedWitness.

(** ** More on the iteration and its heads *)

Section HeadsFacts.
Context {R : Type} `{Float R}.
Implicit Types (self : AlphaFoldIteration R).

Lemma list_remove_filter (x : string) (l : list string) :
  NoDup l → list_remove x l = filter (λ y, y ≠ x) l.
Proof.
  induction l as [|y l IH]; simpl; intros Hnd; [done|].
  apply NoDup_cons in Hnd as [Hy Hnd]. case_decide as E.
  - subst y. rewrite filter_cons_False by naive_solver.
    clear IH Hnd. induction l as [|z l IH]; [done|].
    rewrite filter_cons_True by (intros ->; apply Hy; left).
    f_equal. apply IH. intros Hin. apply Hy. by right.
  - rewrite filter_cons_True by done. f_equal. by apply IH.
Qed.

Lemma list_remove_perm (x : string) (l : list string) :
  x ∈ l → x :: list_remove x l ≡ₚ l.
Proof.
  induction l as [|y l IH]; simpl; intros Hin; [by apply elem_of_nil in Hin|].
  case_decide as E; [by subst|].
  apply elem_of_cons in Hin as [->|Hin]; [done|].
  rewrite Permutation_swap. f_equiv. by apply IH.
Qed.

Lemma used_heads_spec self (n : string) :
  n ∈ used_heads self ↔
  n ∈ Head_modules ∧ ∃ hc, (n, hc) ∈ heads_items self ∧ weight hc ≠ 0.
Proof.
  unfold used_heads. rewrite list_elem_of_fmap. split.
  - intros ([n' hc] & -> & Hin). apply list_elem_of_filter in Hin as [[Hw Hm] Hin].
    simpl in *. eauto.
  - intros (Hm & hc & Hin & Hw). exists (n, hc). split; [done|].
    apply list_elem_of_filter. done.
Qed.

Lemma used_heads_NoDup self :
  NoDup (heads_items self).*1 → NoDup (used_heads self).
Proof.
  intros Hnd. unfold used_heads. eapply sublist_NoDup; [exact Hnd|apply fmap_sublist, sublist_filter].
Qed.

Lemma _get_heads_Ok self names :
  _get_heads self = Ok names →
  "structure_module" ∈ used_heads self ∧
  names = "structure_module" :: list_remove "structure_module" (used_heads self).
Proof.
  unfold _get_heads. intros Hg. apply bind_Ok in Hg as (u & Ha & [= <-]).
  apply assert_Ok, bool_decide_eq_true in Ha. done.
Qed.

(** X1: [_get_heads] of an iteration whose head names are distinct yields
    'structure_module' first and then the other used heads in the order of
    the sorted configuration; it yields every used head once and nothing
    else, and a used head is a head of [Head_modules] whose configured weight
    is not zero. *)
Theorem get_heads_order self (names : list string) :
  NoDup (heads_items self).*1 →
  _get_heads self = Ok names →
  head names = Some "structure_module" ∧
  tail names = filter (λ n, n ≠ "structure_module") (used_heads self) ∧
  names ≡ₚ used_heads self ∧
  NoDup names ∧
  ∀ n : string, n ∈ names →
    n ∈ Head_modules ∧ ∃ hc, (n, hc) ∈ heads_items self ∧ weight hc ≠ 0.
Proof.
  intros Hnd Hg. apply _get_heads_Ok in Hg as [Hsm ->].
  pose proof (used_heads_NoDup self Hnd) as Hnd'.
  pose proof (list_remove_perm _ _ Hsm) as Hperm.
  split; [done|]. split; [by apply list_remove_filter|].
  split; [done|]. split; [by rewrite Hperm|].
  intros n Hn. rewrite Hperm in Hn. by apply used_heads_spec.
Qed.

End HeadsFacts.

Ltac in_list :=
  repeat first [apply list_elem_of_here | apply list_elem_of_further].

Section IterationMoreFacts.
Context {R : Type} `{Float R}.
Implicit Types (self : AlphaFoldIteration R).
Implicit Types (eb neb : gmap string (Tensor R)).

Lemma run_heads_dom self batch0 (names : list string) :
  ∀ (reps : gmap string (Tensor R)) (ret : gmap string (gmap string (Tensor R)))
    reps' ret',
  foldlM (run_head self batch0) (reps, ret) names = Ok (reps', ret') →
  dom ret' = dom ret ∪ list_to_set names.
Proof.
  induction names as [|name names IH]; simpl; intros reps ret reps' ret' Hl.
  - injection Hl as <- <-. by rewrite ?list_to_set_nil, union_empty_r_L.
  - apply bind_Ok in Hl as ([reps1 ret1] & Hh & Hl).
    rewrite (IH _ _ _ _ Hl), ?list_to_set_cons. unfold run_head in Hh.
    apply bind_Ok in Hh as (out & Hout & Hh).
    destruct (head_representations out); injection Hh as <- <-;
      by rewrite dom_insert_L, (comm_L (∪) {[name]}), (assoc_L (∪)).
Qed.

(** The steps of a run of the iteration that returns. *)
Lemma AlphaFoldIteration_forward_Ok self eb neb ens ret :
  AlphaFoldIteration_forward self eb neb ens = Ok ret →
  ∃ batch0 o reps1 names reps ret',
    _slice_batch eb neb 0 = Ok batch0 ∧ evoformer self batch0 = Ok o ∧
    (ens = false → reps1 = <["msa" := out_msa o]> (delete "msa" (output_dict o))) ∧
    _get_heads self = Ok names ∧
    foldlM (run_head self batch0) (reps1, ∅) names = Ok (reps, ret') ∧
    ret = <["representations" := reps]> ret'.
Proof.
  intros Hf. unfold AlphaFoldIteration_forward in Hf.
  apply bind_Ok in Hf as (sl & Hsl & Hf).
  apply bind_Ok in Hf as (n & Hn & Hf).
  apply bind_Ok in Hf as (_ & _ & Hf).
  apply bind_Ok in Hf as (batch0 & Hb0 & Hf).
  apply bind_Ok in Hf as (r0 & Hr0 & Hf).
  apply fmap_Ok in Hr0 as (o0 & Ho0 & ->).
  destruct (output_dict_lookup o0) as (_ & _ & Hmsa & _).
  apply bind_Ok in Hf as (msa & Hm & Hf).
  apply getitem_Ok in Hm. rewrite Hmsa in Hm. injection Hm as <-.
  apply bind_Ok in Hf as (r2 & Hloop & Hf).
  apply bind_Ok in Hf as (names & Hnames & Hf).
  apply bind_Ok in Hf as ([reps ret'] & Hh & [= <-]).
  exists batch0, o0, (<["msa" := out_msa o0]> r2), names, reps, ret'.
  repeat split; try done.
  intros ->. by injection Hloop as <-.
Qed.

(** X2: the dict that a run of the iteration returns has exactly the keys
    'representations' and the names of the used heads. *)
Theorem forward_result_keys self eb neb (ens : bool)
    (ret : gmap string (gmap string (Tensor R))) :
  AlphaFoldIteration_forward self eb neb ens = Ok ret →
  dom ret = {["representations"]} ∪ list_to_set (used_heads self).
Proof.
  intros Hf. apply AlphaFoldIteration_forward_Ok in Hf
    as (batch0 & o & reps1 & names & reps & ret' & _ & _ & _ & Hg & Hh & ->).
  apply _get_heads_Ok in Hg as [Hsm ->].
  apply run_heads_dom in Hh. rewrite dom_insert_L, Hh, dom_empty_L.
  by rewrite (list_to_set_perm_L _ _ (list_remove_perm _ _ Hsm)), union_empty_l_L.
Qed.

(** X3: an iteration whose 'structure_module' head is not used (absent,
    or of weight zero) never returns: every call of its forward raises. *)
Theorem forward_without_structure_module self eb neb (ens : bool) :
  "structure_module" ∉ used_heads self →
  ∃ e, AlphaFoldIteration_forward self eb neb ens = Raise e.
Proof.
  intros Hsm. destruct (AlphaFoldIteration_forward self eb neb ens) as [ret|e] eqn:Hf;
    [|by eauto].
  apply AlphaFoldIteration_forward_Ok in Hf
    as (batch0 & o & reps1 & names & reps & ret' & _ & _ & _ & Hg & _).
  apply _get_heads_Ok in Hg as [Hin _]. contradiction.
Qed.

(** X4: without ensembling, for head modules that leave the four
    orchestrator representations alone, the returned 'pair', 'single',
    'msa_first_row' and 'msa' representations are the orchestrator's outputs
    on [_slice_batch(0)] themselves: nothing is added to them and they are
    not divided. *)
Theorem forward_single_member self eb neb
    (ret : gmap string (gmap string (Tensor R))) :
  (∀ k, k ∈ ["pair"; "single"; "msa_first_row"; "msa"] → heads_preserve self k) →
  AlphaFoldIteration_forward self eb neb false = Ok ret →
  ∃ batch0 o reps,
    _slice_batch eb neb 0 = Ok batch0 ∧ evoformer self batch0 = Ok o ∧
    ret !! "representations" = Some reps ∧
    reps !! "pair" = Some (out_pair o) ∧
    reps !! "single" = Some (out_single o) ∧
    reps !! "msa_first_row" = Some (out_msa_first_row o) ∧
    reps !! "msa" = Some (out_msa o).
Proof.
  intros Hheads Hf. apply AlphaFoldIteration_forward_Ok in Hf
    as (batch0 & o & reps1 & names & reps & ret' & Hb & Ho & Hr1 & _ & Hh & ->).
  specialize (Hr1 eq_refl). subst reps1.
  exists batch0, o, reps. do 2 (split; [done|]).
  split; [apply lookup_insert_eq|].
  destruct (output_dict_lookup o) as (Hsingle & Hpair & Hmsa & Hmfr).
  repeat split.
  - rewrite (run_heads_preserve _ _ "pair" _ _ _ _ _ (Hheads "pair" ltac:(in_list)) Hh).
    by rewrite lookup_insert_ne, lookup_delete_ne.
  - rewrite (run_heads_preserve _ _ "single" _ _ _ _ _ (Hheads "single" ltac:(in_list)) Hh).
    by rewrite lookup_insert_ne, lookup_delete_ne.
  - rewrite (run_heads_preserve _ _ "msa_first_row" _ _ _ _ _
               (Hheads "msa_first_row" ltac:(in_list)) Hh).
    by rewrite lookup_insert_ne, lookup_delete_ne.
  - rewrite (run_heads_preserve _ _ "msa" _ _ _ _ _ (Hheads "msa" ltac:(in_list)) Hh).
    by rewrite lookup_insert_eq.
Qed.

(** X5: [_slice_batch(i)] needs member [i] of every ensembled feature, also
    of one that the recycling state overrides; in its result a key of the
    non-ensembled batch has the non-ensembled value, any other key of the
    ensembled batch has member [i] of its feature, and there is no other
    key. *)
Theorem slice_batch_lookup eb neb (i : nat) (b : gmap string (Tensor R)) :
  _slice_batch eb neb i = Ok b →
  (∀ k v, eb !! k = Some v → ∃ v', tensor_index1 i v = Ok v') ∧
  (∀ k t, neb !! k = Some t → b !! k = Some t) ∧
  (∀ k v, neb !! k = None → eb !! k = Some v →
     ∃ v', tensor_index1 i v = Ok v' ∧ b !! k = Some v') ∧
  (∀ k, neb !! k = None → eb !! k = None → b !! k = None).
Proof.
  unfold _slice_batch. intros Hs. apply bind_Ok in Hs as (b0 & Hb0 & [= <-]).
  pose proof (dict_imapM_lookup _ _ _ Hb0) as Hl.
  repeat split.
  - intros k v Hk. specialize (Hl k). rewrite Hk in Hl.
    destruct Hl as (v' & Hv' & _). eauto.
  - intros k t Hk. by rewrite lookup_union_l'.
  - intros k v Hn Hk. specialize (Hl k). rewrite Hk in Hl.
    destruct Hl as (v' & Hv' & Hb). exists v'. split; [done|].
    by rewrite lookup_union_r.
  - intros k Hn Hk. specialize (Hl k). rewrite Hk in Hl.
    by rewrite lookup_union_r.
Qed.

End IterationMoreFacts.

Section DriverMoreFacts.
Context {R : Type} `{Float R}.
Implicit Types (self : AlphaFold R) (batch prev : gmap string (Tensor R)).
Implicit Types (log : list (Invocation R)).

(** X6: [return_representations] changes nothing but the presence of the
    'representations' entry: the run without it makes the same invocations
    and raises the same exception as the run with it, and returns the same
    dict with that entry deleted; the entry is always there to delete. *)
Theorem forward_return_representations self batch (ens : bool) :
  AlphaFold_forward self batch ens false []
    = (let '(r, log) := AlphaFold_forward self batch ens true [] in
       (delete "representations" <$> r, log)) ∧
  ∀ (ret : gmap string (gmap string (Tensor R))) log,
    AlphaFold_forward self batch ens true [] = (Ok ret, log) →
    is_Some (ret !! "representations").
Proof.
  split.
  - unfold AlphaFold_forward, mbind, traced_bind, lift.
    destruct (getitem batch "aatype") as [aatype|]; [|done].
    destruct (match nd_shape (data aatype) with
              | [_; e; n] => Ok (e, n) | _ => Raise (ValueError "unpack")
              end) as [[e n]|]; [|done].
    match goal with |- context [match ?m [] with _ => _ end] =>
      destruct (m []) as [[[prev num_iter]|] log1] end; [|done].
    destruct (_run_single_recycling self batch e ens prev num_iter log1)
      as [[ret|] log2]; reflexivity.
  - intros ret log Hf.
    apply AlphaFold_forward_Ok in Hf
      as (aatype & b & e & n & prev0 & num_iter & invs & prev & eb & out &
          _ & _ & _ & _ & _ & Hout & ->).
    apply AlphaFoldIteration_forward_Ok in Hout
      as (batch0 & o & reps1 & names & reps & ret' & _ & _ & _ & _ & _ & ->).
    rewrite lookup_insert_eq. eauto.
Qed.

(** X7: every invocation of the iteration after the first receives a
    recycling state with exactly the keys 'prev_pos', 'prev_msa_first_row'
    and 'prev_pair', each a tensor with [stop_gradient] set. *)
Theorem recycled_state_stop_gradient self batch (ens rr : bool)
    (ret : gmap string (gmap string (Tensor R))) log (k : nat)
    (inv : Invocation R) :
  AlphaFold_forward self batch ens rr [] = (Ok ret, log) →
  log !! S k = Some inv →
  dom (inv_non_ensembled_batch inv)
    = {["prev_pos"; "prev_msa_first_row"; "prev_pair"]} ∧
  ∀ (key : string) (t : Tensor R),
    inv_non_ensembled_batch inv !! key = Some t → stop_gradient t = true.
Proof.
  intros Hf Hk.
  apply AlphaFold_forward_Ok in Hf
    as (aatype & b & e & n & prev0 & num_iter & invs & prev & eb & out &
        _ & _ & _ & Hrec & -> & _ & _).
  destruct (lookup_lt_is_Some_2 (invs ++ [mkInvocation eb prev ens]) k) as [inv0 Hk0].
  { apply lookup_lt_Some in Hk. lia. }
  destruct (recycled_consecutive _ _ _ _ (mkInvocation eb prev ens) Hrec eq_refl
              _ _ _ Hk0 Hk) as (out0 & _ & Hprev).
  split.
  - apply _get_prev_spec in Hprev as (sm & pos & reps & mfr & pair & _ & _ & _ & _ & _ & ->).
    rewrite !dom_insert_L, dom_singleton_L. by rewrite (assoc_L (∪)).
  - intros key t Hkt. exact (_get_prev_stop_gradient out0 _ key t Hprev Hkt).
Qed.

Lemma nd_slice1_empty (s : Z) (a a' : ndarray R) (n : nat) :
  nd_slice1 s s a = Ok a' → shape_at a' 1 = Ok n → n = 0%nat.
Proof.
  destruct a as [x|rows]; simpl; [discriminate|]. intros Hs.
  apply fmap_Ok in Hs as (rows' & Hm & ->). apply mapM_Ok in Hm.
  unfold shape_at. simpl. destruct Hm as [|r r' rows rows' Hr _]; simpl; [discriminate|].
  destruct r as [x|l]; [discriminate|]. injection Hr as <-.
  unfold py_slice. rewrite Nat.sub_diag. simpl. by intros [= <-].
Qed.

Lemma iteration_no_member (it : AlphaFoldIteration R)
    (eb neb : gmap string (Tensor R)) (ens : bool) sl :
  eb !! "seq_length" = Some sl → shape_at (data sl) 1 = Ok 0%nat →
  ∃ e, AlphaFoldIteration_forward it eb neb ens = Raise e.
Proof.
  intros Hsl Hn.
  destruct (AlphaFoldIteration_forward it eb neb ens) as [ret|e] eqn:Hf; [|by eauto].
  destruct ens.
  - apply AlphaFoldIteration_forward_Ok in Hf as (batch0 & _ & _ & _ & _ & _ & Hb & _).
    unfold _slice_batch in Hb. apply bind_Ok in Hb as (b0 & Hb0 & _).
    apply dict_imapM_lookup with (k := "seq_length") in Hb0. rewrite Hsl in Hb0.
    destruct Hb0 as (t & Ht & _). unfold tensor_index1 in Ht.
    apply fmap_Ok in Ht as (d & Hd & _).
    destruct (nd_index1_empty_row 0 _ Hn) as [e He]. congruence.
  - unfold AlphaFoldIteration_forward in Hf. apply getitem_Ok in Hsl.
    rewrite Hsl in Hf. simpl in Hf. rewrite Hn in Hf. discriminate.
Qed.

(** X8: with [resample_msa_in_recycling] on and fewer ensemble rows in the
    batch than [num_recycle + 1], the per-recycle slice is empty and the
    forward raises, whatever the other features are. *)
Theorem forward_resample_too_few_rows self batch (ens rr : bool)
    (aatype : Tensor R) (b e n : nat) :
  resample_msa_in_recycling (config self) = true →
  batch !! "aatype" = Some aatype → nd_shape (data aatype) = [b; e; n] →
  0 ≤ num_recycle (config self) →
  Z.of_nat e < num_recycle (config self) + 1 →
  ∃ err log, AlphaFold_forward self batch ens rr [] = (Raise err, log).
Proof.
  intros Hres Ha Hshape Hnr He.
  destruct (AlphaFold_forward self batch ens rr []) as [[ret|err] log] eqn:Hf;
    [|by eauto].
  exfalso. unfold AlphaFold_forward in Hf.
  apply traced_bind_Ok in Hf as (aatype' & log0 & Hg & Hf).
  apply lift_Ok in Hg as [Hg ->]. apply getitem_Ok in Hg.
  assert (aatype' = aatype) as -> by congruence. rewrite Hshape in Hf.
  apply traced_bind_Ok in Hf as ([e' n'] & log0 & Hg' & Hf).
  apply lift_Ok in Hg' as [[= <- <-] ->].
  apply traced_bind_Ok in Hf as ([prev num_iter] & log1 & _ & Hf).
  apply traced_bind_Ok in Hf as (out & log2 & Hrun & _).
  unfold _run_single_recycling in Hrun. rewrite Hres in Hrun.
  apply traced_bind_Ok in Hrun as (eb & log3 & Heb & Hcall).
  apply lift_Ok in Heb as [Heb ->].
  apply bind_Ok in Heb as (_ & _ & Heb).
  rewrite Z.div_small, Z.mul_0_r, Z.add_0_r in Heb by lia.
  unfold call_iteration in Hcall. injection Hcall as Hout _.
  pose proof Hout as Hout'. unfold AlphaFoldIteration_forward in Hout'.
  apply bind_Ok in Hout' as (sl & Hsl & Hout').
  apply bind_Ok in Hout' as (m & Hm & _). apply getitem_Ok in Hsl.
  pose proof (dict_imapM_lookup _ _ _ Heb "seq_length") as Hl.
  destruct (batch !! "seq_length") as [v|]; [|congruence].
  destruct Hl as (sl' & Hsl' & Hsl''). assert (sl' = sl) as -> by congruence.
  unfold tensor_slice1 in Hsl'. apply fmap_Ok in Hsl' as (d & Hd & ->).
  simpl in Hm. pose proof (nd_slice1_empty _ _ _ _ Hd Hm) as ->.
  destruct (iteration_no_member (alphafold_iteration self) eb prev ens _ Hsl Hm)
    as [e0 He0]. congruence.
Qed.

End DriverMoreFacts.

(** ** The error monad, continued *)

Lemma mapM_is_Ok {A B} (f : A → result B) (l : list A) :
  Forall (λ x, ∃ y, f x = Ok y) l → ∃ k, mapM f l = Ok k.
Proof.
  induction 1 as [|x l [y Hy] _ [k Hk]]; simpl; [by eauto|].
  rewrite Hy. simpl. rewrite Hk. simpl. eauto.
Qed.

Lemma mapM_Raise {A B} (f : A → result B) (l : list A) e :
  mapM f l = Raise e → ∃ x, x ∈ l ∧ f x = Raise e.
Proof.
  induction l as [|x l IH]; simpl; [discriminate|].
  destruct (f x) as [y|e'] eqn:Hx; simpl.
  - destruct (mapM f l) as [k|e'] eqn:Hl; simpl; [discriminate|].
    intros [= ->]. destruct (IH eq_refl) as (x' & Hin & Hx').
    exists x'. split; [by right|done].
  - intros [= ->]. exists x. split; [by left|done].
Qed.

Lemma fmap_Raise {A B} (m : result A) (f : A → B) e :
  f <$> m = Raise e → m = Raise e.
Proof. destruct m; [discriminate|]. by intros [= ->]. Qed.

Lemma dict_imapM_is_Ok {A B} (f : string → A → result B) (d : gmap string A) :
  (∀ k v, d !! k = Some v → ∃ b, f k v = Ok b) → ∃ d', dict_imapM f d = Ok d'.
Proof.
  intros Hf. unfold dict_imapM.
  destruct (mapM_is_Ok (λ kv, (λ b, (kv.1, b)) <$> f kv.1 kv.2) (map_to_list d))
    as [l Hl].
  - apply Forall_forall. intros [k v] Hin. apply elem_of_map_to_list in Hin.
    destruct (Hf k v Hin) as [b Hb]. simpl. rewrite Hb. simpl. eauto.
  - rewrite Hl. simpl. eauto.
Qed.

Lemma dict_imapM_Raise {A B} (f : string → A → result B) (d : gmap string A) e :
  dict_imapM f d = Raise e → ∃ k v, d !! k = Some v ∧ f k v = Raise e.
Proof.
  unfold dict_imapM. intros Hd. apply fmap_Raise in Hd.
  apply mapM_Raise in Hd as ([k v] & Hin & Hkv).
  apply elem_of_map_to_list in Hin. exists k, v. split; [done|].
  by apply fmap_Raise in Hkv.
Qed.

Section PredictionFacts.
Context {R : Type} `{Float R}.
Implicit Types (v : pyval R) (d : gmap string (pyval R)).

Lemma pyval_size_lookup d (k : string) v :
  d !! k = Some v → (pyval_size v < pyval_size (VDict d))%nat.
Proof.
  intros Hk. simpl. rewrite <- (insert_delete_id d k v Hk).
  rewrite map_fold_insert_L.
  - lia.
  - intros. lia.
  - apply lookup_delete_eq.
Qed.

Lemma pyval_ind (P : pyval R → Prop) :
  (∀ t, P (VTensor t)) → (∀ a, P (VNumpy a)) →
  (∀ d, map_Forall (λ _ v, P v) d → P (VDict d)) →
  ∀ v, P v.
Proof.
  intros Ht Ha Hd v.
  remember (pyval_size v) as n eqn:Hn. revert v Hn.
  induction n as [n IH] using lt_wf_ind. intros [t|a|d] Hn; [done..|].
  apply Hd. intros k x Hk. apply (IH (pyval_size x)); [|done].
  subst n. by eapply pyval_size_lookup.
Qed.

Lemma tensor_to_numpy_value_no_tensor v : no_tensor (tensor_to_numpy_value v).
Proof.
  induction v as [t|a|d IH] using pyval_ind; simpl; [constructor..|].
  constructor. intros k x. rewrite lookup_fmap.
  destruct (d !! k) as [y|] eqn:Hy; simpl; [|discriminate].
  intros [= <-]. by eapply IH.
Qed.

Lemma tensor_to_numpy_value_fixed v :
  no_tensor v → tensor_to_numpy_value v = v.
Proof.
  induction v as [t|a|d IH] using pyval_ind; simpl; intros Hv.
  - inversion Hv.
  - done.
  - f_equal. inversion Hv as [|d' Hd]; subst. apply map_eq. intros k.
    rewrite lookup_fmap. destruct (d !! k) as [y|] eqn:Hy; simpl; [|done].
    f_equal. eapply IH; eauto.
Qed.

(** X9: after [tensor_to_numpy] the dict holds no paddle tensor at any
    depth, and it has the keys it had. *)
Theorem tensor_to_numpy_no_tensor d :
  map_Forall (λ _ v, no_tensor v) (tensor_to_numpy d) ∧
  dom (tensor_to_numpy d) = dom d.
Proof.
  unfold tensor_to_numpy. split; [|apply dom_fmap_L].
  intros k x. rewrite lookup_fmap.
  destruct (d !! k) as [y|]; simpl; [|discriminate].
  intros [= <-]. apply tensor_to_numpy_value_no_tensor.
Qed.

(** X10: [tensor_to_numpy] leaves a dict without tensors as it is; so a
    second call changes nothing. *)
Theorem tensor_to_numpy_idempotent d :
  (map_Forall (λ _ v, no_tensor v) d → tensor_to_numpy d = d) ∧
  tensor_to_numpy (tensor_to_numpy d) = tensor_to_numpy d.
Proof.
  assert (Hfix : ∀ d, map_Forall (λ _ v, no_tensor v) d → tensor_to_numpy d = d).
  { intros d' Hd. unfold tensor_to_numpy. apply map_eq. intros k.
    rewrite lookup_fmap. destruct (d' !! k) as [y|] eqn:Hy; simpl; [|done].
    f_equal. apply tensor_to_numpy_value_fixed. by eapply Hd. }
  split; [apply Hfix|]. apply Hfix, tensor_to_numpy_no_tensor.
Qed.

(** *** slice_pred_dict *)

Lemma py_index_Ok {A} (i : Z) (l : list A) x :
  py_index i l = Ok x → - Z.of_nat (length l) ≤ i < Z.of_nat (length l).
Proof. unfold py_index. case_bool_decide; [done|discriminate]. Qed.

Lemma py_index_is_Ok {A} (i : Z) (l : list A) :
  - Z.of_nat (length l) ≤ i < Z.of_nat (length l) → ∃ x, py_index i l = Ok x.
Proof.
  intros Hi. unfold py_index. rewrite bool_decide_true by done.
  destruct (lookup_lt_is_Some_2 l
              (Z.to_nat (if i <? 0 then i + Z.of_nat (length l) else i)))
    as [x Hx].
  - destruct (Z.ltb_spec i 0); lia.
  - rewrite Hx. eauto.
Qed.

Lemma py_index_Raise {A} (i : Z) (l : list A) e :
  py_index i l = Raise e → e = IndexError.
Proof.
  unfold py_index. case_bool_decide; [|congruence].
  destruct (l !! _); congruence.
Qed.

Lemma np_getitem_Ok (i : Z) (a a' : ndarray R) :
  np_getitem i a = Ok a' → has_index i a.
Proof. destruct a; simpl; [discriminate|]. apply py_index_Ok. Qed.

Lemma np_getitem_is_Ok (i : Z) (a : ndarray R) :
  has_index i a → ∃ a', np_getitem i a = Ok a'.
Proof. destruct a; simpl; [done|]. apply py_index_is_Ok. Qed.

Lemma np_getitem_Raise (i : Z) (a : ndarray R) e :
  np_getitem i a = Raise e → e = IndexError.
Proof. destruct a; simpl; [congruence|]. apply py_index_Raise. Qed.

Lemma slice_entries_lookup (rec : pyval R → result (pyval R))
    (ignores : list string) d d' :
  slice_entries rec ignores d = Ok d' →
  ∀ k : string,
    match d !! k with
    | Some v => if bool_decide (k ∈ ignores) then d' !! k = Some v
                else ∃ v', rec v = Ok v' ∧ d' !! k = Some v'
    | None => d' !! k = None
    end.
Proof.
  unfold slice_entries. intros Hs k.
  pose proof (dict_imapM_lookup _ _ _ Hs k) as Hl.
  rewrite map_lookup_imap in Hl. destruct (d !! k) as [v|]; simpl in *; [|done].
  destruct Hl as (b & Hb & Hk). case_bool_decide.
  - by injection Hb as <-.
  - eauto.
Qed.

Lemma slice_entries_is_Ok (rec : pyval R → result (pyval R))
    (ignores : list string) d :
  map_Forall (λ k v, k ∈ ignores ∨ ∃ v', rec v = Ok v') d →
  ∃ d', slice_entries rec ignores d = Ok d'.
Proof.
  intros Hd. unfold slice_entries. apply dict_imapM_is_Ok. intros k r.
  rewrite map_lookup_imap. destruct (d !! k) as [v|] eqn:Hv; simpl; [|discriminate].
  intros [= <-]. case_bool_decide as Hk; [by eauto|].
  destruct (Hd k v Hv) as [?|[v' Hv']]; [contradiction|]. eauto.
Qed.

Lemma slice_entries_Raise (rec : pyval R → result (pyval R))
    (ignores : list string) d e :
  slice_entries rec ignores d = Raise e →
  ∃ k v, d !! k = Some v ∧ (k ∉ ignores) ∧ rec v = Raise e.
Proof.
  unfold slice_entries. intros Hs.
  apply dict_imapM_Raise in Hs as (k & r & Hk & ->).
  rewrite map_lookup_imap in Hk. destruct (d !! k) as [v|] eqn:Hv; simpl in Hk;
    [|discriminate].
  case_bool_decide; [discriminate|]. injection Hk as Hk. eauto.
Qed.

Lemma slice_value_spec (slice_idx : Z) (ignores : list string) v :
  (∀ v', slice_value slice_idx ignores v = Ok v' → sliceable slice_idx ignores v) ∧
  (sliceable slice_idx ignores v → ∃ v', slice_value slice_idx ignores v = Ok v') ∧
  (∀ e, slice_value slice_idx ignores v = Raise e → e = IndexError).
Proof.
  induction v as [t|a|d IH] using pyval_ind; simpl.
  - repeat split.
    + intros v' Hv. apply fmap_Ok in Hv as (a' & Ha & _).
      constructor. by eapply np_getitem_Ok.
    + inversion 1 as [|t' Ht|]; subst.
      destruct (np_getitem_is_Ok _ _ Ht) as [a' Ha]. rewrite Ha. simpl. eauto.
    + intros e. destruct (np_getitem slice_idx (data t)) eqn:Hg; simpl; [discriminate|].
      intros [= <-]. by eapply np_getitem_Raise.
  - repeat split.
    + intros v' Hv. apply fmap_Ok in Hv as (a' & Ha & _).
      constructor. by eapply np_getitem_Ok.
    + inversion 1 as [a0 Ha| |]; subst.
      destruct (np_getitem_is_Ok _ _ Ha) as [a' Ha']. rewrite Ha'. simpl. eauto.
    + intros e. destruct (np_getitem slice_idx a) eqn:Hg; simpl; [discriminate|].
      intros [= <-]. by eapply np_getitem_Raise.
  - repeat split.
    + intros v' Hv. apply fmap_Ok in Hv as (d' & Hd & _). constructor.
      intros k x Hk. pose proof (slice_entries_lookup _ _ _ _ Hd k) as Hl.
      rewrite Hk in Hl. case_bool_decide; [by left|right].
      destruct Hl as (x' & Hx' & _). by eapply (IH k x Hk).
    + inversion 1 as [| |d0 Hd]; subst.
      destruct (slice_entries_is_Ok (slice_value slice_idx ignores) ignores d)
        as [d' Hd'].
      * intros k x Hk. destruct (Hd k x Hk) as [?|Hx]; [by left|right].
        by apply (IH k x Hk).
      * rewrite Hd'. simpl. eauto.
    + intros e.
      destruct (slice_entries (slice_value slice_idx ignores) ignores d) eqn:Hs;
        simpl; [discriminate|].
      intros [= <-]. apply slice_entries_Raise in Hs as (k & x & Hk & _ & Hx).
      by eapply (IH k x Hk).
Qed.

(** X11: when [slice_pred_dict] returns, the dict has the keys it had; the
    value of an ignored key is untouched; an array under another key has
    been replaced by its entry [slice_idx]; and a dict under another key has
    been sliced by [slice_pred_dict] with the same index and the same
    ignored keys. *)
Theorem slice_pred_dict_entries d (slice_idx : Z) (ignores : list string) d' :
  slice_pred_dict d slice_idx ignores = Ok d' →
  dom d' = dom d ∧
  (∀ k : string, k ∈ ignores → d' !! k = d !! k) ∧
  (∀ (k : string) a, k ∉ ignores → d !! k = Some (VNumpy a) →
     ∃ a', np_getitem slice_idx a = Ok a' ∧ d' !! k = Some (VNumpy a')) ∧
  (∀ (k : string) sub, k ∉ ignores → d !! k = Some (VDict sub) →
     ∃ sub', slice_pred_dict sub slice_idx ignores = Ok sub' ∧
             d' !! k = Some (VDict sub')).
Proof.
  unfold slice_pred_dict. intros Hs.
  pose proof (slice_entries_lookup _ _ _ _ Hs) as Hl. repeat split.
  - apply set_eq. intros k. rewrite !elem_of_dom. specialize (Hl k).
    destruct (d !! k) as [v|]; [|rewrite Hl; by split; intros [? ?]].
    case_bool_decide; [rewrite Hl; by split; eauto|].
    destruct Hl as (v' & _ & ->). split; eauto.
  - intros k Hk. specialize (Hl k). destruct (d !! k) as [v|]; [|done].
    by rewrite bool_decide_true in Hl.
  - intros k a Hk Ha. specialize (Hl k). rewrite Ha, bool_decide_false in Hl by done.
    destruct Hl as (v' & Hv' & Hk'). simpl in Hv'.
    apply fmap_Ok in Hv' as (a' & Ha' & ->). eauto.
  - intros k sub Hk Hsub. specialize (Hl k).
    rewrite Hsub, bool_decide_false in Hl by done.
    destruct Hl as (v' & Hv' & Hk'). simpl in Hv'.
    apply fmap_Ok in Hv' as (sub' & Hsub' & ->). eauto.
Qed.

(** X12: [slice_pred_dict] returns exactly when every array that is not
    under an ignored key, at any depth, has an entry [slice_idx] on its first
    axis; otherwise it raises IndexError, and it raises nothing else. *)
Theorem slice_pred_dict_succeeds_iff d (slice_idx : Z) (ignores : list string) :
  ((∃ d', slice_pred_dict d slice_idx ignores = Ok d') ↔
   map_Forall (λ k v, k ∈ ignores ∨ sliceable slice_idx ignores v) d) ∧
  (∀ e, slice_pred_dict d slice_idx ignores = Raise e → e = IndexError).
Proof.
  unfold slice_pred_dict. split; [split|].
  - intros [d' Hs] k v Hk. pose proof (slice_entries_lookup _ _ _ _ Hs k) as Hl.
    rewrite Hk in Hl. case_bool_decide; [by left|right].
    destruct Hl as (v' & Hv' & _). by eapply slice_value_spec.
  - intros Hd. apply slice_entries_is_Ok. intros k v Hk.
    destruct (Hd k v Hk) as [?|Hv]; [by left|right]. by apply slice_value_spec.
  - intros e Hs. apply slice_entries_Raise in Hs as (k & v & _ & _ & Hv).
    by eapply slice_value_spec.
Qed.

End PredictionFacts.

Section RunModelFacts.
Context {R : Type} `{Float R}.
Implicit Types (self : RunModel R) (feat : gmap string (Tensor R)).

Lemma predict_Ok self gc feat (er rr : bool) out gc' log :
  predict self gc feat er rr = (Ok out, gc', log) →
  ∃ ret, AlphaFold_forward (alphafold self gc') feat er rr [] = (Ok ret, log) ∧
         out = tensor_to_numpy (to_pyval ret) ∧
         (if dynamic_subbatch_size self then
            ∃ aatype (seq_len : nat) extra_msa (extra_msa_num : nat),
              feat !! "aatype" = Some aatype ∧
              shape_from_end (data aatype) 1 = Ok seq_len ∧
              feat !! "extra_msa" = Some extra_msa ∧
              shape_from_end (data extra_msa) 2 = Ok extra_msa_num ∧
              update_subbatch_size gc (Z.of_nat seq_len) (Z.of_nat extra_msa_num)
                = Ok gc'
          else gc' = gc).
Proof.
  unfold predict. intros Hp.
  destruct (if dynamic_subbatch_size self then _ else _) as [gc1|e] eqn:Hgc;
    [|discriminate].
  destruct (AlphaFold_forward (alphafold self gc1) feat er rr []) as [r log1] eqn:Hf.
  injection Hp as Hr <- <-. apply fmap_Ok in Hr as (ret & -> & ->).
  exists ret. split; [done|]. split; [done|].
  destruct (dynamic_subbatch_size self); [|by injection Hgc].
  apply bind_Ok in Hgc as (aatype & Ha & Hgc). apply getitem_Ok in Ha.
  apply bind_Ok in Hgc as (seq_len & Hs & Hgc).
  apply bind_Ok in Hgc as (extra_msa & He & Hgc). apply getitem_Ok in He.
  apply bind_Ok in Hgc as (extra_msa_num & Hn & Hgc).
  eauto 10.
Qed.

(** X13: with dynamic subbatch size on, [predict] on features whose
    extra-MSA width is neither 5120 nor 1024 raises the error of
    [update_subbatch_size] before the model is invoked, and leaves the global
    configuration as it was. *)
Theorem predict_unknown_strategy self gc feat (er rr : bool)
    (aatype extra_msa : Tensor R) (seq_len extra_msa_num : nat) :
  dynamic_subbatch_size self = true →
  feat !! "aatype" = Some aatype →
  shape_from_end (data aatype) 1 = Ok seq_len →
  feat !! "extra_msa" = Some extra_msa →
  shape_from_end (data extra_msa) 2 = Ok extra_msa_num →
  Z.of_nat extra_msa_num ≠ 5120 → Z.of_nat extra_msa_num ≠ 1024 →
  predict self gc feat er rr
    = (Raise (ValueError "Unknown subbatch strategy"), gc, []).
Proof.
  intros Hdyn Ha Hs He Hn H1 H2. unfold predict. rewrite Hdyn.
  apply getitem_Ok in Ha, He. rewrite Ha. simpl. rewrite Hs. simpl.
  rewrite He. simpl. rewrite Hn. simpl. unfold update_subbatch_size.
  destruct (Z.eqb_spec (Z.of_nat extra_msa_num) 5120); [done|].
  destruct (Z.eqb_spec (Z.of_nat extra_msa_num) 1024); [done|]. reflexivity.
Qed.

(** X14: the dict that [predict] returns has the keys of the model's
    output, computed under the configuration that [predict] leaves, and
    holds no paddle tensor at any depth. *)
Theorem predict_returns_numpy self gc feat (er rr : bool)
    (out : gmap string (pyval R)) gc' log :
  predict self gc feat er rr = (Ok out, gc', log) →
  ∃ ret : gmap string (gmap string (Tensor R)),
    AlphaFold_forward (alphafold self gc') feat er rr [] = (Ok ret, log) ∧
    dom out = dom ret ∧
    map_Forall (λ _ v, no_tensor v) out.
Proof.
  intros Hp. apply predict_Ok in Hp as (ret & Hf & -> & _).
  exists ret. split; [done|].
  destruct (tensor_to_numpy_no_tensor (to_pyval ret)) as [Hnt Hdom].
  split; [|done]. rewrite Hdom. unfold to_pyval. apply dom_fmap_L.
Qed.

(** X15: the subbatch size that [predict] sets for a short sequence is not
    restored: a later [predict] on a sequence at or over the limit, with the
    same extra-MSA width, runs the model with the size set by the earlier
    call, whatever the configured size was. *)
Theorem predict_subbatch_size_persists self gc feat1 feat2 (er rr : bool)
    r1 gc1 log1 r2 gc2 log2
    (aatype1 extra_msa1 aatype2 extra_msa2 : Tensor R)
    (seq_len1 seq_len2 num1 num2 : nat) (extra_msa_num limit : Z) :
  (extra_msa_num = 5120 ∧ limit = 200) ∨ (extra_msa_num = 1024 ∧ limit = 600) →
  dynamic_subbatch_size self = true →
  feat1 !! "aatype" = Some aatype1 →
  shape_from_end (data aatype1) 1 = Ok seq_len1 →
  feat1 !! "extra_msa" = Some extra_msa1 →
  shape_from_end (data extra_msa1) 2 = Ok num1 → Z.of_nat num1 = extra_msa_num →
  feat2 !! "aatype" = Some aatype2 →
  shape_from_end (data aatype2) 1 = Ok seq_len2 →
  feat2 !! "extra_msa" = Some extra_msa2 →
  shape_from_end (data extra_msa2) 2 = Ok num2 → Z.of_nat num2 = extra_msa_num →
  Z.of_nat seq_len1 < limit → limit ≤ Z.of_nat seq_len2 →
  predict self gc feat1 er rr = (r1, gc1, log1) →
  predict self gc1 feat2 er rr = (r2, gc2, log2) →
  gc1 = set_subbatch_size gc extra_msa_num ∧ gc2 = gc1 ∧
  subbatch_size gc2 = extra_msa_num.
Proof.
  intros Hcase Hdyn Ha1 Hs1 He1 Hn1 Hw1 Ha2 Hs2 He2 Hn2 Hw2 Hshort Hlong Hp1 Hp2.
  apply getitem_Ok in Ha1, He1, Ha2, He2.
  unfold predict in Hp1, Hp2. rewrite Hdyn in Hp1, Hp2.
  rewrite Ha1 in Hp1. simpl in Hp1. rewrite Hs1 in Hp1. simpl in Hp1.
  rewrite He1 in Hp1. simpl in Hp1. rewrite Hn1 in Hp1. simpl in Hp1.
  rewrite Ha2 in Hp2. simpl in Hp2. rewrite Hs2 in Hp2. simpl in Hp2.
  rewrite He2 in Hp2. simpl in Hp2. rewrite Hn2 in Hp2. simpl in Hp2.
  unfold update_subbatch_size in Hp1, Hp2. rewrite Hw1 in Hp1. rewrite Hw2 in Hp2.
  destruct Hcase as [[-> ->]|[-> ->]]; simpl in Hp1, Hp2.
  - destruct (Z.ltb_spec (Z.of_nat seq_len1) 200); [|lia].
    destruct (Z.ltb_spec (Z.of_nat seq_len2) 200); [lia|].
    destruct (AlphaFold_forward _ feat1 er rr []) as [r1' l1'].
    injection Hp1 as _ <- _.
    destruct (AlphaFold_forward _ feat2 er rr []) as [r2' l2'].
    injection Hp2 as _ <- _. done.
  - destruct (Z.ltb_spec (Z.of_nat seq_len1) 600); [|lia].
    destruct (Z.ltb_spec (Z.of_nat seq_len2) 600); [lia|].
    destruct (AlphaFold_forward _ feat1 er rr []) as [r1' l1'].
    injection Hp1 as _ <- _.
    destruct (AlphaFold_forward _ feat2 er rr []) as [r2' l2'].
    injection Hp2 as _ <- _. done.
Qed.

End RunModelFacts.

(** ** Attention.__init__ *)

Section AttentionInitFacts.
Context {R : Type} `{Float R} {P : Type}.
Variable create_parameter : list Z → initializer R → result P.

(** X16: [Attention.__init__] raises ZeroDivisionError for [num_head = 0]
    and AssertionError when [num_head] does not divide the key or the value
    dimension.  A layer that it returns stores per-head dimensions whose
    product with [num_head] is the configured dimension, and parameters
    created with the shapes [q_dim, num_head, key_dim],
    [kv_dim, num_head, key_dim], [kv_dim, num_head, value_dim],
    [num_head, value_dim, output_dim] and [output_dim] (the output weights
    with a zero initializer under [zero_init]), the gating parameters being
    there exactly when [config.gating] is on.  It returns when the dimensions
    divide and [paddle.create_parameter] accepts every shape. *)
Theorem Attention_init_spec (config : AttentionConfig) (global_config : GlobalConfig)
    (q_dim kv_dim output_dim : Z) :
  let num_head := cfg_num_head config in
  let key_dim := default q_dim (cfg_key_dim config) in
  let value_dim := default kv_dim (cfg_value_dim config) in
  let init := Attention_init create_parameter config global_config
                q_dim kv_dim output_dim in
  (num_head = 0 → init = Raise ZeroDivisionError) ∧
  (num_head ≠ 0 → key_dim `mod` num_head ≠ 0 ∨ value_dim `mod` num_head ≠ 0 →
     init = Raise AssertionError) ∧
  (∀ self, init = Ok self →
     num_head ≠ 0 ∧
     self_key_dim self * num_head = key_dim ∧
     self_value_dim self * num_head = value_dim ∧
     create_parameter [q_dim; num_head; self_key_dim self] XavierUniform
       = Ok (self_query_w self) ∧
     create_parameter [kv_dim; num_head; self_key_dim self] XavierUniform
       = Ok (self_key_w self) ∧
     create_parameter [kv_dim; num_head; self_value_dim self] XavierUniform
       = Ok (self_value_w self) ∧
     create_parameter [num_head; self_value_dim self; output_dim]
         (if zero_init global_config then Constant f0 else XavierUniform)
       = Ok (self_output_w self) ∧
     create_parameter [output_dim] (Constant f0) = Ok (self_output_b self) ∧
     match self_gating self with
     | Some (gating_w, gating_b) =>
         cfg_gating config = true ∧
         create_parameter [q_dim; num_head; self_value_dim self] (Constant f0)
           = Ok gating_w ∧
         create_parameter [num_head; self_value_dim self] (Constant f1)
           = Ok gating_b
     | None => cfg_gating config = false
     end) ∧
  (num_head ≠ 0 → key_dim `mod` num_head = 0 → value_dim `mod` num_head = 0 →
   (∀ shape i, is_Ok (create_parameter shape i)) → is_Ok init).
Proof.
  intros num_head key_dim value_dim init. subst init.
  unfold Attention_init, py_mod, py_floordiv.
  fold num_head key_dim value_dim. split; [|split; [|split]].
  - intros ->. reflexivity.
  - intros Hn Hd. destruct (Z.eqb_spec num_head 0); [done|]. simpl.
    destruct (Z.eqb_spec (key_dim `mod` num_head) 0) as [Ek|Ek]; simpl; [|done].
    destruct (Z.eqb_spec (value_dim `mod` num_head) 0) as [Ev|Ev]; simpl; [|done].
    by destruct Hd.
  - intros self Hs.
    destruct (Z.eqb_spec num_head 0) as [|Hn]; [discriminate|]. simpl in Hs.
    destruct (Z.eqb_spec (key_dim `mod` num_head) 0) as [Ek|Ek];
      simpl in Hs; [|discriminate].
    destruct (Z.eqb_spec (value_dim `mod` num_head) 0) as [Ev|Ev];
      simpl in Hs; [|discriminate].
    destruct (create_parameter [q_dim; num_head; key_dim `div` num_head]
                XavierUniform) as [qw|] eqn:Eq; simpl in Hs; [|discriminate].
    destruct (create_parameter [kv_dim; num_head; key_dim `div` num_head]
                XavierUniform) as [kw|] eqn:Ekw; simpl in Hs; [|discriminate].
    destruct (create_parameter [kv_dim; num_head; value_dim `div` num_head]
                XavierUniform) as [vw|] eqn:Evw; simpl in Hs; [|discriminate].
    match type of Hs with context [?g ≫= _] =>
      destruct g as [gating|] eqn:Eg end; simpl in Hs; [|discriminate].
    destruct (create_parameter [num_head; _; output_dim] _) as [ow|] eqn:Eow;
      simpl in Hs; [|discriminate].
    destruct (create_parameter [output_dim] _) as [ob|] eqn:Eob;
      simpl in Hs; [|discriminate].
    injection Hs as <-. simpl.
    split; [done|].
    split; [rewrite Z.mul_comm; symmetry; by apply Z.div_exact|].
    split; [rewrite Z.mul_comm; symmetry; by apply Z.div_exact|].
    do 5 (split; [done|]).
    destruct (cfg_gating config).
    + destruct (create_parameter [q_dim; _; _] (Constant f0)) eqn:Egw;
        simpl in Eg; [|discriminate].
      destruct (create_parameter [num_head; _] _) eqn:Egb; simpl in Eg;
        [|discriminate].
      by injection Eg as <-.
    + by injection Eg as <-.
  - intros Hn Hk Hv Hcp. destruct (Z.eqb_spec num_head 0); [done|]. simpl.
    rewrite Hk, Hv. simpl.
    repeat match goal with
    | |- is_Ok (create_parameter ?s ?i ≫= _) =>
        let p := fresh "p" in destruct (Hcp s i) as [p ->]; simpl
    end.
    destruct (cfg_gating config); simpl.
    + repeat match goal with
      | |- context [create_parameter ?s ?i] =>
          let p := fresh "p" in destruct (Hcp s i) as [p ->]; simpl
      end. by eexists.
    + repeat match goal with
      | |- context [create_parameter ?s ?i] =>
          let p := fresh "p" in destruct (Hcp s i) as [p ->]; simpl
      end. by eexists.
Qed.

End AttentionInitFacts.

(** ** dgram_from_positions and the template embedding *)

Section DgramFacts.
Context {R : Type} `{Float R}.

Lemma get2_map2 {A B} (f : A → B) (t : list (list A)) i j :
  get2 (map2 f t) i j = f <$> get2 t i j.
Proof.
  unfold get2, map2. rewrite list_lookup_fmap.
  destruct (t !! i) as [r|]; simpl; [|done]. by rewrite list_lookup_fmap.
Qed.

Lemma get2_pairwise {A B} (g : A → A → B) (l : list A) i j :
  get2 ((λ x, (λ y, g x y) <$> l) <$> l) i j
  = x ← l !! i; y ← l !! j; Some (g x y).
Proof.
  unfold get2. rewrite list_lookup_fmap.
  destruct (l !! i) as [x|]; simpl; [|done]. rewrite list_lookup_fmap.
  by destruct (l !! j).
Qed.

(** X17: the distogram of [dgram_from_positions] is symmetric in the two
    residues, for a scalar arithmetic in which [(x - y)**2 = (y - x)**2]. *)
Theorem dgram_symmetric (positions : T3 R) (num_bins : Z) (min_bin max_bin : R) :
  (∀ x y : R, fmul (fsub x y) (fsub x y) = fmul (fsub y x) (fsub y x)) →
  Forall (λ tb : T3 R, ∀ i j : nat, get2 tb i j = get2 tb j i)
         (dgram_from_positions positions num_bins min_bin max_bin).
Proof.
  intros Hsq. unfold dgram_from_positions, map3, dgram_dist2.
  rewrite <- list_fmap_compose. apply Forall_fmap, Forall_true. intros pb i j. simpl.
  rewrite !get2_map2, !get2_pairwise.
  destruct (pb !! i) as [p_i|], (pb !! j) as [p_j|]; simpl; try done.
  assert (zip_with (λ x y, fmul (fsub x y) (fsub x y)) p_i p_j
          = zip_with (λ x y, fmul (fsub x y) (fsub x y)) p_j p_i) as ->; [|done].
  rewrite <- (zip_with_flip _ p_i p_j).
  apply zip_with_ext; [|done..]. intros x y. apply Hsq.
Qed.

(** The bins of one squared distance [d]. *)
Lemma dgram_bins_at_most_one (d : R) (lower : T1 R) :
  fmul f0 f0 = f0 → fmul f0 f1 = f0 → fmul f1 f0 = f0 →
  (∀ x y z : R, fgtb x y = true → fgtb y z = true → fgtb x z = true) →
  (∀ (k k' : nat) (lo lo' : R), (k ≤ k')%nat →
     lower !! k = Some lo → lower !! k' = Some lo' → fgtb lo lo' = false) →
  ∀ (k k' : nat) (x x' : R), (k < k')%nat →
    zip_with (λ lo up, fmul (of_bool (fgtb d lo)) (of_bool (fgtb up d)))
             lower (dgram_upper_breaks lower) !! k = Some x →
    zip_with (λ lo up, fmul (of_bool (fgtb d lo)) (of_bool (fgtb up d)))
             lower (dgram_upper_breaks lower) !! k' = Some x' →
    x = f0 ∨ x' = f0.
Proof.
  intros H00 H01 H10 Htrans Hsorted k k' v v' Hk Hv Hv'.
  apply lookup_zip_with_Some in Hv as (lo & up & -> & Hlo & Hup).
  apply lookup_zip_with_Some in Hv' as (lo' & up' & -> & Hlo' & Hup').
  destruct (fgtb up d) eqn:E1;
    [|left; destruct (fgtb d lo); simpl; [exact H10|exact H00]].
  destruct (fgtb d lo') eqn:E2;
    [|right; destruct (fgtb up' d); simpl; [exact H01|exact H00]].
  exfalso. pose proof (Htrans _ _ _ E1 E2) as E3.
  unfold dgram_upper_breaks in Hup.
  apply lookup_lt_Some in Hlo' as Hlen.
  rewrite lookup_app_l in Hup by (rewrite length_drop; lia).
  rewrite lookup_drop in Hup.
  rewrite (Hsorted (1 + k)%nat k' up lo' ltac:(lia) Hup Hlo') in E3. discriminate.
Qed.

(** The squared breaks ascend when [0 <= min_bin <= max_bin]. *)
Lemma dgram_lower_breaks_ascending (num_bins : Z) (min_bin max_bin : R) :
  float_order_laws R →
  fgtb f0 min_bin = false → fgtb min_bin max_bin = false →
  ∀ (k k' : nat) (lo lo' : R), (k ≤ k')%nat →
    dgram_lower_breaks num_bins min_bin max_bin !! k = Some lo →
    dgram_lower_breaks num_bins min_bin max_bin !! k' = Some lo' →
    fgtb lo lo' = false.
Proof.
  intros L Hmin Hle k k' lo lo' Hk Hlo Hlo'.
  unfold dgram_lower_breaks, linspace in Hlo, Hlo'.
  rewrite list_lookup_fmap, lookup_tab in Hlo, Hlo'.
  destruct (decide (k < Z.to_nat num_bins)%nat) as [Hkn|]; [|discriminate].
  destruct (decide (k' < Z.to_nat num_bins)%nat) as [Hkn'|]; [|discriminate].
  simpl in Hlo, Hlo'. injection Hlo as <-. injection Hlo' as <-.
  set (step := fdiv (fsub max_bin min_bin) (of_Z (num_bins - 1))).
  assert (fgtb f0 step = false) as Hstep.
  { apply (nonneg_div R L); [|lia]. by apply (nonneg_sub R L). }
  assert (∀ i : nat, fgtb f0 (fadd min_bin (fmul (of_Z (Z.of_nat i)) step)) = false)
    as Hnn.
  { intros i. apply (nonneg_add R L); [done|].
    apply (nonneg_mul R L); [|done]. apply (nonneg_of_Z R L). lia. }
  match goal with |- ?g = false => destruct g eqn:E; [exfalso|reflexivity] end.
  apply (gt_square R L) in E; [|apply Hnn..].
  apply (gt_add R L) in E. apply (gt_mul R L) in E; [|done].
  apply (gt_of_Z R L) in E. lia.
Qed.

(** X18: for [0 <= min_bin <= max_bin] and every pair of residues, at most
    one bin of [dgram_from_positions] is not zero, in a scalar arithmetic
    with the laws of [float_order_laws]: the squared breaks ascend, and a
    distance that is above a break is not below an earlier one. *)
Theorem dgram_at_most_one_bin (positions : T3 R) (num_bins : Z)
    (min_bin max_bin : R) :
  float_order_laws R →
  fgtb f0 min_bin = false → fgtb min_bin max_bin = false →
  Forall (Forall (Forall (λ v : T1 R,
    ∀ (k k' : nat) (x x' : R), (k < k')%nat →
      v !! k = Some x → v !! k' = Some x' → x = f0 ∨ x' = f0)))
    (dgram_from_positions positions num_bins min_bin max_bin).
Proof.
  intros L Hmin Hle. unfold dgram_from_positions, map3, map2.
  apply Forall_fmap, Forall_true. intros tb. simpl.
  apply Forall_fmap, Forall_true. intros row. simpl.
  apply Forall_fmap, Forall_true. intros d. simpl.
  apply dgram_bins_at_most_one;
    [apply (mul_0_0 R L)|apply (mul_0_1 R L)|apply (mul_1_0 R L)
    |apply (gt_trans R L)|by apply dgram_lower_breaks_ascending].
Qed.

End DgramFacts.

Section TemplateMoreFacts.
Context {R : Type} `{Float R}.

(** X19: on a template batch whose template axis has length zero,
    [TemplateEmbedding.forward] raises: there is nothing to stack. *)
Theorem template_embedding_no_template (self : TemplateEmbedding R)
    (training : bool) (query_embedding : T4 R)
    (template_batch : gmap string (Tensor R)) (mask_2d : T3 R)
    (template_mask_t : Tensor R) :
  template_batch !! "template_mask" = Some template_mask_t →
  shape_at (data template_mask_t) 1 = Ok 0%nat →
  ∃ e, TemplateEmbedding_forward self training query_embedding template_batch mask_2d
       = Raise e.
Proof.
  intros Hm Hn. unfold TemplateEmbedding_forward.
  apply getitem_Ok in Hm. rewrite Hm. simpl. rewrite Hn. simpl.
  destruct (nd_to_T2 (data template_mask_t)); simpl; eauto.
Qed.

End TemplateMoreFacts.

(** ** The same on concrete inputs *)

Section ExtraWitness.
Import Demo Fixtures.

Lemma get_heads_order_witness :
  ∃ names : list string,
    _get_heads iteration = Ok names ∧
    head names = Some "structure_module" ∧ names ≡ₚ used_heads iteration.
Proof.
  assert (NoDup (heads_items iteration).*1) as Hnd
    by (apply (bool_decide_unpack _); vm_compute; exact I).
  assert (_get_heads iteration = Ok ["structure_module"; "distogram"]) as Hg
    by (vm_compute; reflexivity).
  exists ["structure_module"; "distogram"]. split; [exact Hg|].
  destruct (get_heads_order iteration _ Hnd Hg) as (Hh & _ & Hp & _).
  exact (conj Hh Hp).
Defined.

Lemma forward_result_keys_witness :
  ∃ ret : gmap string (gmap string (Tensor Z)),
    AlphaFoldIteration_forward iteration batch1 ∅ false = Ok ret ∧
    dom ret = {["representations"]} ∪ list_to_set (used_heads iteration).
Proof.
  assert (succeeds (AlphaFoldIteration_forward iteration batch1 ∅ false) = true)
    as Hrun by (vm_compute; reflexivity).
  destruct (succeeds_Ok _ Hrun) as (ret & E).
  exists ret. split; [exact E|].
  exact (forward_result_keys iteration batch1 ∅ false ret E).
Defined.

Lemma forward_without_structure_module_witness :
  ∃ e, AlphaFoldIteration_forward iteration_no_structure batch1 ∅ false = Raise e.
Proof.
  assert ("structure_module" ∉ used_heads iteration_no_structure) as Hsm
    by (apply (bool_decide_unpack _); vm_compute; exact I).
  exact (forward_without_structure_module iteration_no_structure batch1 ∅ false Hsm).
Defined.

Lemma forward_single_member_witness :
  ∃ (ret : gmap string (gmap string (Tensor Z))) batch0 o reps,
    AlphaFoldIteration_forward iteration batch1 ∅ false = Ok ret ∧
    evoformer iteration batch0 = Ok o ∧
    ret !! "representations" = Some reps ∧
    reps !! "pair" = Some (out_pair o).
Proof.
  assert (succeeds (AlphaFoldIteration_forward iteration batch1 ∅ false) = true)
    as Hrun by (vm_compute; reflexivity).
  destruct (succeeds_Ok _ Hrun) as (ret & E).
  destruct (forward_single_member iteration batch1 ∅ ret demo_heads_preserve E)
    as (batch0 & o & reps & _ & Ho & Hr & Hp & _).
  exists ret, batch0, o, reps. exact (conj E (conj Ho (conj Hr Hp))).
Defined.

Lemma slice_batch_lookup_witness :
  ∃ b : gmap string (Tensor Z),
    _slice_batch batch3 {[ "feat" := tensor (vec [7]) ]} 1 = Ok b ∧
    b !! "feat" = Some (tensor (vec [7])).
Proof.
  assert (succeeds (_slice_batch batch3 {[ "feat" := tensor (vec [7]) ]} 1) = true)
    as Hrun by (vm_compute; reflexivity).
  destruct (succeeds_Ok _ Hrun) as (b & E).
  exists b. split; [exact E|].
  assert (({[ "feat" := tensor (vec [7]) ]} : gmap string (Tensor Z)) !! "feat"
          = Some (tensor (vec [7]))) as Hk by (vm_compute; reflexivity).
  exact (proj1 (proj2 (slice_batch_lookup batch3 _ 1%nat b E)) "feat" _ Hk).
Defined.

Lemma forward_resample_too_few_rows_witness :
  ∃ err log,
    AlphaFold_forward (model_resample 2) batch1 false true [] = (Raise err, log).
Proof.
  assert (batch1 !! "aatype" = Some (tensor (Dim [Dim [vec [0; 0]]]))) as Ha
    by (vm_compute; reflexivity).
  assert (nd_shape (data (tensor (Dim [Dim [vec [0; 0]]]))) = [1; 1; 2]%nat) as Hs
    by reflexivity.
  exact (forward_resample_too_few_rows (model_resample 2) batch1 false true _
           1%nat 1%nat 2%nat eq_refl Ha Hs ltac:(vm_compute; discriminate)
           ltac:(vm_compute; reflexivity)).
Defined.

Lemma recycled_state_stop_gradient_witness :
  ∃ (ret : gmap string (gmap string (Tensor Z))) log inv,
    AlphaFold_forward (model 2) batch1 false true [] = (Ok ret, log) ∧
    log !! 1%nat = Some inv ∧
    dom (inv_non_ensembled_batch inv)
      = {["prev_pos"; "prev_msa_first_row"; "prev_pair"]}.
Proof.
  assert (match AlphaFold_forward (model 2) batch1 false true [] with
          | (Ok _, _ :: _ :: _) => true
          | _ => false
          end = true) as Hrun by (vm_compute; reflexivity).
  destruct (AlphaFold_forward (model 2) batch1 false true [])
    as [[ret|e] [|inv0 [|inv log]]] eqn:E; try discriminate Hrun.
  exists ret, (inv0 :: inv :: log), inv. split; [reflexivity|]. split; [reflexivity|].
  exact (proj1 (recycled_state_stop_gradient (model 2) batch1 false true ret
                  (inv0 :: inv :: log) 0%nat inv E eq_refl)).
Defined.

Lemma predict_subbatch_size_persists_witness :
  ∃ r1 gc1 log1 r2 gc2 log2,
    predict run_model global_config (feat 2 1024) false true = (r1, gc1, log1) ∧
    predict run_model gc1 (feat 600 1024) false true = (r2, gc2, log2) ∧
    subbatch_size gc2 = 1024.
Proof.
  destruct (predict run_model global_config (feat 2 1024) false true)
    as [[r1 gc1] log1] eqn:E1.
  destruct (predict run_model gc1 (feat 600 1024) false true)
    as [[r2 gc2] log2] eqn:E2.
  exists r1, gc1, log1, r2, gc2, log2. split; [reflexivity|]. split; [exact E2|].
  assert (feat 2 1024 !! "aatype"
          = Some (tensor (Dim [Dim [vec (replicate 2 0)]]))) as Ha1
    by (vm_compute; reflexivity).
  assert (feat 2 1024 !! "extra_msa"
          = Some (tensor (Dim [Dim [Dim (replicate 1024 (vec [0]))]]))) as He1
    by (vm_compute; reflexivity).
  assert (feat 600 1024 !! "aatype"
          = Some (tensor (Dim [Dim [vec (replicate 600 0)]]))) as Ha2
    by (vm_compute; reflexivity).
  assert (feat 600 1024 !! "extra_msa"
          = Some (tensor (Dim [Dim [Dim (replicate 1024 (vec [0]))]]))) as He2
    by (vm_compute; reflexivity).
  assert (shape_from_end (data (tensor (Dim [Dim [vec (replicate 2 0)]]))) 1
          = Ok 2%nat) as Hs1 by (vm_compute; reflexivity).
  assert (shape_from_end (data (tensor (Dim [Dim [vec (replicate 600 0)]]))) 1
          = Ok 600%nat) as Hs2 by (vm_compute; reflexivity).
  assert (shape_from_end
            (data (tensor (Dim [Dim [Dim (replicate 1024 (vec [0 : Z]))]]))) 2
          = Ok 1024%nat) as Hn by (vm_compute; reflexivity).
  exact (proj2 (proj2
    (predict_subbatch_size_persists run_model global_config _ _ false true
       r1 gc1 log1 r2 gc2 log2 _ _ _ _ 2%nat 600%nat 1024%nat 1024%nat 1024 600
       (or_intror (conj eq_refl eq_refl)) eq_refl
       Ha1 Hs1 He1 Hn eq_refl Ha2 Hs2 He2 Hn eq_refl
       ltac:(vm_compute; reflexivity) ltac:(vm_compute; discriminate) E1 E2))).
Defined.

Lemma predict_unknown_strategy_witness :
  predict run_model global_config (feat 2 3) false true
    = (Raise (ValueError "Unknown subbatch strategy"), global_config, []).
Proof.
  assert (feat 2 3 !! "aatype" = Some (tensor (Dim [Dim [vec (replicate 2 0)]])))
    as Ha by (vm_compute; reflexivity).
  assert (feat 2 3 !! "extra_msa"
          = Some (tensor (Dim [Dim [Dim (replicate 3 (vec [0]))]]))) as He
    by (vm_compute; reflexivity).
  exact (predict_unknown_strategy run_model global_config (feat 2 3) false true
           _ _ 2%nat 3%nat eq_refl Ha eq_refl He eq_refl
           ltac:(vm_compute; discriminate) ltac:(vm_compute; discriminate)).
Defined.

Lemma predict_returns_numpy_witness :
  ∃ (out : gmap string (pyval Z)) gc' log,
    predict run_model global_config (feat 2 1024) false true = (Ok out, gc', log) ∧
    map_Forall (λ _ v, no_tensor v) out.
Proof.
  assert (match predict run_model global_config (feat 2 1024) false true with
          | (Ok _, _, _) => true
          | _ => false
          end = true) as Hrun by (vm_compute; reflexivity).
  destruct (predict run_model global_config (feat 2 1024) false true)
    as [[[out|e] gc'] log] eqn:E; try discriminate Hrun.
  exists out, gc', log. split; [reflexivity|].
  destruct (predict_returns_numpy run_model global_config (feat 2 1024) false true
              out gc' log E) as (ret & _ & _ & Hnt).
  exact Hnt.
Defined.

Lemma slice_pred_dict_entries_witness :
  ∃ d' : gmap string (pyval Z),
    slice_pred_dict prediction 0 default_ignores = Ok d' ∧
    dom d' = dom prediction.
Proof.
  assert (succeeds (slice_pred_dict prediction 0 default_ignores) = true) as Hrun
    by (vm_compute; reflexivity).
  destruct (succeeds_Ok _ Hrun) as (d' & E).
  exists d'. split; [exact E|].
  exact (proj1 (slice_pred_dict_entries prediction 0 default_ignores d' E)).
Defined.

Lemma dgram_symmetric_witness :
  Forall (λ tb : T3 Z, ∀ i j : nat, get2 tb i j = get2 tb j i)
         (dgram_from_positions positions 3 1 3).
Proof.
  apply dgram_symmetric. intros x y. unfold fmul, fsub. simpl. ring.
Defined.

Lemma float_order_laws_Z : float_order_laws Z.
Proof.
  split; unfold fgtb, fmul, fadd, fsub, fdiv, of_Z, f0, f1; simpl.
  - reflexivity.
  - reflexivity.
  - reflexivity.
  - intros x y z. rewrite !Z.gtb_gt. lia.
  - intros x y. rewrite Z.gtb_gt, !Z.gtb_ltb, !Z.ltb_ge. nia.
  - intros s a b. rewrite !Z.gtb_gt. lia.
  - intros a b t. rewrite !Z.gtb_gt, Z.gtb_ltb, Z.ltb_ge. nia.
  - intros i j. rewrite Z.gtb_gt. unfold id. lia.
  - intros x y. rewrite !Z.gtb_ltb, !Z.ltb_ge. lia.
  - intros x y. rewrite !Z.gtb_ltb, !Z.ltb_ge. nia.
  - intros n. rewrite Z.gtb_ltb, Z.ltb_ge. unfold id. lia.
  - intros x n. rewrite !Z.gtb_ltb, !Z.ltb_ge. unfold id. intros.
    apply Z_div_nonneg_nonneg; lia.
  - intros x y. rewrite !Z.gtb_ltb, !Z.ltb_ge. lia.
Defined.

Lemma dgram_at_most_one_bin_witness :
  Forall (Forall (Forall (λ v : T1 Z,
    ∀ (k k' : nat) (x x' : Z), (k < k')%nat →
      v !! k = Some x → v !! k' = Some x' → x = 0 ∨ x' = 0)))
    (dgram_from_positions positions 3 1 3).
Proof.
  exact (dgram_at_most_one_bin positions 3 1 3 float_order_laws_Z eq_refl eq_refl).
Defined.

Lemma template_embedding_no_template_witness :
  ∃ e, TemplateEmbedding_forward template_embedding false pair_act
         no_template_batch [] = Raise e.
Proof.
  assert (no_template_batch !! "template_mask" = Some (tensor (Dim [Dim []])))
    as Hm by (vm_compute; reflexivity).
  exact (template_embedding_no_template template_embedding false pair_act
           no_template_batch [] _ Hm eq_refl).
Defined.

End ExtraWitness.

(** ** Ensembling with one member *)

Section OneMember.
Context {R : Type} `{Float R}.
Implicit Types (self : AlphaFoldIteration R).
Implicit Types (eb neb : gmap string (Tensor R)).

Lemma nd_map_id (f : R → R) :
  (∀ x, f x = x) → ∀ a : ndarray R, nd_map f a = a.
Proof.
  intros Hf. fix IH 1. intros [x|rows]; simpl; [by rewrite Hf|].
  f_equal. induction rows as [|r rows IHrows]; simpl; [done|].
  by rewrite IH, IHrows.
Qed.

Lemma idiv_all_one (representations : gmap string (Tensor R)) :
  (∀ x : R, fdiv x (of_Z 1) = x) → idiv_all representations 1 = representations.
Proof.
  intros Hdiv. unfold idiv_all. apply map_eq. intros k. rewrite lookup_fmap.
  destruct (representations !! k) as [[d sg]|]; simpl; [|done].
  unfold tensor_idiv. simpl. by rewrite (nd_map_id _ Hdiv).
Qed.

(** X20: on a batch with one ensemble member, the iteration with ensembling
    requested returns what it returns without (the same value or the same
    exception), for a scalar division with [x / 1.0 = x]. *)
Theorem forward_one_member_ensembling self eb neb (seq_length : Tensor R) :
  (∀ x : R, fdiv x (of_Z 1) = x) →
  eb !! "seq_length" = Some seq_length →
  shape_at (data seq_length) 1 = Ok 1%nat →
  AlphaFoldIteration_forward self eb neb true
  = AlphaFoldIteration_forward self eb neb false.
Proof.
  intros Hdiv Hsl Hn. unfold AlphaFoldIteration_forward.
  apply getitem_Ok in Hsl. rewrite Hsl. simpl. rewrite Hn. simpl.
  destruct (_slice_batch eb neb 0) as [batch0|]; simpl; [|done].
  destruct (evoformer self batch0) as [o|]; simpl; [|done].
  destruct (getitem (output_dict o) "msa") as [msa|]; simpl; [|done].
  by rewrite idiv_all_one.
Qed.

End OneMember.

(** ** The relative positions and the parameter file *)

Section RelPosFacts.
Context {R : Type} `{Float R}.

Lemma lookup_one_hot (x n : Z) (i : nat) :
  (i < Z.to_nat n)%nat →
  one_hot x n !! i = Some (of_bool (bool_decide (Z.of_nat i = x))).
Proof. intros Hi. unfold one_hot. by rewrite lookup_tab, decide_True. Qed.

Lemma wrap_small (bits x : Z) :
  0 < bits → - 2 ^ (bits - 1) ≤ x < 2 ^ (bits - 1) → wrap bits x = x.
Proof.
  intros Hb Hx. unfold wrap.
  assert (2 ^ bits = 2 * 2 ^ (bits - 1)) as ->.
  { rewrite <- Z.pow_succ_r by lia. f_equal. lia. }
  rewrite Z.mod_small by lia. lia.
Qed.

(** X21: for residue indices of an integer dtype of [bits] bits, the
    relative-position feature of the residues [i] and [j] is the one-hot
    vector of width [2 * max_relative_feature + 1] of the bucket
    [clip(pos[i] - pos[j] + max_relative_feature, 0, 2 * max_relative_feature)],
    the difference and the sum being computed with wrap-around: the bucket
    is in range, the vector is one at the bucket and zero elsewhere, and the
    bucket of [(i, i)] is [max_relative_feature].  When the difference is so
    small that nothing wraps, the bucket is that of the exact difference and
    the buckets of [(i, j)] and [(j, i)] add up to
    [2 * max_relative_feature]. *)
Theorem rel_pos_bucket (bits max_relative_feature : Z) (pos : list (list Z))
    (b i j : nat) (pb : list Z) (p_i p_j : Z) :
  0 < bits → 0 < max_relative_feature →
  max_relative_feature < 2 ^ (bits - 1) →
  pos !! b = Some pb → pb !! i = Some p_i → pb !! j = Some p_j →
  let num_classes := 2 * max_relative_feature + 1 in
  let bucket (x y : Z) :=
    clip (wrap bits (wrap bits (x - y) + max_relative_feature)) 0
         (2 * max_relative_feature) in
  let k := bucket p_i p_j in
  (rel_pos bits max_relative_feature pos !! b) ≫= (λ tb : T3 R, get2 tb i j)
    = Some (one_hot k num_classes) ∧
  length (one_hot (R := R) k num_classes) = Z.to_nat num_classes ∧
  0 ≤ k < num_classes ∧
  one_hot (R := R) k num_classes !! Z.to_nat k = Some f1 ∧
  (∀ n : nat, n ≠ Z.to_nat k → (n < Z.to_nat num_classes)%nat →
     one_hot (R := R) k num_classes !! n = Some f0) ∧
  (i = j → k = max_relative_feature) ∧
  (max_relative_feature - 2 ^ (bits - 1) < p_i - p_j
     < 2 ^ (bits - 1) - max_relative_feature →
     k = clip (p_i - p_j + max_relative_feature) 0 (2 * max_relative_feature) ∧
     k + bucket p_j p_i = 2 * max_relative_feature).
Proof.
  intros Hbits Hm Hmax Hb Hi Hj num_classes bucket k.
  assert (0 ≤ k < num_classes) as Hk by (unfold k, bucket, num_classes, clip; lia).
  split; [|split; [|split; [|split; [|split; [|split]]]]].
  - unfold rel_pos. rewrite list_lookup_fmap, Hb. simpl.
    unfold get2. rewrite list_lookup_fmap, Hi. simpl.
    by rewrite list_lookup_fmap, Hj.
  - unfold one_hot. apply length_tab.
  - exact Hk.
  - rewrite lookup_one_hot by lia. rewrite bool_decide_true by lia. done.
  - intros n Hn Hlt. rewrite lookup_one_hot by done.
    rewrite bool_decide_false by lia. done.
  - intros ->. assert (p_i = p_j) as -> by congruence.
    unfold k, bucket. rewrite Z.sub_diag.
    rewrite (wrap_small bits 0) by lia. rewrite wrap_small by lia.
    unfold clip. lia.
  - intros Hd. unfold k, bucket.
    rewrite (wrap_small bits (p_i - p_j)) by lia.
    rewrite (wrap_small bits (p_i - p_j + _)) by lia.
    rewrite (wrap_small bits (p_j - p_i)) by lia.
    rewrite (wrap_small bits (p_j - p_i + _)) by lia.
    unfold clip. lia.
Qed.

End RelPosFacts.

Section InitParamsFacts.
Context {Param : Type}.
Implicit Types (l : list (string * Param)) (acc : gmap string Param).

Lemma string_drop_alphafold (k : string) :
  string_drop (String.length "alphafold.") ("alphafold." +:+ k) = k.
Proof. unfold string_drop. simpl. apply String.string_of_list_ascii_of_string. Qed.

Lemma strip_fold_notin (g : string → string) l : ∀ acc (key : string),
  key ∉ g <$> l.*1 →
  foldl (λ acc kv, <[g kv.1 := kv.2]> acc) acc l !! key = acc !! key.
Proof.
  induction l as [|[k v] l IH]; intros acc key Hkey; simpl; [done|].
  rewrite fmap_cons, fmap_cons in Hkey. simpl in Hkey.
  apply not_elem_of_cons in Hkey as [Hne Hkey].
  rewrite IH by done. by rewrite lookup_insert_ne.
Qed.

Lemma strip_fold_lookup (g : string → string) l : ∀ acc (k : string) (v : Param),
  NoDup (g <$> l.*1) → (k, v) ∈ l →
  foldl (λ acc kv, <[g kv.1 := kv.2]> acc) acc l !! g k = Some v.
Proof.
  induction l as [|[k0 v0] l IH]; intros acc k v Hnd Hin; simpl.
  - by apply elem_of_nil in Hin.
  - rewrite fmap_cons, fmap_cons in Hnd. simpl in Hnd.
    apply NoDup_cons in Hnd as [Hk0 Hnd].
    apply elem_of_cons in Hin as [[= -> ->]|Hin].
    + rewrite strip_fold_notin by done. apply lookup_insert_eq.
    + by apply IH.
Qed.

Lemma strip_fold_size (g : string → string) l : ∀ acc,
  NoDup (g <$> l.*1) → (∀ key, key ∈ g <$> l.*1 → acc !! key = None) →
  size (foldl (λ acc kv, <[g kv.1 := kv.2]> acc) acc l) = (size acc + length l)%nat.
Proof.
  induction l as [|[k0 v0] l IH]; intros acc Hnd Hacc; simpl; [lia|].
  rewrite fmap_cons, fmap_cons in Hnd, Hacc. simpl in Hnd, Hacc.
  apply NoDup_cons in Hnd as [Hk0 Hnd].
  rewrite IH; [|done|].
  - rewrite map_size_insert_None; [lia|]. apply Hacc. by left.
  - intros key Hkey. rewrite lookup_insert_ne; [apply Hacc; by right|].
    intros <-. contradiction.
Qed.

(** X22: [init_params] raises ValueError for a path that ends neither in
    '.npz' nor in '.pd'; for an '.npz' file whose converted parameters have
    distinct names that all start with 'alphafold.', the state dict has one
    entry per parameter, under the name without that prefix. *)
Theorem init_params_spec
    (np_load : string → result (list (string * Param)))
    (jax_params_to_paddle : list (string * Param) → list (string * Param))
    (paddle_load : string → result (gmap string Param))
    (params_path : string) :
  (endswith params_path ".npz" = false → endswith params_path ".pd" = false →
     init_params np_load jax_params_to_paddle paddle_load params_path
       = Raise (ValueError "Unsupported params file type")) ∧
  (endswith params_path ".npz" = true →
   ∀ params, np_load params_path = Ok params →
     NoDup (jax_params_to_paddle params).*1 →
     (∀ k : string, k ∈ (jax_params_to_paddle params).*1 →
        ∃ k', k = "alphafold." +:+ k') →
     ∃ pd_params,
       init_params np_load jax_params_to_paddle paddle_load params_path
         = Ok pd_params ∧
       size pd_params = length (jax_params_to_paddle params) ∧
       ∀ (k' : string) (v : Param),
         ("alphafold." +:+ k', v) ∈ jax_params_to_paddle params →
         pd_params !! k' = Some v).
Proof.
  unfold init_params. split.
  - by intros -> ->.
  - intros -> params -> Hnd Hpre. simpl.
    set (l := jax_params_to_paddle params) in *.
    assert (NoDup (string_drop (String.length "alphafold.") <$> l.*1)) as Hnd'.
    { apply NoDup_fmap_2_strong; [|done].
      intros k1 k2 Hk1 Hk2 Heq.
      destruct (Hpre k1 Hk1) as [k1' ->], (Hpre k2 Hk2) as [k2' ->].
      rewrite !string_drop_alphafold in Heq. by subst. }
    eexists. split; [reflexivity|]. unfold strip_alphafold. split.
    + rewrite strip_fold_size; [by rewrite map_size_empty|done|].
      intros; apply lookup_empty.
    + intros k' v Hin.
      rewrite <- (string_drop_alphafold k') at 1. by apply strip_fold_lookup.
Qed.

End InitParamsFacts.

(** ** RunModel.preprocess *)

Section PreprocessFacts.
Context {R : Type} `{Float R}.
Variable cast : dtype → dtype → R → R.
Variable np_to_array_dict :
  gmap string (NpArray R) → list string → bool → result (gmap string (NpArray R)).
Variable process_arrays_from_config :
  gmap string (NpArray R) → DataConfig → result (gmap string (NpArray R)).
Variable map_to_tensor : gmap string (NpArray R) → result (gmap string (Tensor R)).

Implicit Types (features : gmap string (NpArray R)) (a : NpArray R).

#[local] Abbreviation preprocess' :=
  (preprocess cast np_to_array_dict process_arrays_from_config map_to_tensor).

Lemma nd_slice1_cropped (n : Z) (d d' : ndarray R) :
  0 ≤ n → nd_slice1 0 n d = Ok d' → cropped n d'.
Proof.
  intros Hn. destruct d as [x|rows]; simpl; [discriminate|]. intros Hs.
  apply fmap_Ok in Hs as (rows' & Hm & ->). apply mapM_Ok in Hm.
  exists rows'. split; [done|].
  induction Hm as [|r r' rows rows' Hr _ IH]; constructor; [|done].
  destruct r as [x|l]; [discriminate|]. injection Hr as <-.
  eexists. split; [reflexivity|]. unfold py_slice, slice_bound.
  rewrite length_take, length_drop.
  destruct (Z.ltb_spec n 0); [lia|]. change (0 <? 0) with false. lia.
Qed.

Lemma nd_map_cropped (f : R → R) (n : Z) (d : ndarray R) :
  cropped n d → cropped n (nd_map f d).
Proof.
  intros (rows & -> & Hrows). simpl. eexists. split; [reflexivity|].
  change (map ?g ?l) with (g <$> l). apply Forall_fmap.
  eapply Forall_impl; [exact Hrows|]. intros r (l & -> & Hl). simpl.
  eexists. split; [reflexivity|]. by rewrite length_map.
Qed.

Lemma nd_slice1_cropped_again (n m : Z) (d d' : ndarray R) :
  cropped n d → nd_slice1 0 m d = Ok d' → cropped n d'.
Proof.
  intros (rows & -> & Hrows). simpl. intros Hs.
  apply fmap_Ok in Hs as (rows' & Hm & ->). apply mapM_Ok in Hm.
  exists rows'. split; [done|].
  induction Hm as [|r r' rows rows' Hr _ IH]; [constructor|].
  apply Forall_cons in Hrows as [(l & -> & Hl) Hrows].
  constructor; [|by apply IH]. injection Hr as <-.
  eexists. split; [reflexivity|]. unfold py_slice. rewrite length_take, length_drop. lia.
Qed.

Lemma crop_extra_msa_spec (n : Z) features features' (k : string) :
  crop_extra_msa n features k = Ok features' →
  ∃ v d, features !! k = Some v ∧ nd_slice1 0 n (np_values v) = Ok d ∧
         features' = <[k := mkNpArray (np_dtype v) d]> features.
Proof.
  unfold crop_extra_msa. intros Hc.
  apply bind_Ok in Hc as (v & Hv & Hc). apply getitem_Ok in Hv.
  apply bind_Ok in Hc as (d & Hd & [= <-]). eauto.
Qed.

Lemma crop_loop (n : Z) (ks : list string) : ∀ features features',
  0 ≤ n →
  foldlM (crop_extra_msa n) features ks = Ok features' →
  (map_Forall (λ _ a, np_dtype a ≠ object_) features →
   map_Forall (λ _ a, np_dtype a ≠ object_) features') ∧
  (∀ (k : string) a, features !! k = Some a → cropped n (np_values a) →
     ∃ a', features' !! k = Some a' ∧ cropped n (np_values a')) ∧
  (∀ k : string, k ∈ ks →
     ∃ a', features' !! k = Some a' ∧ cropped n (np_values a')).
Proof.
  induction ks as [|k0 ks IH]; intros features features' Hn Hl; simpl in Hl.
  - injection Hl as <-. repeat split; [done|by eauto|].
    intros k Hk. by apply elem_of_nil in Hk.
  - apply bind_Ok in Hl as (f1 & Hc & Hl).
    apply crop_extra_msa_spec in Hc as (v & d & Hv & Hd & ->).
    destruct (IH _ _ Hn Hl) as (Hobj & Hkeep & Hks).
    assert (Hk0 : ∃ a', features' !! k0 = Some a' ∧ cropped n (np_values a')).
    { apply (Hkeep k0 (mkNpArray (np_dtype v) d)); [apply lookup_insert_eq|].
      simpl. by eapply nd_slice1_cropped. }
    repeat split.
    + intros Hf. apply Hobj. apply map_Forall_insert_2; [|done].
      simpl. by eapply Hf.
    + intros k a Hk Ha. destruct (decide (k = k0)) as [->|Hne]; [done|].
      apply (Hkeep k a); [by rewrite lookup_insert_ne|done].
    + intros k Hk. apply elem_of_cons in Hk as [->|Hk]; [done|by apply Hks].
Qed.

Lemma narrow_dtype a :
  np_dtype a ≠ object_ →
  np_dtype (narrow cast a) ≠ int64 ∧ np_dtype (narrow cast a) ≠ float64 ∧
  np_dtype (narrow cast a) ≠ object_.
Proof.
  intros Ho. unfold narrow. repeat case_decide; simpl; repeat split; congruence.
Qed.

Lemma narrow_cropped (n : Z) a :
  cropped n (np_values a) → cropped n (np_values (narrow cast a)).
Proof.
  intros Ha. unfold narrow. repeat case_decide; simpl; try done;
    by apply nd_map_cropped.
Qed.

(** The steps of a call that misses the cache and returns. *)
Lemma preprocess_miss_Ok (data : DataConfig) raw_features (random_seed : Z)
    (pkl : option string) (files : gmap string (gmap string (NpArray R)))
    out raw' files' :
  pkl ≫= (λ path, files !! path) = None →
  preprocess' data raw_features random_seed pkl files = (Ok out, raw', files') →
  ∃ features0 features1,
    map_Forall (λ _ a, np_dtype a ≠ object_) features0 ∧
    foldlM (crop_extra_msa (max_extra_msa data)) features0
      ["extra_msa"; "extra_has_deletion"; "extra_deletion_value"; "extra_msa_mask"]
      = Ok features1 ∧
    map_to_tensor (narrow cast <$> features1) = Ok out ∧
    files' = match pkl with
             | Some path => <[path := narrow cast <$> features1]> files
             | None => files
             end.
Proof.
  intros Hmiss. unfold preprocess. rewrite Hmiss. intros Hp.
  destruct (_ ≫= _) as [n|] eqn:Hn in Hp; [|discriminate Hp].
  match type of Hp with context [match ?m with Ok _ => _ | Raise _ => _ end] =>
    destruct m as [features|] eqn:Hf end; [|discriminate Hp].
  injection Hp as Hout <- <-.
  apply bind_Ok in Hf as (array_dict & _ & Hf).
  apply bind_Ok in Hf as (fs & _ & Hf).
  apply bind_Ok in Hf as (features1 & Hloop & [= <-]). simpl in Hloop.
  eexists _, features1. split; [|split; [exact Hloop|split; [exact Hout|done]]].
  intros k a Hk. apply map_lookup_filter_Some in Hk as [_ Hk]. exact Hk.
Qed.

(** X23: when [preprocess] computes the features (no cache file) and
    returns, the features that it hands to [map_to_tensor] hold no array of
    dtype int64, float64 or object, and each of 'extra_msa',
    'extra_has_deletion', 'extra_deletion_value' and 'extra_msa_mask' is
    there with at most [max_extra_msa] entries on its second axis. *)
Theorem preprocess_features (data : DataConfig) raw_features (random_seed : Z)
    (pkl : option string) (files : gmap string (gmap string (NpArray R)))
    (out : gmap string (Tensor R)) raw' files' :
  0 ≤ max_extra_msa data →
  pkl ≫= (λ path, files !! path) = None →
  preprocess' data raw_features random_seed pkl files = (Ok out, raw', files') →
  ∃ features,
    map_to_tensor features = Ok out ∧
    (∀ (k : string) a, features !! k = Some a →
       np_dtype a ≠ int64 ∧ np_dtype a ≠ float64 ∧ np_dtype a ≠ object_) ∧
    (∀ k : string,
       k ∈ ["extra_msa"; "extra_has_deletion"; "extra_deletion_value";
            "extra_msa_mask"] →
       ∃ a, features !! k = Some a ∧ cropped (max_extra_msa data) (np_values a)).
Proof.
  intros Hmax Hmiss Hp.
  apply preprocess_miss_Ok in Hp as (f0 & f1 & Hobj & Hloop & Hout & _); [|done].
  destruct (crop_loop _ _ _ _ Hmax Hloop) as (Hobj' & _ & Hks).
  exists (narrow cast <$> f1). split; [done|]. split.
  - intros k a. rewrite lookup_fmap.
    destruct (f1 !! k) as [a1|] eqn:Hk; simpl; [|discriminate].
    intros [= <-]. apply narrow_dtype. by eapply (Hobj' Hobj).
  - intros k Hk. destruct (Hks k Hk) as (a' & Ha' & Hc).
    exists (narrow cast a'). rewrite lookup_fmap, Ha'. split; [done|].
    by apply narrow_cropped.
Qed.

(** X24: once [preprocess] has written its cache file, every later call
    with the same file returns what the first call returned, whatever the
    configuration, the raw features and the seed it is given, and leaves the
    raw features and the file as they are. *)
Theorem preprocess_cache_is_never_refreshed (data : DataConfig) raw_features
    (random_seed : Z) (path : string)
    (files : gmap string (gmap string (NpArray R)))
    (out : gmap string (Tensor R)) raw' files' :
  files !! path = None →
  preprocess' data raw_features random_seed (Some path) files
    = (Ok out, raw', files') →
  is_Some (files' !! path) ∧
  ∀ (data2 : DataConfig) raw_features2 (random_seed2 : Z),
    preprocess' data2 raw_features2 random_seed2 (Some path) files'
      = (Ok out, raw_features2, files').
Proof.
  intros Hmiss Hp.
  apply preprocess_miss_Ok in Hp as (f0 & f1 & _ & _ & Hout & ->); [|done].
  split; [rewrite lookup_insert_eq; eauto|].
  intros data2 raw2 seed2. unfold preprocess. simpl.
  by rewrite lookup_insert_eq, Hout.
Qed.

(** X25: a call of [preprocess] that computes the features changes the
    caller's [raw_features], whether it returns or raises afterwards:
    'deletion_matrix_int' is removed and, when it was there,
    'deletion_matrix' holds its float32 conversion; no other key changes. *)
Theorem preprocess_mutates_raw_features (data : DataConfig) raw_features
    (random_seed : Z) (pkl : option string)
    (files : gmap string (gmap string (NpArray R)))
    (seq_length : NpArray R) (first : ndarray R) (n : R)
    (r : result (gmap string (Tensor R))) raw' files' :
  pkl ≫= (λ path, files !! path) = None →
  raw_features !! "seq_length" = Some seq_length →
  np_getitem 0 (np_values seq_length) = Ok first → nd_item first = Ok n →
  preprocess' data raw_features random_seed pkl files = (r, raw', files') →
  raw' !! "deletion_matrix_int" = None ∧
  (∀ a, raw_features !! "deletion_matrix_int" = Some a →
     raw' !! "deletion_matrix" = Some (astype cast float32 a)) ∧
  (raw_features !! "deletion_matrix_int" = None → raw' = raw_features) ∧
  (∀ k : string, k ≠ "deletion_matrix_int" → k ≠ "deletion_matrix" →
     raw' !! k = raw_features !! k).
Proof.
  intros Hmiss Hsl Hfirst Hn Hp.
  assert (raw' = match raw_features !! "deletion_matrix_int" with
                 | Some a => <["deletion_matrix" := astype cast float32 a]>
                               (delete "deletion_matrix_int" raw_features)
                 | None => raw_features
                 end) as ->.
  { unfold preprocess in Hp. rewrite Hmiss in Hp.
    apply getitem_Ok in Hsl. rewrite Hsl in Hp. simpl in Hp.
    rewrite Hfirst in Hp. simpl in Hp. rewrite Hn in Hp.
    match type of Hp with context [match ?m with Ok _ => _ | Raise _ => _ end] =>
      destruct m as [features|] end; by injection Hp as _ <- _. }
  destruct (raw_features !! "deletion_matrix_int") as [a|] eqn:Hd.
  - repeat split.
    + by rewrite lookup_insert_ne, lookup_delete_eq.
    + intros a' [= <-]. apply lookup_insert_eq.
    + discriminate.
    + intros k Hk1 Hk2. by rewrite lookup_insert_ne, lookup_delete_ne.
  - repeat split; [done|discriminate].
Qed.

End PreprocessFacts.

Section ExtraWitness2.
Import Demo Fixtures.

Lemma forward_one_member_ensembling_witness :
  AlphaFoldIteration_forward iteration batch1 ∅ true
  = AlphaFoldIteration_forward iteration batch1 ∅ false.
Proof.
  assert (∀ x : Z, fdiv x (of_Z 1) = x) as Hdiv by (intros x; apply Z.div_1_r).
  assert (batch1 !! "seq_length" = Some (tensor (Dim [vec [2]]))) as Hs
    by (vm_compute; reflexivity).
  exact (forward_one_member_ensembling iteration batch1 ∅ _ Hdiv Hs eq_refl).
Defined.

(** Residue indices far apart, of dtype int32: the difference wraps. *)
Lemma rel_pos_bucket_witness :
  (rel_pos (R := Z) 32 2 [[2000000000; -2000000000; 0]] !! 0%nat)
     ≫= (λ tb : T3 Z, get2 tb 0 1) = Some (one_hot 0 5) ∧
  (rel_pos (R := Z) 32 2 [[10; 11; 15]] !! 0%nat)
     ≫= (λ tb : T3 Z, get2 tb 0 2) = Some (one_hot 0 5) ∧
  clip (wrap 32 (wrap 32 (10 - 15) + 2)) 0 (2 * 2)
    + clip (wrap 32 (wrap 32 (15 - 10) + 2)) 0 (2 * 2) = 2 * 2.
Proof.
  destruct (rel_pos_bucket (R := Z) 32 2 [[2000000000; -2000000000; 0]] 0 0 1
              [2000000000; -2000000000; 0] 2000000000 (-2000000000)
              ltac:(lia) ltac:(lia) ltac:(vm_compute; reflexivity)
              eq_refl eq_refl eq_refl) as (Hw & _).
  destruct (rel_pos_bucket (R := Z) 32 2 [[10; 11; 15]] 0 0 2 [10; 11; 15] 10 15
              ltac:(lia) ltac:(lia) ltac:(vm_compute; reflexivity)
              eq_refl eq_refl eq_refl) as (Hv & _ & _ & _ & _ & _ & Hm).
  split; [exact Hw|]. split; [exact Hv|].
  exact (proj2 (Hm ltac:(vm_compute; split; reflexivity))).
Defined.

Lemma init_params_spec_witness :
  ∃ pd_params : gmap string Z,
    demo_init_params "params_model_1.npz" = Ok pd_params ∧
    pd_params !! "evoformer.w" = Some 1.
Proof.
  destruct (proj2 (init_params_spec (λ _, Ok jax_params) (λ params, params)
                     (λ _, Ok ({[ "evoformer.w" := 7 ]} : gmap string Z))
                     "params_model_1.npz")
              ltac:(vm_compute; reflexivity) jax_params eq_refl)
    as (pd_params & Hp & _ & Hl).
  - apply (bool_decide_unpack _). vm_compute. exact I.
  - intros k Hk. simpl in Hk.
    apply elem_of_cons in Hk as [->|Hk]; [by eexists|].
    apply elem_of_cons in Hk as [->|Hk]; [by eexists|].
    by apply elem_of_nil in Hk.
  - exists pd_params. split; [exact Hp|]. apply Hl. simpl. left.
Defined.

Lemma preprocess_features_witness :
  ∃ (out : gmap string (Tensor Z)) (features : gmap string (NpArray Z)),
    (demo_preprocess data_config raw_features 0 None ∅).1.1 = Ok out ∧
    ∀ (k : string) (a : NpArray Z), features !! k = Some a →
      np_dtype a ≠ int64 ∧ np_dtype a ≠ float64 ∧ np_dtype a ≠ object_.
Proof.
  assert (match demo_preprocess data_config raw_features 0 None ∅ with
          | (Ok _, _, _) => true
          | _ => false
          end = true) as Hrun by (vm_compute; reflexivity).
  destruct (demo_preprocess data_config raw_features 0 None ∅)
    as [[[out|e] raw'] files'] eqn:E; try discriminate Hrun.
  destruct (preprocess_features _ _ _ _ data_config raw_features 0 None ∅
              out raw' files' ltac:(vm_compute; discriminate) eq_refl E)
    as (features & _ & Hd & _).
  exists out, features. split; [reflexivity|exact Hd].
Defined.

Lemma preprocess_cache_is_never_refreshed_witness :
  ∃ (out : gmap string (Tensor Z)) (raw' : gmap string (NpArray Z))
    (files' : gmap string (gmap string (NpArray Z))),
    demo_preprocess data_config raw_features 0 (Some "features.pkl") ∅
      = (Ok out, raw', files') ∧
    demo_preprocess data_config ∅ 1 (Some "features.pkl") files'
      = (Ok out, ∅, files').
Proof.
  assert (match demo_preprocess data_config raw_features 0 (Some "features.pkl") ∅ with
          | (Ok _, _, _) => true
          | _ => false
          end = true) as Hrun by (vm_compute; reflexivity).
  destruct (demo_preprocess data_config raw_features 0 (Some "features.pkl") ∅)
    as [[[out|e] raw'] files'] eqn:E; try discriminate Hrun.
  exists out, raw', files'. split; [reflexivity|].
  exact (proj2 (preprocess_cache_is_never_refreshed _ _ _ _ data_config
                  raw_features 0 "features.pkl" ∅ out raw' files' eq_refl E)
           data_config ∅ 1).
Defined.

Lemma preprocess_mutates_raw_features_witness :
  ∃ (r : result (gmap string (Tensor Z))) (raw' : gmap string (NpArray Z))
    (files' : gmap string (gmap string (NpArray Z))),
    demo_preprocess data_config raw_features 0 None ∅ = (r, raw', files') ∧
    raw' !! "deletion_matrix_int" = None ∧
    raw' !! "deletion_matrix"
      = Some (mkNpArray float32 (Dim [vec [0; 1]])).
Proof.
  destruct (demo_preprocess data_config raw_features 0 None ∅)
    as [[r raw'] files'] eqn:E.
  exists r, raw', files'. split; [reflexivity|].
  assert (raw_features !! "seq_length" = Some (int_array (vec [2; 2]))) as Hs
    by (vm_compute; reflexivity).
  assert (raw_features !! "deletion_matrix_int"
          = Some (int_array (Dim [vec [0; 1]]))) as Hd
    by (vm_compute; reflexivity).
  destruct (preprocess_mutates_raw_features _ _ _ _ data_config raw_features 0
              None ∅ _ (Scalar 2) 2 r raw' files' eq_refl Hs eq_refl eq_refl E)
    as (H1 & H2 & _).
  split; [exact H1|]. exact (H2 _ Hd).
Defined.

End ExtraWitness2.

(** ** TriangleMultiplication: the two equations *)

Lemma zip_with_ext_Forall {A B C} (f g : A → B → C) (P : A → Prop) (Q : B → Prop)
    (l : list A) (k : list B) :
  (∀ x y, P x → Q y → f x y = g x y) → Forall P l → Forall Q k →
  zip_with f l k = zip_with g l k.
Proof.
  intros Hfg Hl. revert k. induction Hl as [|x l Hx _ IH]; intros k Hk; [done|].
  destruct Hk as [|y k Hy Hk]; simpl; [done|]. f_equal; auto.
Qed.

Lemma zip_with_swap {A B C} (f : A → B → C) (l : list A) (k : list B) :
  zip_with f l k = zip_with (λ y x, f x y) k l.
Proof. revert k. induction l; intros [|??]; simpl; f_equal; auto. Qed.

Section TriangleFacts.
Context {R : Type} `{Float R}.

(** X26: the 'incoming' product [einsum('bkjc,bkic->bijc', left, right)] of
    [TriangleMultiplication.forward] is the 'outgoing' product
    [einsum('bikc,bjkc->bijc', ., .)] of the two operands exchanged and
    transposed on their residue axes, for well-formed operands [B, K, J, C]
    and [B, K, I, C] with no empty axis and a commutative multiplication. *)
Theorem triangle_incoming_is_transposed_outgoing (left right : T4 R)
    (B K I J C : nat) :
  (∀ x y : R, fmul x y = fmul y x) →
  (0 < K)%nat → (0 < I)%nat → (0 < J)%nat →
  shaped4 B K J C left → shaped4 B K I C right →
  einsum_bkjc_bkic left right
  = einsum_bikc_bjkc (transpose_021 right) (transpose_021 left).
Proof.
  intros Hcomm HK HI HJ [_ Hl] [_ Hr].
  unfold einsum_bkjc_bkic, einsum_bikc_bjkc, transpose_021.
  rewrite zip_with_fmap_l, zip_with_fmap_r.
  rewrite (zip_with_swap _ (_ : list _) left).
  apply (zip_with_ext_Forall _ _ (shaped3 K J C) (shaped3 K I C)); [|done..].
  intros lb rb Hlb Hrb. unfold transpose.
  rewrite (shaped2_width1 K I rb (shaped3_shaped2 _ _ _ _ Hrb) HK).
  rewrite (shaped2_width1 K J lb (shaped3_shaped2 _ _ _ _ Hlb) HK).
  rewrite (shaped3_width2 K J C lb Hlb HK HJ).
  rewrite fmap_tab. apply tab_ext. intros i Hi.
  rewrite fmap_tab. apply tab_ext. intros j Hj.
  assert (width1 ((λ row : T2 R, row !!! i) <$> rb) = C) as ->.
  { destruct Hrb as [HKr Hrb]. destruct rb as [|r0 rb]; simpl in *; [lia|].
    apply Forall_cons in Hrb as [[HIr Hr0] _].
    destruct (lookup_lt_is_Some_2 r0 i ltac:(lia)) as [v Hv].
    rewrite (lookup_total_Some _ _ _ Hv).
    exact (Forall_lookup_1 _ _ _ _ Hr0 Hv). }
  apply tab_ext. intros c Hc. f_equal.
  rewrite zip_with_fmap_l, zip_with_fmap_r.
  rewrite (zip_with_swap _ (_ : list _) lb).
  apply zip_with_ext; [|done..]. intros lk rk. apply Hcomm.
Qed.

End TriangleFacts.

(** ** GlobalAttention.forward: the shape of the output *)

Section GlobalAttentionShape.
Context {R : Type} `{Float R}.

Lemma length_einsum_hc_hco (x : T2 R) (w : T3 R) :
  length (einsum_hc_hco x w) = width2 w.
Proof. unfold einsum_hc_hco. apply length_tab. Qed.

(** X27: for q_data of shape [n, b, N_queries, .] and output weights with
    [output_dim] channels, [GlobalAttention.forward] returns a tensor of
    shape [n, b, N_queries, output_dim] with gating, and of shape
    [n, b, output_dim, 1] without gating: there the output channels lie on
    axis 2, and the last axis has length one. *)
Theorem global_attention_output_shape (mask_mean : T4 R → T4 R → T3 R)
    (self : GlobalAttention R) (q_data m_data q_mask : T4 R) (bias : T5 R)
    (output_dim : nat) :
  width2 (ga_output_w self) = output_dim →
  length (ga_output_b self) = output_dim →
  Forall2 (λ (qn on : T3 R),
    Forall2 (λ (q_row o_row : T2 R),
      if ga_gating self
      then length o_row = length q_row ∧
           Forall (λ v, length v = output_dim) o_row
      else length o_row = output_dim ∧
           Forall (λ v, length v = 1%nat) o_row) qn on)
    q_data (GlobalAttention_forward mask_mean self q_data m_data q_mask bias).
Proof.
  intros Hw Hb. unfold GlobalAttention_forward. cbv zeta.
  apply Forall2_same_length_lookup_2; [rewrite length_imap; reflexivity|].
  intros n qn on Hqn Hon. rewrite list_lookup_imap, Hqn in Hon.
  injection Hon as <-.
  apply Forall2_same_length_lookup_2; [rewrite length_imap; reflexivity|].
  intros b q_row o_row Hq Ho. rewrite list_lookup_imap, Hq in Ho.
  injection Ho as <-. unfold global_attention_row. cbv zeta.
  destruct (ga_gating self).
  - split; [by rewrite !length_fmap|].
    apply Forall_fmap, Forall_fmap, Forall_true. intros x. simpl.
    rewrite length_zip_with, length_einsum_hc_hco. lia.
  - split.
    + rewrite length_fmap, length_zip_with, length_einsum_hc_hco. lia.
    + apply Forall_fmap, Forall_true. by intros x.
Qed.

End GlobalAttentionShape.

Section ExtraWitness3.
Import Demo Fixtures.

Lemma triangle_incoming_is_transposed_outgoing_witness :
  einsum_bkjc_bkic pair_act pair_act2
  = einsum_bikc_bjkc (transpose_021 pair_act2) (transpose_021 pair_act).
Proof.
  assert (shaped4 1 2 2 1 pair_act) as H1 by (repeat split; repeat constructor).
  assert (shaped4 1 2 2 1 pair_act2) as H2 by (repeat split; repeat constructor).
  exact (triangle_incoming_is_transposed_outgoing pair_act pair_act2 1 2 2 2 1
           Z.mul_comm (Nat.lt_0_succ 1) (Nat.lt_0_succ 1) (Nat.lt_0_succ 1)
           H1 H2).
Defined.

Lemma global_attention_output_shape_witness :
  Forall2 (λ (qn on : T3 Z),
    Forall2 (λ (q_row o_row : T2 Z),
      length o_row = 2%nat ∧ Forall (λ v, length v = 1%nat) o_row) qn on)
    queries
    (GlobalAttention_forward first_query global_attention queries queries
       queries []).
Proof.
  exact (global_attention_output_shape first_query global_attention queries
           queries queries [] 2 eq_refl eq_refl).
Defined.

End ExtraWitness3.
